(** * sghousing: the public housing resale dashboard, [public_housing.py]

    A shallow embedding of the data pipeline of [public_housing.py]: the
    per-period fetch and merge loop, the normalisation (the derived Float32
    metrics and the [with_columns] replace chains), [convert_price_area],
    [df_filter] and the summary computed by [update_text].

    Conventions.
    - A polars string column holds [string]s.  Where a Float column is only
      compared, it holds finite values written as rationals [Q] (comparisons
      of finite floats agree with the comparisons of their rational values);
      where it is computed, in the derived metrics, it holds binary32 numbers
      of the standard library's [spec_float] with their IEEE operations.
    - A DataFrame is its list of column names with its list of rows; reading a
      column that is not listed raises [ColumnNotFoundError].
    - Python exceptions are values of [exn]; code that can raise returns
      [result]. *)

From Stdlib Require Import String Ascii List Bool ZArith QArith Lia.
From Stdlib Require Import DecimalString Permutation.
From Stdlib Require Import Lqa Qpower Qabs.
From Stdlib Require Import Floats.SpecFloat Floats.FloatClass.
Import ListNotations.

Local Open Scope string_scope.
Local Open Scope Z_scope.

(** ** Exceptions and results *)

Inductive exn : Type :=
| ConnectionError                      (* requests: the transport failed *)
| JSONDecodeError                      (* response.json() / missing envelope keys *)
| ColumnNotFoundError (c : string)     (* polars: unknown column *)
| DuplicateError (c : string)          (* polars: column name occurs twice *)
| InvalidOperationError                (* polars: strict cast failed *)
| ShapeError                           (* polars: frames of different widths *)
| AttributeError (a : string)          (* Python: unknown attribute *)
| UnboundLocalError (v : string).      (* Python: local read before assignment *)

Inductive result (A : Type) : Type :=
| Ok (a : A)
| Raised (e : exn).

Arguments Ok {A} a.
Arguments Raised {A} e.

Definition bind {A B : Type} (m : result A) (k : A -> result B) : result B :=
  match m with
  | Ok a => k a
  | Raised e => Raised e
  end.

Notation "x <- m ;; k" := (bind m (fun x => k))
  (at level 61, m at next level, right associativity).

(** ** Strings *)

Module Str.

(** [strip_prefix p s] is [Some rest] when [s = p ++ rest]. *)
Fixpoint strip_prefix (p s : string) : option string :=
  match p, s with
  | EmptyString, _ => Some s
  | String _ _, EmptyString => None
  | String a p', String b s' =>
      if Ascii.eqb a b then strip_prefix p' s' else None
  end.

(** polars [str.replace(pattern, value)] for a pattern without regular
    expression metacharacters: the FIRST (leftmost) occurrence of the
    pattern is replaced, the rest of the string is kept ([n=1] is the
    default of [str.replace]; [str.replace_all] is the one that replaces
    every occurrence). *)
Fixpoint replace (pattern value s : string) : string :=
  match strip_prefix pattern s with
  | Some rest => value ++ rest
  | None =>
      match s with
      | EmptyString => EmptyString
      | String c s' => String c (replace pattern value s')
      end
  end.

(** Literal containment: some suffix of [s] starts with [p]. *)
Fixpoint contains_literal (s p : string) : bool :=
  match strip_prefix p s with
  | Some _ => true
  | None =>
      match s with
      | EmptyString => false
      | String _ s' => contains_literal s' p
      end
  end.

Definition is_lower (c : ascii) : bool :=
  ((97 <=? nat_of_ascii c) && (nat_of_ascii c <=? 122))%nat.

Definition is_digit (c : ascii) : bool :=
  ((48 <=? nat_of_ascii c) && (nat_of_ascii c <=? 57))%nat.

Definition upper_ascii (c : ascii) : ascii :=
  if is_lower c then ascii_of_nat (nat_of_ascii c - 32) else c.

(** Python [str.upper()] on ASCII text: the letters a-z are upper-cased and
    every other ASCII character is kept.  Python's method knows the case
    tables of Unicode; outside ASCII ([is_ascii]) the embedding does not
    follow it, and the statements about the street text are made for
    [plain] texts. *)
Fixpoint upper (s : string) : string :=
  match s with
  | EmptyString => EmptyString
  | String c s' => String (upper_ascii c) (upper s')
  end.

Fixpoint all_chars (f : ascii -> bool) (s : string) : bool :=
  match s with
  | EmptyString => true
  | String c s' => f c && all_chars f s'
  end.

(** The characters the regex crate gives a meaning to. *)
Definition regex_meta (c : ascii) : bool :=
  existsb (Ascii.eqb c)
    (list_ascii_of_string "\.+*?()|[]{}^$#&-~").

(** A pattern that the regular-expression engine reads literally. *)
Definition regex_literal (p : string) : bool :=
  all_chars (fun c => negb (regex_meta c)) p.

Definition is_ascii (c : ascii) : bool := (nat_of_ascii c <? 128)%nat.

(** A text of ASCII characters none of which the regular-expression engine
    gives a meaning to: on such a text [upper] is Python's [str.upper()], and
    its upper-cased form is a pattern that [str.contains] reads literally. *)
Definition plain (s : string) : bool :=
  all_chars (fun c => is_ascii c && negb (regex_meta c)) s.

(** polars [str.contains(pattern)]: the pattern is compiled as a regular
    expression and searched in the value, case-sensitively.  For a
    [regex_literal] pattern that is literal containment, which is what is
    computed here.  The embedding has no regular-expression engine: a
    pattern with a metacharacter (an alternation "A|B", an unbalanced "(" that
    the engine refuses) is outside it, and every statement on which rows
    the street text selects is made for [plain] texts. *)
Definition contains (s pattern : string) : bool :=
  contains_literal s pattern.

(** Pieces of [s] between occurrences of the separator character. *)
Fixpoint split_on (sep : ascii) (s : string) : list string :=
  match s with
  | EmptyString => [EmptyString]
  | String c s' =>
      if Ascii.eqb c sep then EmptyString :: split_on sep s'
      else match split_on sep s' with
           | [] => [String c EmptyString]
           | piece :: pieces => String c piece :: pieces
           end
  end.

End Str.

(** ** The normaliser: derived metrics (source lines 63-70) *)

(** The Float32 columns: IEEE binary32, a 24-bit mantissa and exponents
    below 128, with the operations of [SpecFloat]. *)
Module F32.

Definition prec : Z := 24.
Definition emax : Z := 128.

(** Float32 times Float32, Float32 by Float32: rounded to nearest, ties to
    even. *)
Definition mul : spec_float -> spec_float -> spec_float := SFmul prec emax.
Definition div : spec_float -> spec_float -> spec_float := SFdiv prec emax.

(** The Float32 nearest to an integer. *)
Definition of_Z (n : Z) : spec_float := binary_normalize prec emax n 0 false.

(** The Float32 nearest to a binary64 number. *)
Definition of_float64 (x : spec_float) : spec_float :=
  match x with
  | S754_finite s m e => binary_normalize prec emax (cond_Zopp s (Zpos m)) e s
  | _ => x
  end.

(** The Python literal [10.7639] is the binary64 nearest to the decimal,
    the correctly rounded quotient of 107639 by 10000; in an expression with a
    Float32 column polars takes it at the type of the column. *)
Definition literal_10_7639 : spec_float :=
  of_float64 (SFdiv 53 1024 (binary_normalize 53 1024 107639 0 false)
                (binary_normalize 53 1024 10000 0 false)).

(** The number a finite float stands for. *)
Definition value (x : spec_float) : Q :=
  match x with
  | S754_finite s m e => (inject_Z (cond_Zopp s (Zpos m)) * (2 # 1) ^ e)%Q
  | _ => 0%Q
  end.

(** A finite number above zero. *)
Definition positive_finite (x : spec_float) : Prop :=
  exists m e, x = S754_finite false m e.

(** A positive normal number: finite, above zero, with all [prec] digits
    (no underflow into the subnormal range, no overflow). *)
Definition normal (x : spec_float) : Prop := SFclassify prec x = PNormal.

End F32.

(** [(pl.col("area_sqm") * 10.7639).alias('area_sqft')] *)
Definition area_sqft_of (area_sqm : spec_float) : spec_float :=
  F32.mul area_sqm F32.literal_10_7639.

(** [(pl.col("price") / pl.col("area_sqm")).alias('price_sqm')] *)
Definition price_sqm_of (price area_sqm : spec_float) : spec_float :=
  F32.div price area_sqm.

(** [(pl.col("price") / pl.col('area_sqft')).alias("price_sqft")]: the
    [area_sqft] column of the previous [with_columns]. *)
Definition price_sqft_of (price area_sqm : spec_float) : spec_float :=
  F32.div price (area_sqft_of area_sqm).

(** The fraction [a / b] lies where a shift record of the rounding says: at
    its mantissa, strictly between the mantissa and the next half, at that
    half, or beyond it. *)
Definition located (mrs : shr_record) (a b : Z) : Prop :=
  let m := shr_m mrs in
  match shr_r mrs, shr_s mrs with
  | false, false => a = m * b
  | false, true => 2 * m * b < 2 * a < (2 * m + 1) * b
  | true, false => 2 * a = (2 * m + 1) * b
  | true, true => (2 * m + 1) * b < 2 * a < (2 * m + 2) * b
  end.

(** ** The normaliser: string columns (source lines 71-81) *)

(** [pl.col('lease_mths').str.replace("s", "").str.replace(" year", "y")
      .str.replace(" month", "m")] *)
Definition lease_left_of (remaining_lease : string) : string :=
  Str.replace " month" "m"
    (Str.replace " year" "y"
       (Str.replace "s" "" remaining_lease)).

(** [pl.col('flat').str.replace(" ROOM", "RM").str.replace("EXECUTIVE", 'EC')
      .str.replace("MULTI-GENERATION", "MG")] *)
Definition flat_of (flat_type : string) : string :=
  Str.replace "MULTI-GENERATION" "MG"
    (Str.replace "EXECUTIVE" "EC"
       (Str.replace " ROOM" "RM" flat_type)).

(** [pl.col("storey_range").str.replace(" TO ", "-")] *)
Definition storey_range_of (storey_range : string) : string :=
  Str.replace " TO " "-" storey_range.

(** ["BLK " + pl.col('block') + " " + pl.col("street_name")] *)
Definition street_name_of (block street_name : string) : string :=
  "BLK " ++ block ++ " " ++ street_name.


(** ** The fetch and merge loop (source lines 36-56) *)

Module Raw.
(** One record of the datastore: the fields of [df_cols], all text. *)
Record t : Type := mk {
  month : string;
  town : string;
  flat_type : string;
  block : string;
  street_name : string;
  storey_range : string;
  floor_area_sqm : string;
  remaining_lease : string;
  resale_price : string
}.
End Raw.

(** What [requests.get] hands back when it returns: the status code and the
    outcome of [response.json().get("result").get("records")]. *)
Record Response : Type := {
  status_code : Z;
  json_records : result (list Raw.t)
}.

Section Fetch.

(** [requests.get(full_url, params=...)] for a period: a response, or the
    exception the transport raises. *)
Variable requests_get : string -> result Response.

(** The raw frame [pl.DataFrame(records)] is written as its list of rows.
    Its columns are read off the records: a frame with a row has the nine
    columns of [df_cols], and [pl.DataFrame()], like the frame of an empty
    record list, has no column and is the empty list. *)
Definition fetch_data_for_period (period : string) : result (list Raw.t) :=
  response <- requests_get period ;;
  if status_code response =? 200
  then json_records response
  else Ok [].

(** [pl.concat([recent_df, mth_df], how='vertical')]: the second frame is
    stacked below the first.  A first frame without columns gives way to the
    second; a second frame whose width differs from that of a first frame
    with columns is refused, and a frame without columns below a frame with
    rows is such a frame. *)
Definition concat_vertical (recent_df mth_df : list Raw.t) : result (list Raw.t) :=
  match recent_df, mth_df with
  | [], _ => Ok mth_df
  | _ :: _, [] => Raised ShapeError
  | _ :: _, _ :: _ => Ok (recent_df ++ mth_df)%list
  end.

(** The loop over [as_completed(futures)].  [completed] lists the periods
    in the order their futures complete; [future.result()] returns what
    [fetch_data_for_period] returned or raises what it raised, and the frame
    is stacked below [recent_df]. *)
Fixpoint merge_completed (completed : list string) (recent_df : list Raw.t)
  : result (list Raw.t) :=
  match completed with
  | [] => Ok recent_df
  | period :: rest =>
      mth_df <- fetch_data_for_period period ;;
      recent_df <- concat_vertical recent_df mth_df ;;
      merge_completed rest recent_df
  end.

Definition recent_df (completed : list string) : result (list Raw.t) :=
  merge_completed completed [].

(** The rows a period contributes when its request returned. *)
Definition batch_of (period : string) : list Raw.t :=
  match requests_get period with
  | Ok response =>
      if status_code response =? 200
      then match json_records response with Ok records => records | Raised _ => [] end
      else []
  | Raised _ => []
  end.

End Fetch.

(** ** Frames of canonical records *)

Module Rec.
(** A row of the canonical table, in the order of [table_cols]. *)
Record t : Type := mk {
  month : string;
  town : string;
  flat : string;
  street_name : string;
  storey_range : string;
  lease_left : string;
  area_sqm : Q;
  area_sqft : Q;
  price_sqm : Q;
  price_sqft : Q;
  price : Q
}.
End Rec.

(** A row of a frame: the canonical fields and the two fields [unnest] adds.
    A field whose column is not among the frame's [columns] cannot be read. *)
Record Row : Type := {
  rec : Rec.t;
  year_count : option Z;
  mth_count : option string
}.

Record DataFrame : Type := {
  columns : list string;
  rows : list Row
}.

Definition table_cols : list string :=
  ["month"; "town"; "flat"; "street_name"; "storey_range";
   "lease_left"; "area_sqm"; "area_sqft"; "price_sqm";
   "price_sqft"; "price"].

(** A row of the canonical table: nothing unnested yet. *)
Definition canonical_row (r : Rec.t) : Row :=
  {| rec := r; year_count := None; mth_count := None |}.

(** The canonical table [df[table_cols]] built at start-up. *)
Definition canonical_table (records : list Rec.t) : DataFrame :=
  {| columns := table_cols; rows := map canonical_row records |}.

(** [df.write_json()] / [df.to_dicts()]: one object per row, keyed by the
    column names.  [pl.DataFrame(json.loads(data_json))] reads the column
    names off the objects, so a list with no object gives a frame with no
    column. *)
Definition write_json (df : DataFrame) : DataFrame := df.

Definition pl_DataFrame (data : DataFrame) : DataFrame :=
  match rows data with
  | [] => {| columns := []; rows := [] |}
  | _ :: _ => data
  end.

Definition has_column (c : string) (df : DataFrame) : bool :=
  existsb (String.eqb c) (columns df).

Fixpoint first_missing (needed : list string) (df : DataFrame) : option string :=
  match needed with
  | [] => None
  | c :: rest => if has_column c df then first_missing rest df else Some c
  end.

(** [df.filter(...)] with a predicate over the columns [needed]. *)
Definition filter_df (needed : list string) (p : Row -> bool) (df : DataFrame)
  : result DataFrame :=
  match first_missing needed df with
  | Some c => Raised (ColumnNotFoundError c)
  | None => Ok {| columns := columns df; rows := filter p (rows df) |}
  end.

(** [df.drop(c1, c2)]: the columns must exist. *)
Definition drop_df (dropped : list string) (df : DataFrame) : result DataFrame :=
  match first_missing dropped df with
  | Some c => Raised (ColumnNotFoundError c)
  | None =>
      Ok {| columns :=
              filter (fun c => negb (existsb (String.eqb c) dropped)) (columns df);
            rows := rows df |}
  end.

(** The Float columns by name. *)
Definition float_column (c : string) : option (Row -> Q) :=
  if String.eqb c "area_sqm" then Some (fun r => Rec.area_sqm (rec r))
  else if String.eqb c "area_sqft" then Some (fun r => Rec.area_sqft (rec r))
  else if String.eqb c "price_sqm" then Some (fun r => Rec.price_sqm (rec r))
  else if String.eqb c "price_sqft" then Some (fun r => Rec.price_sqft (rec r))
  else if String.eqb c "price" then Some (fun r => Rec.price (rec r))
  else None.

(** ** Values coming from the page's inputs *)

(** A [dcc.Input(type="number")] value: a Python int or float. *)
Inductive number : Type :=
| PyInt (n : Z)
| PyFloat (q : Q).

(** Python truthiness of an optional number: [None], [0] and [0.0] are
    false. *)
Definition truthy (v : option number) : bool :=
  match v with
  | None => false
  | Some (PyInt n) => negb (n =? 0)
  | Some (PyFloat q) => negb (Qnum q =? 0)
  end.

(** Python truthiness of an optional string: [None] and [""] are false. *)
Definition truthy_str (v : option string) : bool :=
  match v with
  | None => false
  | Some s => negb (String.eqb s "")
  end.

(** Python [int(x)]: truncation toward zero. *)
Definition int (v : number) : Z :=
  match v with
  | PyInt n => n
  | PyFloat q => Z.quot (Qnum q) (Zpos (Qden q))
  end.

Definition to_Q (v : number) : Q :=
  match v with
  | PyInt n => inject_Z n
  | PyFloat q => q
  end.

Definition Qlt_bool (x y : Q) : bool := negb (Qle_bool y x).

(** Python [l[start:]]. *)
Definition slice_from {A : Type} (start : Z) (l : list A) : list A :=
  let len := Z.of_nat (length l) in
  let i := if start <? 0 then Z.max 0 (start + len) else Z.min start len in
  skipn (Z.to_nat i) l.

(** A [date]; only the year and the month are read. *)
Record date : Type := { year : Z; mon : Z }.

Definition digits_of (n : Z) : string :=
  NilZero.string_of_uint (N.to_uint (Z.to_N n)).

Fixpoint zeros (k : nat) (s : string) : string :=
  match k with
  | O => s
  | S k' => String "0" (zeros k' s)
  end.

Definition zero_pad (width : nat) (s : string) : string :=
  zeros (width - String.length s) s.

(** [d.strftime("%Y-%m")] for a year of at most four digits. *)
Definition strftime_Y_m (d : date) : string :=
  zero_pad 4 (digits_of (year d)) ++ "-" ++ zero_pad 2 (digits_of (mon d)).


(** ** [convert_price_area] (source lines 118-135) *)

Definition convert_price_area (price_type area_type : string) : string * string :=
  let area_type :=
    if String.eqb area_type "Sq M" then "area_sqm" else "area_sqft" in
  let price_type :=
    if String.eqb price_type "Price" then "price"
    else if String.eqb area_type "area_sqm" then "price_sqm"
    else "price_sqft" in
  (price_type, area_type).

(** ** [df_filter] (source lines 168-223) *)

(** [str.split_exact("y", 1)]: the text before the first "y", and the piece
    after it when there is one. *)
Definition split_exact_y (s : string) : string * option string :=
  match Str.split_on "y" s with
  | [] => (s, None)
  | [field_0] => (field_0, None)
  | field_0 :: field_1 :: _ => (field_0, Some field_1)
  end.

Fixpoint digits_value (acc : Z) (s : string) : option Z :=
  match s with
  | EmptyString => Some acc
  | String c s' =>
      if Str.is_digit c
      then digits_value (10 * acc + Z.of_nat (nat_of_ascii c - 48)) s'
      else None
  end.

(** The strict [cast(pl.Int32)] of one string: an optional sign and at least
    one decimal digit, within the 32-bit range; [None] when the cast fails. *)
Definition cast_int32 (s : string) : option Z :=
  let '(sign, body) :=
    match s with
    | String "-" s' => (-1, s')
    | String "+" s' => (1, s')
    | _ => (1, s)
    end in
  match body with
  | EmptyString => None
  | String _ _ =>
      match digits_value 0 body with
      | Some v =>
          let n := sign * v in
          if (- 2 ^ 31 <=? n) && (n <? 2 ^ 31) then Some n else None
      | None => None
      end
  end.

Fixpoint traverse {A B : Type} (f : A -> result B) (l : list A) : result (list B) :=
  match l with
  | [] => Ok []
  | a :: l' =>
      b <- f a ;;
      bs <- traverse f l' ;;
      Ok (b :: bs)
  end.

(** One row through [split_exact], [unnest] and the cast of [year_count]. *)
Definition unnest_row (r : Row) : result Row :=
  let '(field_0, field_1) := split_exact_y (Rec.lease_left (rec r)) in
  match cast_int32 field_0 with
  | Some n => Ok {| rec := rec r; year_count := Some n; mth_count := field_1 |}
  | None => Raised InvalidOperationError
  end.

(** [with_columns(... .alias("fields")).unnest("fields")] followed by
    [with_columns(pl.col('year_count').cast(pl.Int32))]: needs [lease_left],
    refuses to add a column name the frame already has, and the cast raises
    when one row's text is not an integer. *)
Definition unnest_fields (df : DataFrame) : result DataFrame :=
  if negb (has_column "lease_left" df) then Raised (ColumnNotFoundError "lease_left")
  else if has_column "year_count" df then Raised (DuplicateError "year_count")
  else if has_column "mth_count" df then Raised (DuplicateError "mth_count")
  else
    rows' <- traverse unnest_row (rows df) ;;
    Ok {| columns := columns df ++ ["year_count"; "mth_count"]; rows := rows' |}.

Definition is_in (x : string) (l : list string) : bool :=
  existsb (String.eqb x) l.

(** [pl.col("year_count") >= bound]; a null never satisfies a comparison. *)
Definition year_count_ge (bound : Z) (r : Row) : bool :=
  match year_count r with
  | Some y => bound <=? y
  | None => false
  end.

(** [df.filter(pl.col(c) <cmp> bound)] on a Float column. *)
Definition filter_float (c : string) (cmp : Q -> Q -> bool) (bound : number)
  (df : DataFrame) : result DataFrame :=
  match float_column c with
  | Some get => filter_df [c] (fun r => cmp (get r) (to_Q bound)) df
  | None => Raised (ColumnNotFoundError c)
  end.

Definition Qge_bool (x y : Q) : bool := Qle_bool y x.

(** [if v: df = step(v, df)]: the step runs when the value is truthy. *)
Definition when_truthy (v : option number)
  (step : number -> DataFrame -> result DataFrame) (df : DataFrame)
  : result DataFrame :=
  match v with
  | Some x => if truthy v then step x df else Ok df
  | None => Ok df
  end.

Definition when_truthy_str (v : option string)
  (step : string -> DataFrame -> result DataFrame) (df : DataFrame)
  : result DataFrame :=
  match v with
  | Some s => if truthy_str v then step s df else Ok df
  | None => Ok df
  end.

Definition df_filter (month : Z) (town : string) (flat : list string)
  (area_type : string) (max_area min_area : option number)
  (price_type : string) (max_price min_price : option number)
  (min_lease max_lease : option number) (street_name : option string)
  (yr mth : Z) (selected_mths : list date) (data_json : DataFrame)
  : result DataFrame :=
  let df := pl_DataFrame data_json in
  let selected_mths := map strftime_Y_m (slice_from (- month) selected_mths) in
  df <- filter_df ["month"; "flat"]
          (fun r => is_in (Rec.month (rec r)) selected_mths
                    && is_in (Rec.flat (rec r)) flat) df ;;
  df <- when_truthy_str street_name
          (fun s => filter_df ["street_name"]
             (fun r => Str.contains (Rec.street_name (rec r)) (Str.upper s))) df ;;
  df <- unnest_fields df ;;
  df <- when_truthy max_lease
          (fun v => filter_df ["year_count"] (year_count_ge (int v))) df ;;
  df <- when_truthy min_lease
          (fun v => filter_df ["year_count"] (year_count_ge (int v))) df ;;
  let '(price_type, area_type) := convert_price_area price_type area_type in
  df <- (if String.eqb area_type "area_sqft"
         then drop_df ["price_sqm"; "area_sqm"] df
         else drop_df ["price_sqft"; "area_sqft"] df) ;;
  df <- (if negb (String.eqb town "All")
         then filter_df ["town"] (fun r => String.eqb (Rec.town (rec r)) town) df
         else Ok df) ;;
  df <- when_truthy max_price (filter_float price_type Qle_bool) df ;;
  df <- when_truthy min_price (filter_float price_type Qge_bool) df ;;
  (* [df.filter(...)] is evaluated and its value is not assigned *)
  df <- when_truthy max_area
          (fun v df => _ <- filter_float area_type Qle_bool v df ;; Ok df) df ;;
  df <- when_truthy min_area (filter_float area_type Qge_bool) df ;;
  Ok df.

(** [filtered_data] (source lines 527-534): the callback hands [max_lease]
    and [min_lease] over in the order [max_lease, min_lease], where
    [df_filter] expects [min_lease, max_lease]. *)
Definition filtered_data (town area_type price_type : string)
  (max_lease min_lease : option number) (month : Z) (flat : list string)
  (max_area min_area max_price min_price : option number)
  (street_name : option string) (yr mth : Z) (selected_mths : list date)
  (data_json : DataFrame) : result DataFrame :=
  df <- df_filter month town flat area_type max_area min_area price_type
          max_price min_price max_lease min_lease street_name yr mth
          selected_mths data_json ;;
  Ok (write_json df).

(** ** [update_text] (source lines 557-613) *)

(** Python [min] and [max] over a non-empty sequence: the first of the
    smallest, the first of the largest. *)
Definition py_min (l : list Q) : option Q :=
  match l with
  | [] => None
  | x :: l' => Some (fold_left (fun m y => if Qlt_bool y m then y else m) l' x)
  end.

Definition py_max (l : list Q) : option Q :=
  match l with
  | [] => None
  | x :: l' => Some (fold_left (fun m y => if Qlt_bool m y then y else m) l' x)
  end.

(** [df.select(c).to_series()] for a Float column. *)
Definition select_series (c : string) (df : DataFrame) : result (list Q) :=
  match float_column c with
  | Some get =>
      if has_column c df then Ok (map get (rows df))
      else Raised (ColumnNotFoundError c)
  | None => Raised (ColumnNotFoundError c)
  end.

Definition series_min (c : string) (df : DataFrame) : result Q :=
  s <- select_series c df ;;
  match py_min s with
  | Some m => Ok m
  | None => Raised (AttributeError "min")
  end.

Definition series_max (c : string) (df : DataFrame) : result Q :=
  s <- select_series c df ;;
  match py_max s with
  | Some m => Ok m
  | None => Raised (AttributeError "max")
  end.

(** [df.select(c).to_serise()]: the selection is evaluated, then the
    attribute lookup fails. *)
Definition series_max_to_serise (c : string) (df : DataFrame) : result Q :=
  _ <- select_series c df ;;
  Raised (AttributeError "to_serise").

Inductive lease_note : Type :=
| LeaseFromTo (min_lease max_lease : number)
| LeaseGe (min_lease : number)
| LeaseLe (max_lease : number)
| NoLeaseNote.

(** The values the summary text is formatted from. *)
Record Summary : Type := {
  s_town : string;
  s_price_type : string;
  s_area_type : string;
  price_min : Q;
  price_max : Q;
  area_min : Q;
  area_max : Q;
  s_lease : lease_note;
  records : nat
}.

Inductive SummaryText : Type :=
| NoResults                  (* "<< YOUR SEARCH HAS NO RESULTS >>" *)
| Searched (s : Summary).

Definition update_text (data : DataFrame) (town area_type price_type : string)
  (max_lease min_lease : option number) : result SummaryText :=
  let df := pl_DataFrame data in
  let records := length (rows df) in
  if (0 <? records)%nat then
    bounds <-
      (if String.eqb price_type "Price" && String.eqb area_type "Sq M" then
         price_min <- series_min "price" df ;;
         price_max <- series_max "price" df ;;
         area_min <- series_min "area_sqm" df ;;
         area_max <- series_max "area_sqm" df ;;
         Ok (price_type, price_min, price_max, area_min, area_max)
       else if String.eqb price_type "Price" && String.eqb area_type "Sq Feet" then
         price_min <- series_min "price" df ;;
         price_max <- series_max "price" df ;;
         area_min <- series_min "area_sqft" df ;;
         area_max <- series_max "area_sqft" df ;;
         Ok (price_type, price_min, price_max, area_min, area_max)
       else if String.eqb price_type "Price / Area" && String.eqb area_type "Sq M" then
         price_min <- series_min "price_sqm" df ;;
         price_max <- series_max_to_serise "price_sqm" df ;;
         area_min <- series_min "area_sqm" df ;;
         area_max <- series_max "area_sqm" df ;;
         Ok ("Price / Sq M", price_min, price_max, area_min, area_max)
       else if String.eqb price_type "Price / Area" && String.eqb area_type "Sq Feet" then
         price_min <- series_min "price_sqft" df ;;
         price_max <- series_max "price_sqft" df ;;
         area_min <- series_min "area_sqft" df ;;
         area_max <- series_max "area_sqft" df ;;
         Ok ("Price / Sq Feet", price_min, price_max, area_min, area_max)
       else Raised (UnboundLocalError "price_min")) ;;
    let '(price_type, price_min, price_max, area_min, area_max) := bounds in
    let lease :=
      match min_lease, max_lease with
      | Some lo, Some hi =>
          if truthy min_lease && truthy max_lease then LeaseFromTo lo hi
          else if truthy min_lease then LeaseGe lo
          else if truthy max_lease then LeaseLe hi
          else NoLeaseNote
      | Some lo, None => if truthy min_lease then LeaseGe lo else NoLeaseNote
      | None, Some hi => if truthy max_lease then LeaseLe hi else NoLeaseNote
      | None, None => NoLeaseNote
      end in
    Ok (Searched {| s_town := town; s_price_type := price_type;
                    s_area_type := area_type;
                    price_min := price_min; price_max := price_max;
                    area_min := area_min; area_max := area_max;
                    s_lease := lease; records := records |})
  else Ok NoResults.


(** ** [grid_format] and [update_table] (source lines 138-165, 542-551) *)

(** One column definition of the grid; every one is sortable. *)
Record ColumnDef : Type := {
  field : string;
  sortable : bool;
  width : Z;
  maxWidth : Z;
  valueFormatter : option string
}.

Definition money_format : string := "d3.format('($,.2f')(params.value)".
Definition number_format : string := "d3.format('(,.2f')(params.value)".

(** The seven definitions [output] starts with. *)
Definition grid_base : list ColumnDef :=
  [ {| field := "month"; sortable := true; width := 100; maxWidth := 100;
       valueFormatter := None |};
    {| field := "flat"; sortable := true; width := 70; maxWidth := 70;
       valueFormatter := None |};
    {| field := "town"; sortable := true; width := 180; maxWidth := 300;
       valueFormatter := None |};
    {| field := "street_name"; sortable := true; width := 380; maxWidth := 800;
       valueFormatter := None |};
    {| field := "storey_range"; sortable := true; width := 130; maxWidth := 130;
       valueFormatter := None |};
    {| field := "lease_left"; sortable := true; width := 100; maxWidth := 100;
       valueFormatter := None |};
    {| field := "price"; sortable := true; width := 150; maxWidth := 200;
       valueFormatter := Some money_format |} ].

(** The body of the loop over [table.columns]: what one column appends;
    [x in col] is Python's substring test. *)
Definition grid_column (col : string) : list ColumnDef :=
  if Str.contains_literal col "price_"
  then [ {| field := col; sortable := true; width := 120; maxWidth := 120;
            valueFormatter := Some money_format |} ]
  else if Str.contains_literal col "area"
  then [ {| field := col; sortable := true; width := 120; maxWidth := 120;
            valueFormatter := Some number_format |} ]
  else [].

Definition grid_format (table : DataFrame) : list ColumnDef :=
  grid_base ++ flat_map grid_column (columns table).

(** [update_table]: the rows without the two unnested columns, and their
    grid.  [df is not None] always holds. *)
Definition update_table (data : DataFrame) (area_type price_type : string)
  : result (DataFrame * list ColumnDef) :=
  df <- drop_df ["year_count"; "mth_count"] (pl_DataFrame data) ;;
  Ok (write_json df, grid_format df).

(** ** The figures (source lines 619-742) *)

(** A value of a frame, as it reaches a trace. *)
Inductive cell : Type :=
| Num (q : Q)
| Text (s : string)
| Count (n : option Z).

(** The value of a row in a column, by name. *)
Definition cell_of (c : string) : option (Row -> cell) :=
  if String.eqb c "month" then Some (fun r => Text (Rec.month (rec r)))
  else if String.eqb c "town" then Some (fun r => Text (Rec.town (rec r)))
  else if String.eqb c "flat" then Some (fun r => Text (Rec.flat (rec r)))
  else if String.eqb c "street_name" then Some (fun r => Text (Rec.street_name (rec r)))
  else if String.eqb c "storey_range" then Some (fun r => Text (Rec.storey_range (rec r)))
  else if String.eqb c "lease_left" then Some (fun r => Text (Rec.lease_left (rec r)))
  else if String.eqb c "year_count" then Some (fun r => Count (year_count r))
  else if String.eqb c "mth_count"
  then Some (fun r => match mth_count r with
                      | Some s => Text s
                      | None => Count None
                      end)
  else match float_column c with
       | Some get => Some (fun r => Num (get r))
       | None => None
       end.

(** [df.select(c).to_series()] for any column. *)
Definition select_cells (c : string) (df : DataFrame) : result (list cell) :=
  match cell_of c with
  | Some get =>
      if has_column c df then Ok (map get (rows df))
      else Raised (ColumnNotFoundError c)
  | None => Raised (ColumnNotFoundError c)
  end.

(** [list(df[base_cols].to_numpy())]: one list of values per row. *)
Fixpoint select_columns (cols : list string) (df : DataFrame)
  : result (list (Row -> cell)) :=
  match cols with
  | [] => Ok []
  | c :: rest =>
      match cell_of c with
      | Some get =>
          if has_column c df
          then gets <- select_columns rest df ;; Ok (get :: gets)
          else Raised (ColumnNotFoundError c)
      | None => Raised (ColumnNotFoundError c)
      end
  end.

Definition to_numpy (cols : list string) (df : DataFrame)
  : result (list (list cell)) :=
  gets <- select_columns cols df ;;
  Ok (map (fun r => map (fun get => get r) gets) (rows df)).

(** What a placeholder of a hover template refers to. *)
Inductive hover_ref : Type :=
| HoverY
| HoverX
| HoverCustom (i : nat).

(** A scatter or box figure: its series, the per-point [customdata], the
    labelled placeholders of its hover template in their order, its title. *)
Record Figure : Type := {
  trace_y : list cell;
  trace_x : list cell;
  customdata : list (list cell);
  hovertemplate : list (string * hover_ref);
  title : string
}.

(** [update_g0]: price against price per area. *)
Definition update_g0 (data : DataFrame) (town area_type price_type : string)
  (max_lease min_lease : option number) : result Figure :=
  let df := pl_DataFrame data in
  let '(price_col, area_type) :=
    if String.eqb area_type "Sq M" then ("price_sqm", "area_sqm")
    else ("price_sqft", "area_sqft") in
  let base_cols := (["price"; "town"; "street_name"] ++ [area_type])%list in
  customdata_set <- to_numpy base_cols df ;;
  y <- select_cells "price" df ;;
  x <- select_cells price_col df ;;
  Ok {| trace_y := y; trace_x := x; customdata := customdata_set;
        hovertemplate :=
          [("Price", HoverY); ("Area", HoverCustom 3); ("Price/Area", HoverX);
           ("Town", HoverCustom 0); ("Street Name", HoverCustom 1);
           ("Lease Left", HoverCustom 2)];
        title := "[ price ] VS [ " ++ price_col ++ " ]" |}.

(** [update_g2]: the resolved price column against the years of lease. *)
Definition update_g2 (data : DataFrame) (town area_type price_type : string)
  (max_lease min_lease : option number) : result Figure :=
  let df := pl_DataFrame data in
  let '(price_col, area_type) := convert_price_area price_type area_type in
  let base_cols := (["price"; "town"; "street_name"] ++ [area_type])%list in
  customdata_set <- to_numpy base_cols df ;;
  y <- select_cells price_col df ;;
  x <- select_cells "year_count" df ;;
  Ok {| trace_y := y; trace_x := x; customdata := customdata_set;
        hovertemplate :=
          [("Price/" ++ price_col, HoverY); ("Price", HoverCustom 0);
           ("Area", HoverCustom 3); ("Town", HoverCustom 1);
           ("Street Name", HoverCustom 2); ("Lease Left", HoverX)];
        title := "[ " ++ price_col ++ " ] VS [ lease_left ]" |}.

(** [update_g1]: the box plot of the resolved price column. *)
Definition update_g1 (data : DataFrame) (town area_type price_type : string)
  (max_lease min_lease : option number) : result Figure :=
  let df := pl_DataFrame data in
  let '(price_col, area_type) := convert_price_area price_type area_type in
  y <- select_cells price_col df ;;
  Ok {| trace_y := y; trace_x := []; customdata := []; hovertemplate := [];
        title := "[ " ++ price_col ++ " ] Distributions" |}.

(** What the hover box of point [i] shows under a label. *)
Definition hover_value (fig : Figure) (label : string) (i : nat) : option cell :=
  match find (fun entry => String.eqb (fst entry) label) (hovertemplate fig) with
  | Some (_, HoverY) => nth_error (trace_y fig) i
  | Some (_, HoverX) => nth_error (trace_x fig) i
  | Some (_, HoverCustom k) =>
      match nth_error (customdata fig) i with
      | Some point => nth_error point k
      | None => None
      end
  | None => None
  end.

(** ** The periods (source lines 17-23 and 110-112) *)

(** The first month of the data: [datetime(2024, 1, 1)]. *)
Definition first_month : date := {| year := 2024; mon := 1 |}.

Definition next_month (d : date) : date :=
  if mon d =? 12
  then {| year := year d + 1; mon := 1 |}
  else {| year := year d; mon := mon d + 1 |}.

Fixpoint months_from (d : date) (n : nat) : list date :=
  match n with
  | O => []
  | S k => d :: months_from (next_month d) k
  end.

(** The position of a month counted from year 0. *)
Definition month_index (d : date) : Z := 12 * year d + mon d.

(** [pl.date_range(date(2024, 1, 1), end, "1mo", eager=True).to_list()] for
    an end in the month [mth] of the year [yr]: the first days of the months
    from January 2024 to that month, none when the end is earlier. *)
Definition date_range_to (yr mth : Z) : list date :=
  months_from first_month (Z.to_nat (12 * (yr - 2024) + mth)).

(** [str(i)] for the first day of a month at midnight. *)
Definition str_datetime (d : date) : string :=
  zero_pad 4 (digits_of (year d)) ++ "-" ++ zero_pad 2 (digits_of (mon d))
  ++ "-01 00:00:00".

(** [[str(i)[:7] for i in pl.date_range(...).to_list()]] *)
Definition total_periods (yr mth : Z) : list string :=
  map (fun i => substring 0 7 (str_datetime i)) (date_range_to yr mth).

(** [total_periods[-6:]] *)
Definition recent_periods (yr mth : Z) : list string :=
  slice_from (- 6) (total_periods yr mth).

(** ** What [df_filter] keeps, step by step

    The row predicates of the steps of [df_filter], used to state what the
    function returns on a canonical table. *)

(** [[i.strftime("%Y-%m") for i in selected_mths[-int(month):]]] *)
Definition selected_periods (month : Z) (selected_mths : list date) : list string :=
  map strftime_Y_m (slice_from (- month) selected_mths).

Definition keep_month_flat (periods flat : list string) (r : Row) : bool :=
  is_in (Rec.month (rec r)) periods && is_in (Rec.flat (rec r)) flat.

Definition keep_street (street_name : option string) (r : Row) : bool :=
  match street_name with
  | Some s =>
      if truthy_str street_name
      then Str.contains (Rec.street_name (rec r)) (Str.upper s)
      else true
  | None => true
  end.

Definition keep_when (v : option number) (p : number -> Row -> bool) (r : Row)
  : bool :=
  match v with
  | Some x => if truthy v then p x r else true
  | None => true
  end.

Definition keep_town (town : string) (r : Row) : bool :=
  if negb (String.eqb town "All") then String.eqb (Rec.town (rec r)) town else true.

(** The value of a Float column in a row. *)
Definition column_value (c : string) (r : Row) : Q :=
  match float_column c with
  | Some get => get r
  | None => 0%Q
  end.

Definition price_column (price_type area_type : string) : string :=
  fst (convert_price_area price_type area_type).

Definition area_column (area_type : string) : string :=
  snd (convert_price_area "Price" area_type).

(** The rows of the second half of [df_filter]: lease bounds, town, price
    bounds and the lower area bound.  The upper area bound is absent: its
    filter is not assigned. *)
Definition keep_bounds (town area_type price_type : string)
  (min_area max_price min_price min_lease max_lease : option number)
  (r : Row) : bool :=
  keep_when max_lease (fun v => year_count_ge (int v)) r
  && keep_when min_lease (fun v => year_count_ge (int v)) r
  && keep_town town r
  && keep_when max_price
       (fun v r => Qle_bool (column_value (price_column price_type area_type) r) (to_Q v)) r
  && keep_when min_price
       (fun v r => Qge_bool (column_value (price_column price_type area_type) r) (to_Q v)) r
  && keep_when min_area
       (fun v r => Qge_bool (column_value (area_column area_type) r) (to_Q v)) r.

(** The columns of the returned view: those of the other unit are dropped,
    the unnested ones are added. *)
Definition view_columns (area_type : string) : list string :=
  if String.eqb area_type "Sq M"
  then ["month"; "town"; "flat"; "street_name"; "storey_range"; "lease_left";
        "area_sqm"; "price_sqm"; "price"; "year_count"; "mth_count"]
  else ["month"; "town"; "flat"; "street_name"; "storey_range"; "lease_left";
        "area_sqft"; "price_sqft"; "price"; "year_count"; "mth_count"].

(** A row that came out of the unnesting comes out again from its own
    canonical record. *)
Definition reproduced (x : Row) : Prop :=
  unnest_row (canonical_row (rec x)) = Ok x.

(** The first half of [df_filter] as one predicate on the record. *)
Definition selected (periods flat : list string) (street_name : option string)
  (r : Row) : bool :=
  keep_month_flat periods flat r && keep_street street_name r.

(** The street test in the words of the specification: the street name,
    case-insensitively, contains the substring, case-insensitively. *)
Definition street_matches_caseless (street_name substring : string) : bool :=
  Str.contains_literal (Str.upper street_name) (Str.upper substring).

(** The plain minimum and maximum of a sequence of values. *)
Definition is_minimum (m : Q) (l : list Q) : Prop :=
  In m l /\ forall x, In x l -> (m <= x)%Q.

Definition is_maximum (m : Q) (l : list Q) : Prop :=
  In m l /\ forall x, In x l -> (x <= m)%Q.

(** The summary reports the plain bounds of the two columns and the number
    of rows. *)
Definition bounds_of (price_col area_col : string) (df : DataFrame)
  (s : Summary) : Prop :=
  is_minimum (price_min s) (map (column_value price_col) (rows df)) /\
  is_maximum (price_max s) (map (column_value price_col) (rows df)) /\
  is_minimum (area_min s) (map (column_value area_col) (rows df)) /\
  is_maximum (area_max s) (map (column_value area_col) (rows df)) /\
  records s = length (rows df).

(** The record is selected by the month, flat and street steps and its
    unnested row passes the bounds: the row predicate of a whole run of
    [df_filter]. *)
Definition row_selected (month : Z) (town : string) (flat : list string)
  (area_type : string) (min_area : option number) (price_type : string)
  (max_price min_price min_lease max_lease : option number)
  (street_name : option string) (selected_mths : list date) (r : Rec.t) : bool :=
  selected (selected_periods month selected_mths) flat street_name (canonical_row r)
  && match unnest_row (canonical_row r) with
     | Ok x => keep_bounds town area_type price_type min_area max_price
                 min_price min_lease max_lease x
     | Raised _ => false
     end.

(** The lease text of the record gives an integer year count. *)
Definition lease_parses (r : Rec.t) : bool :=
  match cast_int32 (fst (split_exact_y (Rec.lease_left r))) with
  | Some _ => true
  | None => false
  end.

(** The street text is absent or [Str.plain]: the texts for which the
    street step of the embedding is the street step of the program. *)
Definition plain_street (street_name : option string) : Prop :=
  forall s, street_name = Some s -> Str.plain s = true.

(** The records whose street name, as stored, contains the upper-cased
    text. *)
Definition on_street (s : string) (records : list Rec.t) : list Rec.t :=
  filter (fun r => Str.contains_literal (Rec.street_name r) (Str.upper s)) records.

(** The street condition in force: a street text that is given and not
    empty occurs, upper-cased, in the street name as stored. *)
Definition street_kept (street_name : option string) (r : Rec.t) : Prop :=
  forall s, street_name = Some s -> s <> "" ->
    Str.contains_literal (Rec.street_name r) (Str.upper s) = true.

(** The record is in the window of months, of a chosen flat type, and
    passes the street condition: it reaches the unnesting. *)
Definition picked (month : Z) (flat : list string) (street_name : option string)
  (selected_mths : list date) (r : Rec.t) : Prop :=
  In (Rec.month r) (selected_periods month selected_mths) /\
  In (Rec.flat r) flat /\
  street_kept street_name r.

(** The integer in front of the first "y" of the lease text. *)
Definition lease_years (r : Rec.t) : option Z :=
  cast_int32 (fst (split_exact_y (Rec.lease_left r))).

(** The record meets every condition of the filter specification that is
    in force: the window, the flat types and the street; at least the years
    of each truthy lease value; the town unless it is "All"; the truthy price
    bounds on the resolved price column and a truthy [min_area] on the
    resolved area column.  There is no condition for [max_area]. *)
Definition meets (month : Z) (town : string) (flat : list string)
  (area_type : string) (min_area : option number) (price_type : string)
  (max_price min_price min_lease max_lease : option number)
  (street_name : option string) (selected_mths : list date) (r : Rec.t) : Prop :=
  picked month flat street_name selected_mths r /\
  (forall v, max_lease = Some v -> truthy (Some v) = true ->
             exists y, lease_years r = Some y /\ int v <= y) /\
  (forall v, min_lease = Some v -> truthy (Some v) = true ->
             exists y, lease_years r = Some y /\ int v <= y) /\
  (town <> "All" -> Rec.town r = town) /\
  (forall v, max_price = Some v -> truthy (Some v) = true ->
             (column_value (price_column price_type area_type) (canonical_row r)
              <= to_Q v)%Q) /\
  (forall v, min_price = Some v -> truthy (Some v) = true ->
             (to_Q v
              <= column_value (price_column price_type area_type) (canonical_row r))%Q) /\
  (forall v, min_area = Some v -> truthy (Some v) = true ->
             (to_Q v <= column_value (area_column area_type) (canonical_row r))%Q).

(** ** Sample data *)

Module Sample.

Definition raw_bedok : Raw.t :=
  Raw.mk "2024-06" "BEDOK" "4 ROOM" "1" "BEDOK AVE 1" "01 TO 03"
    "90" "61 years 04 months" "500000".

(** The period 2024-05 cannot be reached; 2024-06 answers with one
    record; every other period answers 500. *)
Definition get_one_down (period : string) : result Response :=
  if String.eqb period "2024-05" then Raised ConnectionError
  else if String.eqb period "2024-06"
  then Ok {| status_code := 200; json_records := Ok [raw_bedok] |}
  else Ok {| status_code := 500; json_records := Raised JSONDecodeError |}.

(** As above, with 2024-05 answering 500 instead. *)
Definition get_one_500 (period : string) : result Response :=
  if String.eqb period "2024-06"
  then Ok {| status_code := 200; json_records := Ok [raw_bedok] |}
  else Ok {| status_code := 500; json_records := Raised JSONDecodeError |}.

Definition raw_queenstown : Raw.t :=
  Raw.mk "2024-05" "QUEENSTOWN" "4 ROOM" "3" "MEI LING ST" "07 TO 09"
    "95" "80 years 01 month" "600000".

(** 2024-05 and 2024-06 answer with one record each; every other period
    answers 500. *)
Definition get_two (period : string) : result Response :=
  if String.eqb period "2024-05"
  then Ok {| status_code := 200; json_records := Ok [raw_queenstown] |}
  else if String.eqb period "2024-06"
  then Ok {| status_code := 200; json_records := Ok [raw_bedok] |}
  else Ok {| status_code := 500; json_records := Raised JSONDecodeError |}.

(** The three rows of the scenario of the specification. *)
Definition bedok_4rm : Rec.t :=
  Rec.mk "2024-06" "BEDOK" "4RM" "BLK 1 BEDOK AVE 1" "01-03" "61y 04ms"
    90 (9687510 # 10000) (5555 # 1) (516 # 1) 500000.

Definition bedok_3rm : Rec.t :=
  Rec.mk "2024-06" "BEDOK" "3RM" "BLK 2 BEDOK AVE 1" "04-06" "70y"
    65 (6996535 # 10000) (4615 # 1) (429 # 1) 300000.

Definition queenstown_4rm : Rec.t :=
  Rec.mk "2024-05" "QUEENSTOWN" "4RM" "BLK 3 MEI LING ST" "07-09" "80y 01m"
    95 (10225705 # 10000) (6315 # 1) (587 # 1) 600000.

(** A row whose street is not in capitals. *)
Definition jalan_besar : Rec.t :=
  Rec.mk "2024-06" "KALLANG" "4RM" "BLK 5 Jalan Besar" "01-03" "55y"
    90 (9687510 # 10000) (5000 # 1) (464 # 1) 450000.

Definition table : list Rec.t := [bedok_4rm; bedok_3rm; queenstown_4rm].

(** A price of 352000 for 85 square metres, as Float32, and an area of
    1529 square metres. *)
Definition price_352000 : spec_float := F32.of_Z 352000.
Definition area_85 : spec_float := F32.of_Z 85.
Definition area_1529 : spec_float := F32.of_Z 1529.

(** A row whose lease text carries no year count. *)
Definition no_lease : Rec.t :=
  Rec.mk "2024-06" "BEDOK" "4RM" "BLK 9 BEDOK AVE 1" "01-03" "n/a"
    90 (9687510 # 10000) (5555 # 1) (516 # 1) 500000.

(** [selected_mths] in June 2024. *)
Definition months_to_june : list date :=
  map (fun m => {| year := 2024; mon := m |}) [1; 2; 3; 4; 5; 6].

End Sample.

(** * Properties *)

(** ** Plain street texts *)

Module StrFacts.

Lemma upper_ascii_plain (c : ascii) :
  Str.is_ascii c && negb (Str.regex_meta c) = true ->
  Str.is_ascii (Str.upper_ascii c) && negb (Str.regex_meta (Str.upper_ascii c))
  = true.
Proof.
  destruct c as [[] [] [] [] [] [] [] []]; vm_compute; intros H;
    (exact H || reflexivity).
Qed.

(** The upper-cased form of a plain text is plain, and a pattern that the
    regular-expression engine reads literally. *)
Lemma plain_upper (s : string) :
  Str.plain s = true ->
  Str.plain (Str.upper s) = true /\ Str.regex_literal (Str.upper s) = true.
Proof.
  unfold Str.plain, Str.regex_literal.
  induction s as [ | c s IH ]; [ now split | ].
  cbn [Str.all_chars Str.upper]. intros H.
  apply andb_true_iff in H as [Hc Hs].
  destruct (IH Hs) as [IH1 IH2].
  pose proof (upper_ascii_plain c Hc) as Hu.
  rewrite IH1, IH2, Hu.
  apply andb_true_iff in Hu as [_ ->]. now split.
Qed.

End StrFacts.

(** ** Lease simplification *)

Module LeaseFacts.

Lemma digit_differs (c d : ascii) :
  Str.is_digit c = false -> Str.is_digit d = true -> Ascii.eqb c d = false.
Proof.
  intros Hc Hd. destruct (Ascii.eqb_spec c d) as [E | _]; [ | reflexivity ].
  subst d. congruence.
Qed.

(** A replacement whose pattern starts with a non-digit passes over a run
    of digits. *)
Lemma replace_skips_digits (c : ascii) (p value digits rest : string) :
  Str.is_digit c = false ->
  Str.all_chars Str.is_digit digits = true ->
  Str.replace (String c p) value (digits ++ rest)
  = digits ++ Str.replace (String c p) value rest.
Proof.
  intros Hc. induction digits as [ | d digits IH ]; intros Hd.
  - reflexivity.
  - simpl in Hd. apply andb_true_iff in Hd as [Hd Hds].
    change (String d digits ++ rest) with (String d (digits ++ rest)).
    cbn [Str.replace Str.strip_prefix].
    rewrite (digit_differs c d Hc Hd). now rewrite IH.
Qed.

Lemma replace_no_match (pattern value : string) (c : ascii) (s : string) :
  Str.strip_prefix pattern (String c s) = None ->
  Str.replace pattern value (String c s)
  = String c (Str.replace pattern value s).
Proof. intros H. cbn [Str.replace]. now rewrite H. Qed.

Lemma years_only (N : string) :
  Str.all_chars Str.is_digit N = true ->
  lease_left_of (N ++ " years") = N ++ "y".
Proof.
  intros HN. unfold lease_left_of.
  rewrite (replace_skips_digits "s" "" "" N " years") by (reflexivity || exact HN).
  change (Str.replace "s" "" " years") with " year".
  rewrite (replace_skips_digits " " "year" "y" N " year") by (reflexivity || exact HN).
  change (Str.replace " year" "y" " year") with "y".
  rewrite (replace_skips_digits " " "month" "m" N "y") by (reflexivity || exact HN).
  reflexivity.
Qed.

Lemma month_pattern_not_at_count (M rest : string) :
  Str.all_chars Str.is_digit M = true ->
  Str.strip_prefix "month" (M ++ " " ++ rest) = None.
Proof.
  destruct M as [ | d M ]; intros HM; [ reflexivity | ].
  simpl in HM. apply andb_true_iff in HM as [Hd _].
  change (String d M ++ " " ++ rest) with (String d (M ++ " " ++ rest)).
  cbn [Str.strip_prefix].
  now rewrite (digit_differs "m" d eq_refl Hd).
Qed.

Lemma years_and_months (N M : string) :
  Str.all_chars Str.is_digit N = true ->
  Str.all_chars Str.is_digit M = true ->
  lease_left_of (N ++ " years " ++ M ++ " months") = N ++ "y " ++ M ++ "ms".
Proof.
  intros HN HM. unfold lease_left_of.
  rewrite (replace_skips_digits "s" "" "" N) by (reflexivity || exact HN).
  change (Str.replace "s" "" (" years " ++ M ++ " months"))
    with (" year " ++ M ++ " months").
  rewrite (replace_skips_digits " " "year" "y" N) by (reflexivity || exact HN).
  change (Str.replace " year" "y" (" year " ++ M ++ " months"))
    with ("y " ++ M ++ " months").
  rewrite (replace_skips_digits " " "month" "m" N) by (reflexivity || exact HN).
  f_equal.
  change ("y " ++ M ++ " months") with (String "y" (String " " (M ++ " months"))).
  rewrite replace_no_match by reflexivity.
  rewrite replace_no_match
    by exact (month_pattern_not_at_count M "months" HM).
  do 2 f_equal.
  rewrite (replace_skips_digits " " "month" "m" M) by (reflexivity || exact HM).
  reflexivity.
Qed.

Lemma prefix_append (p s t : string) :
  String.prefix s t = true -> String.prefix (p ++ s) (p ++ t) = true.
Proof.
  intros H. induction p as [ | c p IH ]; [ exact H | ].
  cbn [append String.prefix]. destruct (ascii_dec c c); [ exact IH | contradiction ].
Qed.

Lemma append_cancel (p s t : string) : p ++ s = p ++ t -> s = t.
Proof.
  induction p as [ | c p IH ]; cbn [append]; intros H; [ exact H | ].
  injection H as H. now apply IH.
Qed.

End LeaseFacts.

(** The other string columns on the labels of the specification. *)
Example flat_of_labels :
  flat_of "3 ROOM" = "3RM" /\ flat_of "EXECUTIVE" = "EC" /\
  flat_of "MULTI-GENERATION" = "MG" /\ flat_of "TERRACE" = "TERRACE" /\
  storey_range_of "01 TO 03" = "01-03" /\
  street_name_of "1" "BEDOK AVE 1" = "BLK 1 BEDOK AVE 1".
Proof. repeat split. Qed.

(** C1 (as stated): the month form does not come out compact. *)
Lemma lease_left_of_61_years_4_months_not_compact :
  lease_left_of "61 years 4 months" = "61y 4ms" /\
  lease_left_of "61 years 4 months" <> "61y4m".
Proof. split; [ reflexivity | discriminate ]. Qed.

(** C1 (amended): "<N> years" becomes the compact "<N>y".  In
    "<N> years <M> months" the year part becomes "<N>y" and the month count
    follows it after the blank that stood between them: the result begins
    with "<N>y <M>m", and it is not the compact "<N>y<M>m". *)
Theorem lease_left_of_keeps_the_blank (N M : string)
  (HN : Str.all_chars Str.is_digit N = true)
  (HM : Str.all_chars Str.is_digit M = true) :
  lease_left_of (N ++ " years") = N ++ "y" /\
  String.prefix (N ++ "y " ++ M ++ "m")
    (lease_left_of (N ++ " years " ++ M ++ " months")) = true /\
  lease_left_of (N ++ " years " ++ M ++ " months") <> N ++ "y" ++ M ++ "m".
Proof.
  split; [ now apply LeaseFacts.years_only | ].
  rewrite LeaseFacts.years_and_months by assumption.
  split.
  - apply LeaseFacts.prefix_append.
    apply LeaseFacts.prefix_append. apply LeaseFacts.prefix_append.
    reflexivity.
  - intros H. apply LeaseFacts.append_cancel in H.
    destruct M as [ | d M ]; [ discriminate H | ].
    cbn in HM. apply andb_true_iff in HM as [Hd _].
    cbn in H. injection H as H _. rewrite <- H in Hd. discriminate Hd.
Qed.

Lemma lease_left_of_keeps_the_blank_witness :
  Str.all_chars Str.is_digit "61" = true /\
  Str.all_chars Str.is_digit "04" = true /\
  lease_left_of "61 years" = "61y" /\
  String.prefix "61y 04m" (lease_left_of "61 years 04 months") = true /\
  lease_left_of "61 years 04 months" <> "61y04m".
Proof.
  split; [ reflexivity | split; [ reflexivity | ] ].
  exact (lease_left_of_keeps_the_blank "61" "04" eq_refl eq_refl).
Defined.

(** ** Fetch and merge *)

Section FetchFacts.

Variable requests_get : string -> result Response.

Lemma fetch_ok_batch (period : string) (batch : list Raw.t) :
  fetch_data_for_period requests_get period = Ok batch ->
  batch_of requests_get period = batch.
Proof.
  unfold fetch_data_for_period, batch_of.
  destruct (requests_get period) as [ response | e ]; cbn [bind];
    [ | discriminate ].
  destruct (status_code response =? 200).
  - now intros ->.
  - intros H. now inversion H.
Qed.

Lemma fetch_raises (period : string) (e : exn) :
  requests_get period = Raised e ->
  fetch_data_for_period requests_get period = Raised e.
Proof. intros H. unfold fetch_data_for_period. now rewrite H. Qed.

Lemma fetch_non_success (period : string) (response : Response) :
  requests_get period = Ok response -> status_code response <> 200 ->
  fetch_data_for_period requests_get period = Ok [].
Proof.
  intros Hget Hstatus. apply Z.eqb_neq in Hstatus.
  unfold fetch_data_for_period. rewrite Hget. cbn [bind].
  now rewrite Hstatus.
Qed.

Lemma concat_vertical_ok (acc batch table : list Raw.t) :
  concat_vertical acc batch = Ok table -> table = (acc ++ batch)%list.
Proof.
  destruct acc as [ | a acc ], batch as [ | b batch ]; cbn;
    intros H; inversion H; reflexivity.
Qed.

Lemma concat_vertical_rows (acc batch : list Raw.t) :
  batch <> [] -> concat_vertical acc batch = Ok (acc ++ batch)%list.
Proof.
  destruct acc as [ | a acc ], batch as [ | b batch ]; cbn;
    intros H; try reflexivity; contradiction.
Qed.

Lemma concat_vertical_empty_below (acc : list Raw.t) :
  acc <> [] -> concat_vertical acc [] = Raised ShapeError.
Proof. destruct acc; [ contradiction | reflexivity ]. Qed.

Lemma merge_completed_app (before after : list string) :
  forall acc,
    merge_completed requests_get (before ++ after) acc
    = acc' <- merge_completed requests_get before acc ;;
      merge_completed requests_get after acc'.
Proof.
  induction before as [ | p before IH ]; intros acc; [ reflexivity | ].
  cbn [app merge_completed].
  destruct (fetch_data_for_period requests_get p) as [ batch | e ]; cbn [bind];
    [ | reflexivity ].
  destruct (concat_vertical acc batch); cbn [bind]; [ apply IH | reflexivity ].
Qed.

(** A merge that returns has stacked the batch of every period, in
    completion order. *)
Lemma merge_completed_ok (completed : list string) :
  forall acc table,
    merge_completed requests_get completed acc = Ok table ->
    table = (acc ++ flat_map (batch_of requests_get) completed)%list.
Proof.
  induction completed as [ | p completed IH ]; intros acc table H.
  - cbn in H. inversion H. now rewrite app_nil_r.
  - cbn [merge_completed] in H.
    destruct (fetch_data_for_period requests_get p) as [ batch | e ] eqn:Hp;
      cbn [bind] in H; [ | discriminate ].
    destruct (concat_vertical acc batch) as [ acc' | e ] eqn:Hc;
      cbn [bind] in H; [ | discriminate ].
    apply concat_vertical_ok in Hc. subst acc'.
    rewrite (IH _ _ H). cbn [flat_map].
    rewrite (fetch_ok_batch p batch Hp). now rewrite app_assoc.
Qed.

(** Empty batches leave an empty table empty. *)
Lemma merge_completed_empty (early rest : list string) :
  (forall p, In p early -> fetch_data_for_period requests_get p = Ok []) ->
  merge_completed requests_get (early ++ rest) []
  = merge_completed requests_get rest [].
Proof.
  induction early as [ | p early IH ]; intros H; [ reflexivity | ].
  cbn [app merge_completed]. rewrite (H p) by now left.
  cbn [bind concat_vertical]. apply IH. intros q Hq. apply H. now right.
Qed.

(** Batches with rows are stacked below whatever is there. *)
Lemma merge_completed_rows (late : list string) :
  forall acc,
    (forall p, In p late ->
               exists batch,
                 fetch_data_for_period requests_get p = Ok batch /\ batch <> []) ->
    merge_completed requests_get late acc
    = Ok (acc ++ flat_map (batch_of requests_get) late)%list.
Proof.
  induction late as [ | p late IH ]; intros acc H.
  - cbn. now rewrite app_nil_r.
  - cbn [merge_completed flat_map].
    destruct (H p (or_introl eq_refl)) as (batch & Hp & Hne).
    rewrite Hp. cbn [bind]. rewrite (concat_vertical_rows acc batch Hne).
    cbn [bind]. rewrite IH by (intros q Hq; apply H; now right).
    rewrite (fetch_ok_batch p batch Hp). now rewrite app_assoc.
Qed.

(** Below a table with rows, a merge that returns met batches with rows
    only. *)
Lemma merge_completed_ok_rows (completed : list string) :
  forall acc table,
    acc <> [] ->
    merge_completed requests_get completed acc = Ok table ->
    forall p, In p completed ->
              exists batch,
                fetch_data_for_period requests_get p = Ok batch /\ batch <> [].
Proof.
  induction completed as [ | q completed IH ]; intros acc table Hacc H p Hp;
    [ destruct Hp | ].
  cbn [merge_completed] in H.
  destruct (fetch_data_for_period requests_get q) as [ batch | e ] eqn:Hq;
    cbn [bind] in H; [ | discriminate ].
  destruct batch as [ | b batch ].
  - rewrite (concat_vertical_empty_below acc Hacc) in H. discriminate.
  - rewrite concat_vertical_rows in H by discriminate. cbn [bind] in H.
    destruct Hp as [<- | Hp].
    + exists (b :: batch). split; [ exact Hq | discriminate ].
    + refine (IH _ _ _ H p Hp).
      destruct acc; discriminate.
Qed.

(** A merge that returns met the empty batches first. *)
Lemma merge_completed_ok_split (completed : list string) (table : list Raw.t) :
  merge_completed requests_get completed [] = Ok table ->
  exists early late,
    completed = (early ++ late)%list /\
    (forall p, In p early -> fetch_data_for_period requests_get p = Ok []) /\
    (forall p, In p late ->
               exists batch,
                 fetch_data_for_period requests_get p = Ok batch /\ batch <> []).
Proof.
  induction completed as [ | q completed IH ]; intros H.
  - exists [], []. repeat split; intros p [].
  - cbn [merge_completed] in H.
    destruct (fetch_data_for_period requests_get q) as [ batch | e ] eqn:Hq;
      cbn [bind] in H; [ | discriminate ].
    destruct batch as [ | b batch ]; cbn [concat_vertical bind] in H.
    + destruct (IH H) as (early & late & -> & Hearly & Hlate).
      exists (q :: early), late. split; [ reflexivity | ].
      split; [ | exact Hlate ].
      intros p [<- | Hp]; [ exact Hq | now apply Hearly ].
    + exists [], (q :: completed). split; [ reflexivity | ].
      split; [ intros p [] | ].
      intros p [<- | Hp].
      * exists (b :: batch). split; [ exact Hq | discriminate ].
      * apply (merge_completed_ok_rows completed (b :: batch) table
                 ltac:(discriminate) H p Hp).
Qed.

Lemma flat_map_empty (early : list string) :
  (forall p, In p early -> fetch_data_for_period requests_get p = Ok []) ->
  flat_map (batch_of requests_get) early = [].
Proof.
  induction early as [ | p early IH ]; intros H; [ reflexivity | ].
  cbn [flat_map]. rewrite (fetch_ok_batch p [] (H p (or_introl eq_refl))).
  apply IH. intros q Hq. apply H. now right.
Qed.

Lemma length_flat_map {A B : Type} (f : A -> list B) (l : list A) :
  length (flat_map f l) = list_sum (map (fun a => length (f a)) l).
Proof.
  induction l as [ | a l IH ]; [ reflexivity | ].
  cbn [flat_map map list_sum fold_right]. rewrite length_app.
  unfold list_sum in IH. now rewrite IH.
Qed.

End FetchFacts.

(** C2 (as stated): with one period whose transport fails, the fetch of
    that period raises instead of returning an empty batch, and the merge
    loop raises although the other period was fetched. *)
Lemma transport_failure_raises :
  fetch_data_for_period Sample.get_one_down "2024-05" = Raised ConnectionError /\
  fetch_data_for_period Sample.get_one_down "2024-06" = Ok [Sample.raw_bedok] /\
  recent_df Sample.get_one_down ["2024-06"; "2024-05"] = Raised ConnectionError /\
  ~ (exists table, recent_df Sample.get_one_down ["2024-06"; "2024-05"] = Ok table).
Proof.
  repeat split; try reflexivity.
  intros (table & H). discriminate H.
Qed.

(** C2 (amended): a response whose status is not 200 gives an empty batch
    for its period.  When every fetch of the window returns a batch and the
    fetches [early] that return an empty batch complete before the fetches
    [late] that return rows, the merge returns exactly the rows of the
    periods that gave rows, in the order of completion: an empty batch adds no
    row and takes none away, and the number of rows is the sum of the row
    counts of the batches. *)
Theorem non_success_response_gives_empty_batch
  (requests_get : string -> result Response) (early late : list string)
  (Hearly : forall p, In p early ->
                      fetch_data_for_period requests_get p = Ok [])
  (Hlate : forall p, In p late ->
                     exists batch,
                       fetch_data_for_period requests_get p = Ok batch
                       /\ batch <> []) :
  (forall p response,
      requests_get p = Ok response -> status_code response <> 200 ->
      fetch_data_for_period requests_get p = Ok [] /\
      batch_of requests_get p = []) /\
  recent_df requests_get (early ++ late)
  = Ok (flat_map (batch_of requests_get) late) /\
  (forall table,
      recent_df requests_get (early ++ late) = Ok table ->
      length table
      = list_sum (map (fun p => length (batch_of requests_get p)) (early ++ late))).
Proof.
  assert (Hmerge : recent_df requests_get (early ++ late)
                   = Ok (flat_map (batch_of requests_get) late)).
  { unfold recent_df.
    rewrite (merge_completed_empty requests_get early late Hearly).
    now rewrite (merge_completed_rows requests_get late [] Hlate). }
  split; [ | split ].
  - intros p response Hget Hstatus.
    pose proof (fetch_non_success requests_get p response Hget Hstatus) as H.
    split; [ exact H | now apply fetch_ok_batch ].
  - exact Hmerge.
  - intros table Htable. rewrite Hmerge in Htable. injection Htable as <-.
    rewrite <- length_flat_map, flat_map_app.
    now rewrite (flat_map_empty requests_get early Hearly).
Qed.

Lemma non_success_response_gives_empty_batch_witness :
  fetch_data_for_period Sample.get_one_500 "2024-05" = Ok [] /\
  recent_df Sample.get_one_500 ["2024-05"; "2024-06"] = Ok [Sample.raw_bedok].
Proof.
  assert (Hearly : forall p, In p ["2024-05"] ->
                             fetch_data_for_period Sample.get_one_500 p = Ok []).
  { intros p [<- | []]. reflexivity. }
  assert (Hlate : forall p, In p ["2024-06"] ->
                    exists batch,
                      fetch_data_for_period Sample.get_one_500 p = Ok batch
                      /\ batch <> []).
  { intros p [<- | []]. eexists. split; [ reflexivity | discriminate ]. }
  destruct (non_success_response_gives_empty_batch
              Sample.get_one_500 ["2024-05"] ["2024-06"] Hearly Hlate)
    as (Hempty & Hmerge & _).
  split.
  - exact (proj1 (Hempty "2024-05" _ eq_refl ltac:(discriminate))).
  - exact Hmerge.
Defined.

(** ** Frames and the steps of [df_filter] *)

Module FrameFacts.

Lemma filter_true {A : Type} (l : list A) : filter (fun _ => true) l = l.
Proof. induction l as [ | a l IH ]; cbn; [ reflexivity | now rewrite IH ]. Qed.

Lemma filter_none {A : Type} (p : A -> bool) (l : list A) :
  (forall a, In a l -> p a = false) -> filter p l = [].
Proof.
  induction l as [ | a l IH ]; intros H; [ reflexivity | ].
  cbn [filter]. rewrite (H a) by now left.
  apply IH. intros b Hb. apply H. now right.
Qed.

Lemma filter_and {A : Type} (p q : A -> bool) (l : list A) :
  filter q (filter p l) = filter (fun a => p a && q a) l.
Proof.
  induction l as [ | a l IH ]; cbn; [ reflexivity | ].
  destruct (p a); cbn; [ destruct (q a) | ]; now rewrite IH.
Qed.

Lemma filter_df_ok (needed cols : list string) (p : Row -> bool) (l : list Row) :
  first_missing needed {| columns := cols; rows := [] |} = None ->
  filter_df needed p {| columns := cols; rows := l |}
  = Ok {| columns := cols; rows := filter p l |}.
Proof.
  intros H. unfold filter_df.
  replace (first_missing needed {| columns := cols; rows := l |})
    with (first_missing needed {| columns := cols; rows := [] |});
    [ now rewrite H | ].
  clear. induction needed as [ | c needed IH ]; cbn; [ reflexivity | ].
  unfold has_column; cbn. now rewrite IH.
Qed.

Lemma when_truthy_str_ok (v : option string) (cols : list string)
  (p : string -> Row -> bool) (l : list Row) :
  first_missing ["street_name"] {| columns := cols; rows := [] |} = None ->
  when_truthy_str v (fun s => filter_df ["street_name"] (p s))
    {| columns := cols; rows := l |}
  = Ok {| columns := cols;
          rows := filter (fun r => match v with
                                   | Some s => if truthy_str v then p s r else true
                                   | None => true
                                   end) l |}.
Proof.
  intros H. unfold when_truthy_str.
  destruct v as [ s | ]; [ destruct (truthy_str (Some s)) | ];
    rewrite ?filter_true; [ now apply filter_df_ok | reflexivity .. ].
Qed.

Lemma when_truthy_ok (v : option number) (needed cols : list string)
  (p : number -> Row -> bool) (l : list Row) :
  first_missing needed {| columns := cols; rows := [] |} = None ->
  when_truthy v (fun x => filter_df needed (p x)) {| columns := cols; rows := l |}
  = Ok {| columns := cols; rows := filter (keep_when v p) l |}.
Proof.
  intros H. unfold when_truthy, keep_when.
  destruct v as [ x | ]; [ destruct (truthy (Some x)) | ];
    rewrite ?filter_true; [ now apply filter_df_ok | reflexivity .. ].
Qed.

Lemma filter_float_ok (c : string) (get : Row -> Q) (cmp : Q -> Q -> bool)
  (x : number) (cols : list string) (l : list Row) :
  float_column c = Some get ->
  first_missing [c] {| columns := cols; rows := [] |} = None ->
  filter_float c cmp x {| columns := cols; rows := l |}
  = Ok {| columns := cols;
          rows := filter (fun r => cmp (column_value c r) (to_Q x)) l |}.
Proof.
  intros Hc H. unfold filter_float, column_value. rewrite Hc.
  now apply filter_df_ok.
Qed.

Lemma when_truthy_float_ok (v : option number) (c : string) (get : Row -> Q)
  (cmp : Q -> Q -> bool) (cols : list string) (l : list Row) :
  float_column c = Some get ->
  first_missing [c] {| columns := cols; rows := [] |} = None ->
  when_truthy v (filter_float c cmp) {| columns := cols; rows := l |}
  = Ok {| columns := cols;
          rows := filter (keep_when v (fun x r => cmp (column_value c r) (to_Q x))) l |}.
Proof.
  intros Hc H. unfold when_truthy, keep_when.
  destruct v as [ x | ]; [ destruct (truthy (Some x)) | ];
    rewrite ?filter_true; [ now apply (filter_float_ok c get) | reflexivity .. ].
Qed.

(** The unassigned filter leaves the frame as it is. *)
Lemma when_truthy_discarded (v : option number) (c : string) (get : Row -> Q)
  (cmp : Q -> Q -> bool) (cols : list string) (l : list Row) :
  float_column c = Some get ->
  first_missing [c] {| columns := cols; rows := [] |} = None ->
  when_truthy v (fun x df => _ <- filter_float c cmp x df ;; Ok df)
    {| columns := cols; rows := l |}
  = Ok {| columns := cols; rows := l |}.
Proof.
  intros Hc H. unfold when_truthy.
  destruct v as [ x | ]; [ destruct (truthy (Some x)) | ]; try reflexivity.
  now rewrite (filter_float_ok c get).
Qed.

Lemma unnest_fields_ok (cols : list string) (l : list Row) :
  has_column "lease_left" {| columns := cols; rows := [] |} = true ->
  has_column "year_count" {| columns := cols; rows := [] |} = false ->
  has_column "mth_count" {| columns := cols; rows := [] |} = false ->
  unnest_fields {| columns := cols; rows := l |}
  = rows' <- traverse unnest_row l ;;
    Ok {| columns := cols ++ ["year_count"; "mth_count"]; rows := rows' |}.
Proof.
  unfold unnest_fields, has_column; cbn [columns rows].
  now intros -> -> ->.
Qed.

End FrameFacts.

(** ** [df_filter] on a canonical table *)

Module FilterFacts.
Import FrameFacts.

Lemma convert_price_area_eq (price_type area_type : string) :
  convert_price_area price_type area_type
  = (if String.eqb price_type "Price" then "price"
     else if String.eqb area_type "Sq M" then "price_sqm" else "price_sqft",
     if String.eqb area_type "Sq M" then "area_sqm" else "area_sqft").
Proof.
  unfold convert_price_area.
  destruct (String.eqb area_type "Sq M"), (String.eqb price_type "Price");
    reflexivity.
Qed.

(** What [df_filter] returns on a canonical table with at least one
    record: the month, flat and street selection, the unnesting of the
    selected rows (which raises when a lease does not parse), then the
    bounds. *)
Lemma df_filter_canonical (month : Z) (town : string) (flat : list string)
  (area_type : string) (max_area min_area : option number)
  (price_type : string) (max_price min_price min_lease max_lease : option number)
  (street_name : option string) (yr mth : Z) (selected_mths : list date)
  (records : list Rec.t) :
  records <> [] ->
  df_filter month town flat area_type max_area min_area price_type
    max_price min_price min_lease max_lease street_name yr mth
    selected_mths (write_json (canonical_table records))
  = rows1 <- traverse unnest_row
               (filter (keep_street street_name)
                  (filter (keep_month_flat (selected_periods month selected_mths) flat)
                     (map canonical_row records))) ;;
    Ok {| columns := view_columns area_type;
          rows := filter (keep_bounds town area_type price_type min_area
                            max_price min_price min_lease max_lease) rows1 |}.
Proof.
  intros Hne. destruct records as [ | r0 records ]; [ contradiction | ].
  unfold df_filter, write_json.
  change (pl_DataFrame (canonical_table (r0 :: records)))
    with {| columns := table_cols; rows := map canonical_row (r0 :: records) |}.
  rewrite filter_df_ok by reflexivity. cbn [bind].
  rewrite when_truthy_str_ok by reflexivity. cbn [bind].
  rewrite unnest_fields_ok by reflexivity.
  fold (selected_periods month selected_mths).
  change (fun r : Row =>
            is_in (Rec.month (rec r)) (selected_periods month selected_mths)
            && is_in (Rec.flat (rec r)) flat)
    with (keep_month_flat (selected_periods month selected_mths) flat).
  change (fun r : Row =>
            match street_name with
            | Some s =>
                if truthy_str street_name
                then Str.contains (Rec.street_name (rec r)) (Str.upper s)
                else true
            | None => true
            end)
    with (keep_street street_name).
  destruct (traverse unnest_row _) as [ rows1 | e ]; cbn [bind];
    [ | reflexivity ].
  change (table_cols ++ ["year_count"; "mth_count"])%list
    with ["month"; "town"; "flat"; "street_name"; "storey_range";
          "lease_left"; "area_sqm"; "area_sqft"; "price_sqm";
          "price_sqft"; "price"; "year_count"; "mth_count"].
  rewrite when_truthy_ok by reflexivity. cbn [bind].
  rewrite when_truthy_ok by reflexivity. cbn [bind].
  unfold keep_bounds, price_column, area_column, view_columns.
  rewrite !convert_price_area_eq. cbn [fst snd].
  rewrite <- !filter_and.
  assert (Htown : forall cols l,
             first_missing ["town"] {| columns := cols; rows := [] |} = None ->
             (if negb (String.eqb town "All")
              then filter_df ["town"]
                     (fun r => String.eqb (Rec.town (rec r)) town)
                     {| columns := cols; rows := l |}
              else Ok {| columns := cols; rows := l |})
             = Ok {| columns := cols; rows := filter (keep_town town) l |}).
  { intros cols l H. unfold keep_town.
    destruct (negb (String.eqb town "All"));
      [ now apply filter_df_ok | now rewrite filter_true ]. }
  destruct (String.eqb area_type "Sq M"), (String.eqb price_type "Price");
    change (String.eqb "Price" "Price") with true;
    change (String.eqb "area_sqm" "area_sqft") with false;
    change (String.eqb "area_sqft" "area_sqft") with true;
    cbv iota;
    (unfold drop_df at 1; cbn [first_missing has_column columns rows existsb
                                 filter negb orb String.eqb Ascii.eqb Bool.eqb];
     cbn [bind];
     rewrite Htown by reflexivity; cbn [bind];
     erewrite (when_truthy_float_ok max_price) by reflexivity;
     cbn [bind];
     erewrite (when_truthy_float_ok min_price) by reflexivity;
     cbn [bind];
     erewrite (when_truthy_discarded max_area) by reflexivity;
     cbn [bind];
     erewrite (when_truthy_float_ok min_area) by reflexivity;
     cbn [bind];
     reflexivity).
Qed.

Lemma unnest_row_by_rec (r r' : Row) :
  rec r = rec r' -> unnest_row r = unnest_row r'.
Proof. intros H. unfold unnest_row. now rewrite H. Qed.

Lemma unnest_row_rec (r x : Row) : unnest_row r = Ok x -> rec x = rec r.
Proof.
  unfold unnest_row.
  destruct (split_exact_y _) as [field_0 field_1].
  destruct (cast_int32 field_0); intros H; inversion H. reflexivity.
Qed.

Lemma traverse_inv {A B : Type} (f : A -> result B) (a : A) (l : list A)
  (out : list B) :
  traverse f (a :: l) = Ok out ->
  exists b bs, f a = Ok b /\ traverse f l = Ok bs /\ out = b :: bs.
Proof.
  cbn [traverse]. destruct (f a) as [ b | e ]; cbn [bind]; [ | discriminate ].
  destruct (traverse f l) as [ bs | e ]; cbn [bind]; [ | discriminate ].
  intros H. inversion H. now exists b, bs.
Qed.

Lemma traverse_unnest_filter (p : Row -> bool) (l rows1 : list Row) :
  (forall r r', rec r = rec r' -> p r = p r') ->
  traverse unnest_row l = Ok rows1 ->
  traverse unnest_row (filter p l) = Ok (filter p rows1).
Proof.
  intros Hp. revert rows1.
  induction l as [ | a l IH ]; intros rows1 H.
  - inversion H. reflexivity.
  - apply traverse_inv in H as (b & bs & Ha & Hl & ->).
    cbn [filter]. rewrite (Hp b a (unnest_row_rec a b Ha)).
    destruct (p a).
    + cbn [traverse]. rewrite Ha, (IH bs Hl). reflexivity.
    + now apply IH.
Qed.

Lemma traverse_unnest_all (p : Row -> bool) (l rows1 : list Row) :
  (forall r r', rec r = rec r' -> p r = p r') ->
  Forall (fun r => p r = true) l ->
  traverse unnest_row l = Ok rows1 ->
  Forall (fun x => p (canonical_row (rec x)) = true /\ reproduced x) rows1.
Proof.
  intros Hp Hall. revert rows1.
  induction Hall as [ | a l Ha Hall IH ]; intros rows1 H.
  - inversion H. constructor.
  - apply traverse_inv in H as (b & bs & Hb & Hl & ->).
    constructor; [ | now apply IH ].
    pose proof (unnest_row_rec a b Hb) as Hrec. split.
    + rewrite <- Ha. apply Hp. now rewrite Hrec.
    + unfold reproduced. rewrite <- Hb. apply unnest_row_by_rec.
      now rewrite Hrec.
Qed.



Lemma Forall_filter {A : Type} (P : A -> Prop) (p : A -> bool) (l : list A) :
  Forall P l -> Forall P (filter p l).
Proof.
  induction 1 as [ | a l Ha _ IH ]; cbn; [ constructor | ].
  destruct (p a); [ now constructor | assumption ].
Qed.

Lemma Forall_filter_true {A : Type} (p : A -> bool) (l : list A) :
  Forall (fun a => p a = true) (filter p l).
Proof.
  induction l as [ | a l IH ]; cbn; [ constructor | ].
  destruct (p a) eqn:E; [ now constructor | assumption ].
Qed.

Lemma selected_by_rec periods flat street_name (r r' : Row) :
  rec r = rec r' ->
  selected periods flat street_name r = selected periods flat street_name r'.
Proof.
  intros H. unfold selected, keep_month_flat, keep_street. now rewrite H.
Qed.

Lemma df_filter_empty_table (month : Z) (town : string) (flat : list string)
  (area_type : string) (max_area min_area : option number)
  (price_type : string) (max_price min_price min_lease max_lease : option number)
  (street_name : option string) (yr mth : Z) (selected_mths : list date) :
  df_filter month town flat area_type max_area min_area price_type
    max_price min_price min_lease max_lease street_name yr mth
    selected_mths (write_json (canonical_table []))
  = Raised (ColumnNotFoundError "month").
Proof. reflexivity. Qed.

End FilterFacts.

(** ** What a run of [df_filter] returns, record by record *)

Module RunFacts.

Lemma filter_map_canonical (p : Row -> bool) (l : list Rec.t) :
  filter p (map canonical_row l)
  = map canonical_row (filter (fun r => p (canonical_row r)) l).
Proof.
  induction l as [ | r l IH ]; [ reflexivity | ].
  cbn [map filter]. destruct (p (canonical_row r)); cbn [map]; now rewrite IH.
Qed.

Lemma traverse_canonical_rec (keep : Row -> bool) (l : list Rec.t) :
  forall rows1,
    traverse unnest_row (map canonical_row l) = Ok rows1 ->
    map rec (filter keep rows1)
    = filter (fun r => match unnest_row (canonical_row r) with
                       | Ok x => keep x
                       | Raised _ => false
                       end) l
    /\ Forall reproduced rows1.
Proof.
  induction l as [ | r l IH ]; intros rows1 H.
  - inversion H. split; [ reflexivity | constructor ].
  - cbn [map] in H.
    apply FilterFacts.traverse_inv in H as (x & xs & Hx & Hxs & ->).
    destruct (IH xs Hxs) as (IHmap & IHall).
    pose proof (FilterFacts.unnest_row_rec _ _ Hx) as Hrec. cbn [rec canonical_row] in Hrec.
    split.
    + cbn [filter]. rewrite Hx. destruct (keep x); cbn [map]; now rewrite IHmap, ?Hrec.
    + constructor; [ | exact IHall ].
      unfold reproduced. now rewrite Hrec.
Qed.

Lemma unnest_row_cases (r : Row) :
  (exists x, unnest_row r = Ok x /\ lease_parses (rec r) = true)
  \/ (unnest_row r = Raised InvalidOperationError
      /\ lease_parses (rec r) = false).
Proof.
  unfold unnest_row, lease_parses.
  destruct (split_exact_y (Rec.lease_left (rec r))) as [field_0 field_1].
  cbn [fst]. destruct (cast_int32 field_0) as [ n | ].
  - left. eexists. split; reflexivity.
  - right. split; reflexivity.
Qed.

Lemma traverse_unnest_cases (l : list Row) :
  (exists rows1, traverse unnest_row l = Ok rows1
                 /\ Forall (fun r => lease_parses (rec r) = true) l)
  \/ (traverse unnest_row l = Raised InvalidOperationError
      /\ Exists (fun r => lease_parses (rec r) = false) l).
Proof.
  induction l as [ | r l IH ].
  - left. exists []. split; [ reflexivity | constructor ].
  - cbn [traverse].
    destruct (unnest_row_cases r) as [(x & -> & Hp) | (-> & Hp)]; cbn [bind].
    + destruct IH as [(rows1 & -> & Hall) | (-> & Hex)]; cbn [bind].
      * left. eexists. split; [ reflexivity | now constructor ].
      * right. split; [ reflexivity | now apply Exists_cons_tl ].
    + right. split; [ reflexivity | now apply Exists_cons_hd ].
Qed.

Section Run.

Variables (month : Z) (town : string) (flat : list string) (area_type : string).
Variables (max_area min_area : option number) (price_type : string).
Variables (max_price min_price min_lease max_lease : option number).
Variables (street_name : option string) (yr mth : Z).
Variable selected_mths : list date.

(** The records of a returned view, in the order of the table. *)
Lemma df_filter_rows (records : list Rec.t) (view : DataFrame) :
  df_filter month town flat area_type max_area min_area price_type
    max_price min_price min_lease max_lease street_name yr mth
    selected_mths (write_json (canonical_table records)) = Ok view ->
  columns view = view_columns area_type
  /\ map rec (rows view)
     = filter (row_selected month town flat area_type min_area price_type
                 max_price min_price min_lease max_lease street_name selected_mths)
         records
  /\ Forall reproduced (rows view).
Proof.
  intros Hview.
  destruct records as [ | r0 records ];
    [ rewrite FilterFacts.df_filter_empty_table in Hview; discriminate | ].
  rewrite FilterFacts.df_filter_canonical in Hview by discriminate.
  rewrite FrameFacts.filter_and, filter_map_canonical in Hview.
  destruct (traverse unnest_row _) as [ rows1 | e ] eqn:Htrav; [ | discriminate ].
  cbn [bind] in Hview. injection Hview as <-. cbn [rows columns].
  destruct (traverse_canonical_rec
              (keep_bounds town area_type price_type min_area max_price
                 min_price min_lease max_lease) _ rows1 Htrav) as (Hmap & Hall).
  split; [ reflexivity | ]. split.
  - rewrite Hmap, FrameFacts.filter_and. reflexivity.
  - now apply FilterFacts.Forall_filter.
Qed.

(** A run on a table with a record returns unless the cast of a selected
    lease fails. *)
Lemma df_filter_outcome (records : list Rec.t) :
  records <> [] ->
  ((forall r, In r records ->
              selected (selected_periods month selected_mths) flat street_name
                (canonical_row r) = true ->
              lease_parses r = true) ->
   exists view,
     df_filter month town flat area_type max_area min_area price_type
       max_price min_price min_lease max_lease street_name yr mth
       selected_mths (write_json (canonical_table records)) = Ok view)
  /\
  ((exists r, In r records
              /\ selected (selected_periods month selected_mths) flat street_name
                   (canonical_row r) = true
              /\ lease_parses r = false) ->
   df_filter month town flat area_type max_area min_area price_type
     max_price min_price min_lease max_lease street_name yr mth
     selected_mths (write_json (canonical_table records))
   = Raised InvalidOperationError).
Proof.
  intros Hne.
  rewrite FilterFacts.df_filter_canonical by assumption.
  rewrite FrameFacts.filter_and.
  fold (selected (selected_periods month selected_mths) flat street_name).
  destruct (traverse_unnest_cases
              (filter (selected (selected_periods month selected_mths) flat
                         street_name) (map canonical_row records)))
    as [(rows1 & -> & Hall) | (-> & Hex)]; cbn [bind].
  - split; [ intros _; now eexists | ].
    intros (r & Hin & Hsel & Hparse). exfalso.
    rewrite Forall_forall in Hall.
    specialize (Hall (canonical_row r)). cbn [rec canonical_row] in Hall.
    rewrite Hall in Hparse; [ discriminate | ].
    apply filter_In. split; [ now apply in_map | exact Hsel ].
  - split; [ | reflexivity ].
    intros Hall. exfalso. apply Exists_exists in Hex as (x & Hx & Hparse).
    apply filter_In in Hx as [Hx Hsel].
    apply in_map_iff in Hx as (r & <- & Hr).
    cbn [rec canonical_row] in Hparse.
    rewrite (Hall r Hr Hsel) in Hparse. discriminate.
Qed.

Lemma df_filter_ok_parses (records : list Rec.t) (view : DataFrame) :
  df_filter month town flat area_type max_area min_area price_type
    max_price min_price min_lease max_lease street_name yr mth
    selected_mths (write_json (canonical_table records)) = Ok view ->
  forall r, In r records ->
            selected (selected_periods month selected_mths) flat street_name
              (canonical_row r) = true ->
            lease_parses r = true.
Proof.
  intros Hview r Hr Hsel.
  destruct (lease_parses r) eqn:E; [ reflexivity | exfalso ].
  assert (Hne : records <> []) by (destruct records; [ destruct Hr | discriminate ]).
  rewrite (proj2 (df_filter_outcome records Hne)) in Hview; [ discriminate | ].
  now exists r.
Qed.

End Run.

End RunFacts.

(** ** The conditions of a filter specification, one by one *)

Module MeetsFacts.

Lemma is_in_iff (x : string) (l : list string) : is_in x l = true <-> In x l.
Proof.
  unfold is_in. rewrite existsb_exists. split.
  - intros (y & Hy & E). apply String.eqb_eq in E. now subst.
  - intros H. exists x. split; [ exact H | apply String.eqb_refl ].
Qed.

Lemma keep_street_iff (street_name : option string) (r : Rec.t) :
  keep_street street_name (canonical_row r) = true <-> street_kept street_name r.
Proof.
  unfold keep_street, street_kept, truthy_str, Str.contains.
  cbn [rec canonical_row].
  destruct street_name as [ s | ].
  - destruct (String.eqb_spec s "") as [E | E]; cbn [negb].
    + split; [ | reflexivity ].
      intros _ s' H Hs'. injection H as <-. contradiction.
    + split.
      * intros H s' H' _. now injection H' as <-.
      * intros H. now apply (H s).
  - split; [ | reflexivity ]. intros _ s H. discriminate H.
Qed.

Lemma selected_iff (month : Z) (flat : list string)
  (street_name : option string) (selected_mths : list date) (r : Rec.t) :
  selected (selected_periods month selected_mths) flat street_name
    (canonical_row r) = true
  <-> picked month flat street_name selected_mths r.
Proof.
  unfold selected, keep_month_flat, picked.
  rewrite !andb_true_iff, !is_in_iff, keep_street_iff.
  cbn [rec canonical_row]. tauto.
Qed.

Lemma keep_when_iff (v : option number) (p : number -> Row -> bool) (r : Row) :
  keep_when v p r = true
  <-> forall x, v = Some x -> truthy (Some x) = true -> p x r = true.
Proof.
  unfold keep_when. destruct v as [ x | ].
  - destruct (truthy (Some x)) eqn:E.
    + split; [ intros H y Hy _; now injection Hy as <- | intros H; now apply H ].
    + split; [ | reflexivity ].
      intros _ y Hy Ht. injection Hy as <-. congruence.
  - split; [ | reflexivity ]. intros _ y Hy. discriminate Hy.
Qed.

Lemma column_value_by_rec (c : string) (x x' : Row) :
  rec x = rec x' -> column_value c x = column_value c x'.
Proof.
  intros H. unfold column_value, float_column.
  repeat match goal with
         | |- context [String.eqb c ?n] => destruct (String.eqb c n)
         end; now rewrite ?H.
Qed.

Lemma unnest_row_years (r : Rec.t) (x : Row) :
  unnest_row (canonical_row r) = Ok x ->
  rec x = r /\ year_count x = lease_years r /\ year_count x <> None.
Proof.
  unfold unnest_row, lease_years. cbn [rec canonical_row].
  destruct (split_exact_y (Rec.lease_left r)) as [field_0 field_1]. cbn [fst].
  destruct (cast_int32 field_0) as [ n | ]; intros H; inversion H.
  cbn. repeat split. discriminate.
Qed.

Lemma year_count_ge_iff (bound : Z) (r : Rec.t) (x : Row) :
  year_count x = lease_years r ->
  year_count_ge bound x = true
  <-> exists y, lease_years r = Some y /\ bound <= y.
Proof.
  intros <-. unfold year_count_ge. destruct (year_count x) as [ y | ].
  - rewrite Z.leb_le. split.
    + intros H. now exists y.
    + intros (y' & E & H). now injection E as <-.
  - split; [ discriminate | ]. intros (y & E & _). discriminate E.
Qed.

Lemma lease_parses_iff (r : Rec.t) :
  lease_parses r = true <-> exists y, lease_years r = Some y.
Proof.
  unfold lease_parses, lease_years.
  destruct (cast_int32 _) as [ y | ].
  - split; [ intros _; now exists y | reflexivity ].
  - split; [ discriminate | intros (y & H); discriminate H ].
Qed.

Lemma lease_parses_false_iff (r : Rec.t) :
  lease_parses r = false <-> lease_years r = None.
Proof.
  unfold lease_parses, lease_years.
  destruct (cast_int32 _); split; (reflexivity || discriminate).
Qed.

Section Conditions.

Variables (month : Z) (town : string) (flat : list string) (area_type : string).
Variables (min_area : option number) (price_type : string).
Variables (max_price min_price min_lease max_lease : option number).
Variables (street_name : option string) (selected_mths : list date).

Lemma keep_bounds_iff (r : Rec.t) (x : Row) :
  unnest_row (canonical_row r) = Ok x ->
  keep_bounds town area_type price_type min_area max_price min_price
    min_lease max_lease x = true
  <-> ((forall v, max_lease = Some v -> truthy (Some v) = true ->
                  exists y, lease_years r = Some y /\ int v <= y) /\
       (forall v, min_lease = Some v -> truthy (Some v) = true ->
                  exists y, lease_years r = Some y /\ int v <= y) /\
       (town <> "All" -> Rec.town r = town) /\
       (forall v, max_price = Some v -> truthy (Some v) = true ->
                  (column_value (price_column price_type area_type)
                     (canonical_row r) <= to_Q v)%Q) /\
       (forall v, min_price = Some v -> truthy (Some v) = true ->
                  (to_Q v <= column_value (price_column price_type area_type)
                               (canonical_row r))%Q) /\
       (forall v, min_area = Some v -> truthy (Some v) = true ->
                  (to_Q v <= column_value (area_column area_type)
                               (canonical_row r))%Q)).
Proof.
  intros Hx. destruct (unnest_row_years r x Hx) as (Hrec & Hyears & _).
  assert (Hcol : forall c, column_value c x = column_value c (canonical_row r))
    by (intros c; apply column_value_by_rec; now rewrite Hrec).
  assert (Htown : keep_town town x = true <-> (town <> "All" -> Rec.town r = town)).
  { unfold keep_town. rewrite Hrec.
    destruct (String.eqb_spec town "All") as [E | E]; cbn [negb].
    - split; [ intros _ H; contradiction | reflexivity ].
    - rewrite String.eqb_eq. split; [ intros H _; exact H | intros H; now apply H ]. }
  unfold keep_bounds. rewrite !andb_true_iff, !keep_when_iff, Htown.
  unfold Qge_bool.
  setoid_rewrite Hcol. setoid_rewrite Qle_bool_iff.
  setoid_rewrite (fun b => year_count_ge_iff b r x Hyears).
  tauto.
Qed.

Lemma row_selected_iff (r : Rec.t) :
  (selected (selected_periods month selected_mths) flat street_name
     (canonical_row r) = true -> lease_parses r = true) ->
  row_selected month town flat area_type min_area price_type max_price
    min_price min_lease max_lease street_name selected_mths r = true
  <-> meets month town flat area_type min_area price_type max_price
        min_price min_lease max_lease street_name selected_mths r.
Proof.
  intros Hparse. unfold row_selected, meets.
  rewrite andb_true_iff, selected_iff.
  rewrite selected_iff in Hparse.
  split.
  - intros [Hsel Hkeep]. split; [ exact Hsel | ].
    destruct (unnest_row (canonical_row r)) as [ x | e ] eqn:Hx;
      [ | discriminate ].
    now apply (keep_bounds_iff r x Hx).
  - intros [Hsel Hconds]. split; [ exact Hsel | ].
    destruct (RunFacts.unnest_row_cases (canonical_row r))
      as [(x & Hx & _) | (_ & Hno)].
    + rewrite Hx. now apply (keep_bounds_iff r x Hx).
    + cbn [rec canonical_row] in Hno. rewrite (Hparse Hsel) in Hno.
      discriminate.
Qed.

End Conditions.

End MeetsFacts.

(** ** The claims on [df_filter] *)

Section Bounds.

Variables (month : Z) (town : string) (flat : list string) (area_type : string).
Variables (price_type : string) (street_name : option string) (yr mth : Z).
Variable selected_mths : list date.

Lemma lease_steps_keep_ge
  (max_area min_area max_price min_price min_lease max_lease : option number)
  (records : list Rec.t) (view : DataFrame) :
  df_filter month town flat area_type max_area min_area price_type
    max_price min_price min_lease max_lease street_name yr mth
    selected_mths (write_json (canonical_table records)) = Ok view ->
  forall bound,
    (max_lease = Some bound \/ min_lease = Some bound) ->
    truthy (Some bound) = true ->
    forall r, In r (rows view) ->
              exists y, year_count r = Some y /\ int bound <= y.
Proof.
  intros Hview bound Hbound Hset r Hr.
  destruct records as [ | r0 records ];
    [ rewrite FilterFacts.df_filter_empty_table in Hview; discriminate | ].
  rewrite FilterFacts.df_filter_canonical in Hview by discriminate.
  destruct (traverse unnest_row _) as [ rows1 | e ]; [ | discriminate ].
  cbn [bind] in Hview. injection Hview as <-. cbn [rows] in Hr.
  apply filter_In in Hr as [_ Hr]. unfold keep_bounds in Hr.
  do 4 (apply andb_true_iff in Hr as [Hr _]).
  apply andb_true_iff in Hr as [Hmax Hmin].
  assert (Hge : year_count_ge (int bound) r = true).
  { destruct Hbound as [-> | ->]; unfold keep_when in *.
    - now rewrite Hset in Hmax.
    - now rewrite Hset in Hmin. }
  unfold year_count_ge in Hge.
  destruct (year_count r) as [ y | ]; [ | discriminate ].
  exists y. split; [ reflexivity | now apply Z.leb_le ].
Qed.

(** C4: when [max_lease] is set (truthy), every row of the returned view has
    a [year_count] that is at least [int(max_lease)]: the step is the
    comparison [>=] of the [min_lease] step, a lower bound.  This holds for
    [df_filter] and for the callback [filtered_data] that calls it. *)
Theorem max_lease_is_a_lower_bound (bound : number)
  (Hset : truthy (Some bound) = true) :
  (forall max_area min_area max_price min_price min_lease records view,
      df_filter month town flat area_type max_area min_area price_type
        max_price min_price min_lease (Some bound) street_name yr mth
        selected_mths (write_json (canonical_table records)) = Ok view ->
      forall r, In r (rows view) ->
                exists y, year_count r = Some y /\ int bound <= y) /\
  (forall max_area min_area max_price min_price max_lease records view,
      df_filter month town flat area_type max_area min_area price_type
        max_price min_price (Some bound) max_lease street_name yr mth
        selected_mths (write_json (canonical_table records)) = Ok view ->
      forall r, In r (rows view) ->
                exists y, year_count r = Some y /\ int bound <= y) /\
  (forall max_area min_area max_price min_price min_lease records view,
      filtered_data town area_type price_type (Some bound) min_lease month
        flat max_area min_area max_price min_price street_name yr mth
        selected_mths (write_json (canonical_table records)) = Ok view ->
      forall r, In r (rows view) ->
                exists y, year_count r = Some y /\ int bound <= y).
Proof.
  split; [ | split ].
  - intros max_area min_area max_price min_price min_lease records view Hview.
    apply (lease_steps_keep_ge _ _ _ _ _ _ _ _ Hview bound);
      [ now left | exact Hset ].
  - intros max_area min_area max_price min_price max_lease records view Hview.
    apply (lease_steps_keep_ge _ _ _ _ _ _ _ _ Hview bound);
      [ now right | exact Hset ].
  - intros max_area min_area max_price min_price min_lease records view Hview.
    unfold filtered_data, write_json in Hview.
    destruct (df_filter _ _ _ _ _ _ _ _ _ _ _ _ _ _ _ _) as [ df | e ] eqn:Hdf;
      [ | discriminate ].
    cbn [bind] in Hview. injection Hview as <-.
    apply (lease_steps_keep_ge _ _ _ _ _ _ _ _ Hdf bound);
      [ now right | exact Hset ].
Qed.

(** C5: on every canonical table [max_area] does not change what
    [df_filter] returns: the comparison is evaluated and its frame is
    dropped. *)
Theorem max_area_is_ignored
  (max_area min_area max_price min_price min_lease max_lease : option number)
  (records : list Rec.t) :
  df_filter month town flat area_type max_area min_area price_type
    max_price min_price min_lease max_lease street_name yr mth
    selected_mths (write_json (canonical_table records))
  = df_filter month town flat area_type None min_area price_type
      max_price min_price min_lease max_lease street_name yr mth
      selected_mths (write_json (canonical_table records)).
Proof.
  destruct records as [ | r0 records ].
  - now rewrite !FilterFacts.df_filter_empty_table.
  - now rewrite !FilterFacts.df_filter_canonical by discriminate.
Qed.

End Bounds.

Lemma max_lease_is_a_lower_bound_witness :
  truthy (Some (PyInt 65)) = true /\
  exists view,
    df_filter 6 "All" ["4RM"; "3RM"] "Sq M" None None "Price" None None None
      (Some (PyInt 65)) None 2024 6 Sample.months_to_june
      (write_json (canonical_table Sample.table)) = Ok view /\
    map (fun r => Rec.lease_left (rec r)) (rows view) = ["70y"; "80y 01m"] /\
    forall r, In r (rows view) -> exists y, year_count r = Some y /\ 65 <= y.
Proof.
  split; [ reflexivity | ].
  eexists. split; [ reflexivity | ]. split; [ reflexivity | ].
  exact (proj1 (max_lease_is_a_lower_bound 6 "All" ["4RM"; "3RM"] "Sq M" "Price"
                  None 2024 6 Sample.months_to_june (PyInt 65) eq_refl)
           None None None None None Sample.table _ eq_refl).
Defined.

Section ZeroBounds.

Variables (month : Z) (town : string) (flat : list string) (area_type : string).
Variables (max_area min_area : option number) (price_type : string).
Variables (max_price min_price min_lease max_lease : option number).
Variables (street_name : option string) (yr mth : Z).
Variables (selected_mths : list date) (data_json : DataFrame).

Lemma zero_is_falsy (zero : number) : to_Q zero == 0 -> truthy (Some zero) = false.
Proof.
  destruct zero as [ n | q ]; unfold Qeq; cbn; intros H.
  - replace n with 0 by lia. reflexivity.
  - replace (Qnum q) with 0 by lia. reflexivity.
Qed.

(** C10: a bound given as zero (the int 0 or a float equal to 0) is treated
    as an absent bound by each of the six guarded steps: the run returns what
    it returns with that bound left out. *)
Theorem zero_bound_is_absent (zero : number) (Hzero : to_Q zero == 0) :
  df_filter month town flat area_type max_area min_area price_type max_price
    min_price min_lease (Some zero) street_name yr mth selected_mths data_json
  = df_filter month town flat area_type max_area min_area price_type max_price
      min_price min_lease None street_name yr mth selected_mths data_json
  /\
  df_filter month town flat area_type max_area min_area price_type max_price
    min_price (Some zero) max_lease street_name yr mth selected_mths data_json
  = df_filter month town flat area_type max_area min_area price_type max_price
      min_price None max_lease street_name yr mth selected_mths data_json
  /\
  df_filter month town flat area_type max_area min_area price_type (Some zero)
    min_price min_lease max_lease street_name yr mth selected_mths data_json
  = df_filter month town flat area_type max_area min_area price_type None
      min_price min_lease max_lease street_name yr mth selected_mths data_json
  /\
  df_filter month town flat area_type max_area min_area price_type max_price
    (Some zero) min_lease max_lease street_name yr mth selected_mths data_json
  = df_filter month town flat area_type max_area min_area price_type max_price
      None min_lease max_lease street_name yr mth selected_mths data_json
  /\
  df_filter month town flat area_type (Some zero) min_area price_type max_price
    min_price min_lease max_lease street_name yr mth selected_mths data_json
  = df_filter month town flat area_type None min_area price_type max_price
      min_price min_lease max_lease street_name yr mth selected_mths data_json
  /\
  df_filter month town flat area_type max_area (Some zero) price_type max_price
    min_price min_lease max_lease street_name yr mth selected_mths data_json
  = df_filter month town flat area_type max_area None price_type max_price
      min_price min_lease max_lease street_name yr mth selected_mths data_json.
Proof.
  pose proof (zero_is_falsy zero Hzero) as Hfalsy.
  unfold df_filter.
  repeat split;
    unfold when_truthy at 1 2 3 4 5 6; rewrite Hfalsy; reflexivity.
Qed.

End ZeroBounds.

Lemma zero_bound_is_absent_witness :
  to_Q (PyInt 0) == 0 /\
  df_filter 6 "All" ["4RM"] "Sq M" None None "Price" (Some (PyInt 0)) None None
    None None 2024 6 Sample.months_to_june
    (write_json (canonical_table Sample.table))
  = df_filter 6 "All" ["4RM"] "Sq M" None None "Price" None None None
      None None 2024 6 Sample.months_to_june
      (write_json (canonical_table Sample.table)).
Proof.
  split; [ reflexivity | ].
  exact (proj1 (proj2 (proj2
    (zero_bound_is_absent 6 "All" ["4RM"] "Sq M" None None "Price" None None
       None None None 2024 6 Sample.months_to_june
       (write_json (canonical_table Sample.table)) (PyInt 0) (Qeq_refl 0))))).
Defined.

Section Selection.

Variables (month : Z) (town : string) (flat : list string) (area_type : string).
Variables (max_area min_area : option number) (price_type : string).
Variables (max_price min_price min_lease max_lease : option number).
Variables (yr mth : Z) (selected_mths : list date).

Lemma nothing_selected (street_name : option string) (flat' : list string)
  (records : list Rec.t) :
  records <> [] ->
  (forall r, In r records ->
             keep_month_flat (selected_periods month selected_mths) flat'
               (canonical_row r) = false) ->
  df_filter month town flat' area_type max_area min_area price_type
    max_price min_price min_lease max_lease street_name yr mth
    selected_mths (write_json (canonical_table records))
  = Ok {| columns := view_columns area_type; rows := [] |}.
Proof.
  intros Hne Hnone.
  rewrite FilterFacts.df_filter_canonical by assumption.
  replace (filter (keep_month_flat (selected_periods month selected_mths) flat')
             (map canonical_row records)) with (@nil Row); [ reflexivity | ].
  clear Hne. induction records as [ | r records IH ]; [ reflexivity | ].
  cbn [map filter]. rewrite (Hnone r) by now left.
  apply IH. intros r' Hr'. apply Hnone. now right.
Qed.

(** C9 (amended): on a canonical table with at least one record, with a
    street text that is absent or plain, an empty [flat] list gives a view
    with no row and no error; and so does every specification that no record
    meets, whichever condition fails, when the lease text of every record in
    the window, of a chosen flat type and on the street has an integer year
    count. *)
Theorem empty_flat_selects_nothing (street_name : option string)
  (records : list Rec.t) (Hne : records <> [])
  (Hplain : plain_street street_name) :
  df_filter month town [] area_type max_area min_area price_type
    max_price min_price min_lease max_lease street_name yr mth
    selected_mths (write_json (canonical_table records))
  = Ok {| columns := view_columns area_type; rows := [] |}
  /\
  ((forall r, In r records ->
              picked month flat street_name selected_mths r ->
              exists y, lease_years r = Some y) ->
   (forall r, In r records ->
              ~ meets month town flat area_type min_area price_type max_price
                  min_price min_lease max_lease street_name selected_mths r) ->
   df_filter month town flat area_type max_area min_area price_type
     max_price min_price min_lease max_lease street_name yr mth
     selected_mths (write_json (canonical_table records))
   = Ok {| columns := view_columns area_type; rows := [] |}).
Proof.
  split.
  - apply nothing_selected; [ assumption | ].
    intros r _. unfold keep_month_flat. cbn [is_in existsb].
    apply andb_false_r.
  - intros Hparse Hnone.
    destruct (proj1 (RunFacts.df_filter_outcome month town flat area_type
                       max_area min_area price_type max_price min_price
                       min_lease max_lease street_name yr mth selected_mths
                       records Hne)) as (view & Hview).
    { intros r Hr Hsel. apply MeetsFacts.lease_parses_iff.
      apply (Hparse r Hr). now apply MeetsFacts.selected_iff. }
    rewrite Hview. f_equal.
    destruct (RunFacts.df_filter_rows _ _ _ _ _ _ _ _ _ _ _ _ _ _ _ _ _ Hview)
      as (Hcols & Hrows & _).
    assert (Hnil : filter
                     (row_selected month town flat area_type min_area price_type
                        max_price min_price min_lease max_lease street_name
                        selected_mths) records = []).
    { apply FrameFacts.filter_none. intros r Hr.
      destruct (row_selected _ _ _ _ _ _ _ _ _ _ _ _ r) eqn:E; [ exfalso | reflexivity ].
      apply (Hnone r Hr).
      apply MeetsFacts.row_selected_iff; [ | exact E ].
      intros Hsel. apply MeetsFacts.lease_parses_iff.
      apply (Hparse r Hr). now apply MeetsFacts.selected_iff. }
    rewrite Hnil in Hrows. apply map_eq_nil in Hrows.
    destruct view as [cols rws]. cbn [columns rows] in *. now subst.
Qed.


End Selection.

(** C9 (as stated): a table with no record has lost its column names on
    the way through JSON, and [df_filter] raises instead of returning a view
    with no row, with or without flat types.  And a specification that no
    record meets (there is no such town) raises, too, when a record of the
    window and of a chosen flat type has a lease text without a year count:
    the cast comes before the town is looked at. *)
Lemma empty_input_raises :
  df_filter 6 "All" [] "Sq M" None None "Price" None None None None None
    2024 6 Sample.months_to_june (write_json (canonical_table []))
  = Raised (ColumnNotFoundError "month") /\
  ~ (exists view,
       df_filter 6 "All" ["4RM"] "Sq M" None None "Price" None None None None
         None 2024 6 Sample.months_to_june (write_json (canonical_table []))
       = Ok view) /\
  df_filter 6 "NOWHERE" ["4RM"] "Sq M" None None "Price" None None None None
    None 2024 6 Sample.months_to_june
    (write_json (canonical_table [Sample.no_lease]))
  = Raised InvalidOperationError.
Proof.
  split; [ reflexivity | ]. split; [ | reflexivity ].
  intros (view & H). discriminate H.
Qed.

Lemma empty_flat_selects_nothing_witness :
  Sample.table <> [] /\
  plain_street (Some "bedok") /\
  df_filter 6 "All" [] "Sq M" None None "Price" None None None None
    (Some "bedok") 2024 6 Sample.months_to_june
    (write_json (canonical_table Sample.table))
  = Ok {| columns := view_columns "Sq M"; rows := [] |} /\
  df_filter 6 "NOWHERE" ["4RM"] "Sq M" None None "Price" None None None None
    (Some "bedok") 2024 6 Sample.months_to_june
    (write_json (canonical_table Sample.table))
  = Ok {| columns := view_columns "Sq M"; rows := [] |}.
Proof.
  assert (Hplain : plain_street (Some "bedok"))
    by (intros s H; injection H as <-; reflexivity).
  split; [ discriminate | ]. split; [ exact Hplain | ].
  destruct (empty_flat_selects_nothing 6 "NOWHERE" ["4RM"] "Sq M" None None
              "Price" None None None None 2024 6 Sample.months_to_june
              (Some "bedok") Sample.table ltac:(discriminate) Hplain)
    as (Hflat & Hnone).
  split; [ exact Hflat | ].
  apply Hnone.
  - intros r [<- | [<- | [<- | []]]] _; eexists; reflexivity.
  - intros r [<- | [<- | [<- | []]]] (_ & _ & _ & Htown & _);
      specialize (Htown ltac:(discriminate)); discriminate Htown.
Defined.



(** ** The street filter *)

Section Street.

Variables (month : Z) (town : string) (flat : list string) (area_type : string).
Variables (max_area min_area : option number) (price_type : string).
Variables (max_price min_price min_lease max_lease : option number).
Variables (yr mth : Z) (selected_mths : list date).

Lemma upper_nonempty (s s' : string) :
  Str.upper s' = Str.upper s -> s <> "" -> truthy_str (Some s') = true.
Proof.
  destruct s' as [ | c s' ]; [ | reflexivity ].
  destruct s as [ | d s ]; [ contradiction | discriminate ].
Qed.

Lemma street_rows (s : string) (records : list Rec.t) :
  s <> "" ->
  filter (keep_street (Some s))
    (filter (keep_month_flat (selected_periods month selected_mths) flat)
       (map canonical_row records))
  = filter (keep_month_flat (selected_periods month selected_mths) flat)
      (map canonical_row (on_street s records)).
Proof.
  intros Hs. unfold on_street.
  rewrite FrameFacts.filter_and, !RunFacts.filter_map_canonical.
  rewrite FrameFacts.filter_and. f_equal. apply filter_ext. intros r.
  unfold keep_street. rewrite (upper_nonempty s s eq_refl Hs).
  unfold Str.contains. cbn [rec canonical_row]. apply andb_comm.
Qed.

(** C6 (amended): for a non-empty plain street text (ASCII, without
    regular-expression metacharacters), [df_filter] keeps exactly the rows
    whose [street_name], as stored, contains the upper-cased text: on a table
    with a record, the run returns what the run without a street text returns
    on the table restricted to those records, and a view without rows when
    there is none; every row of a returned view has such a street name.  The
    text counts only through its upper-cased form; the column is not
    case-folded. *)
Theorem street_filter_upper_cases_the_substring (s : string)
  (records : list Rec.t)
  (Hs : s <> "")
  (Hplain : Str.plain s = true)
  (Hne : records <> []) :
  (on_street s records <> [] ->
   df_filter month town flat area_type max_area min_area price_type
     max_price min_price min_lease max_lease (Some s) yr mth
     selected_mths (write_json (canonical_table records))
   = df_filter month town flat area_type max_area min_area price_type
       max_price min_price min_lease max_lease None yr mth
       selected_mths (write_json (canonical_table (on_street s records))))
  /\
  (on_street s records = [] ->
   df_filter month town flat area_type max_area min_area price_type
     max_price min_price min_lease max_lease (Some s) yr mth
     selected_mths (write_json (canonical_table records))
   = Ok {| columns := view_columns area_type; rows := [] |})
  /\
  (forall view x,
      df_filter month town flat area_type max_area min_area price_type
        max_price min_price min_lease max_lease (Some s) yr mth
        selected_mths (write_json (canonical_table records)) = Ok view ->
      In x (rows view) ->
      Str.contains_literal (Rec.street_name (rec x)) (Str.upper s) = true
      /\ In (rec x) records)
  /\
  (forall s' data_json,
      Str.plain s' = true ->
      Str.upper s' = Str.upper s ->
      df_filter month town flat area_type max_area min_area price_type
        max_price min_price min_lease max_lease (Some s') yr mth
        selected_mths data_json
      = df_filter month town flat area_type max_area min_area price_type
          max_price min_price min_lease max_lease (Some s) yr mth
          selected_mths data_json).
Proof.
  split; [ | split; [ | split ] ].
  - intros Hkept.
    rewrite !FilterFacts.df_filter_canonical by assumption.
    rewrite (street_rows s records Hs).
    change (keep_street None) with (fun _ : Row => true).
    now rewrite FrameFacts.filter_true.
  - intros Hkept.
    rewrite FilterFacts.df_filter_canonical by assumption.
    rewrite (street_rows s records Hs), Hkept. reflexivity.
  - intros view x Hview Hx.
    destruct (RunFacts.df_filter_rows _ _ _ _ _ _ _ _ _ _ _ _ _ _ _ _ _ Hview)
      as (_ & Hrows & _).
    assert (Hin : In (rec x) (map rec (rows view))) by now apply in_map.
    rewrite Hrows in Hin. apply filter_In in Hin as [Hin Hsel].
    split; [ | exact Hin ].
    unfold row_selected in Hsel. apply andb_true_iff in Hsel as [Hsel _].
    apply MeetsFacts.selected_iff in Hsel. destruct Hsel as (_ & _ & Hstreet).
    now apply (Hstreet s).
  - intros s' data_json _ Hupper. unfold df_filter, when_truthy_str.
    rewrite (upper_nonempty s s' Hupper Hs), (upper_nonempty s s eq_refl Hs).
    now rewrite Hupper.
Qed.

End Street.

(** C6 (as stated): a street stored in mixed case contains the substring
    when both are compared case-insensitively, and [df_filter] does not keep
    its row. *)
Lemma street_filter_is_case_sensitive_on_the_column :
  street_matches_caseless (Rec.street_name Sample.jalan_besar) "jalan" = true /\
  df_filter 6 "All" ["4RM"] "Sq M" None None "Price" None None None None
    (Some "jalan") 2024 6 Sample.months_to_june
    (write_json (canonical_table [Sample.jalan_besar]))
  = Ok {| columns := view_columns "Sq M"; rows := [] |} /\
  exists row,
    df_filter 6 "All" ["4RM"] "Sq M" None None "Price" None None None None
      None 2024 6 Sample.months_to_june
      (write_json (canonical_table [Sample.jalan_besar]))
    = Ok {| columns := view_columns "Sq M"; rows := [row] |}.
Proof.
  split; [ reflexivity | ]. split; [ reflexivity | ].
  eexists. reflexivity.
Qed.

Lemma street_filter_upper_cases_the_substring_witness :
  "mei ling" <> "" /\
  Str.plain "mei ling" = true /\
  on_street "mei ling" Sample.table = [Sample.queenstown_4rm] /\
  exists view,
    df_filter 6 "All" ["4RM"] "Sq M" None None "Price" None None None None
      (Some "mei ling") 2024 6 Sample.months_to_june
      (write_json (canonical_table Sample.table)) = Ok view /\
    df_filter 6 "All" ["4RM"] "Sq M" None None "Price" None None None None
      None 2024 6 Sample.months_to_june
      (write_json (canonical_table [Sample.queenstown_4rm])) = Ok view /\
    map rec (rows view) = [Sample.queenstown_4rm].
Proof.
  split; [ discriminate | ]. split; [ reflexivity | ].
  split; [ reflexivity | ].
  eexists. split; [ | split ]; [ | reflexivity | reflexivity ].
  exact (proj1 (street_filter_upper_cases_the_substring 6 "All" ["4RM"]
                  "Sq M" None None "Price" None None None None 2024 6
                  Sample.months_to_june "mei ling" Sample.table
                  ltac:(discriminate) eq_refl ltac:(discriminate))
           ltac:(discriminate)).
Defined.

(** ** The summary of [update_text] *)

Module SummaryFacts.

Lemma Qlt_bool_true (x y : Q) : Qlt_bool x y = true -> (x <= y)%Q.
Proof.
unfold Qlt_bool. intros H. apply negb_true_iff in H.
apply Qlt_le_weak, Qnot_le_lt. intros Hle.
apply Qle_bool_iff in Hle. congruence.
Qed.

Lemma Qlt_bool_false (x y : Q) : Qlt_bool x y = false -> (y <= x)%Q.
Proof.
unfold Qlt_bool. intros H. apply negb_false_iff in H.
now apply Qle_bool_iff.
Qed.

Lemma fold_min (l : list Q) :
forall x,
  let m := fold_left (fun m y => if Qlt_bool y m then y else m) l x in
  (m = x \/ In m l) /\ (m <= x)%Q /\ (forall y, In y l -> (m <= y)%Q).
Proof.
induction l as [ | y l IH ]; intros x; cbn [fold_left].
- split; [ now left | ]. split; [ apply Qle_refl | intros y [] ].
- destruct (IH (if Qlt_bool y x then y else x)) as (Hin & Hle & Hall).
  set (m := fold_left _ l _) in *.
  destruct (Qlt_bool y x) eqn:E.
  + apply Qlt_bool_true in E. split; [ | split ].
    * right. destruct Hin as [-> | Hin]; [ now left | now right ].
    * now apply Qle_trans with y.
    * intros z [<- | Hz]; [ exact Hle | now apply Hall ].
  + apply Qlt_bool_false in E. split; [ | split ].
    * destruct Hin as [-> | Hin]; [ now left | right; now right ].
    * exact Hle.
    * intros z [<- | Hz]; [ now apply Qle_trans with x | now apply Hall ].
Qed.

Lemma fold_max (l : list Q) :
forall x,
  let m := fold_left (fun m y => if Qlt_bool m y then y else m) l x in
  (m = x \/ In m l) /\ (x <= m)%Q /\ (forall y, In y l -> (y <= m)%Q).
Proof.
induction l as [ | y l IH ]; intros x; cbn [fold_left].
- split; [ now left | ]. split; [ apply Qle_refl | intros y [] ].
- destruct (IH (if Qlt_bool x y then y else x)) as (Hin & Hle & Hall).
  set (m := fold_left _ l _) in *.
  destruct (Qlt_bool x y) eqn:E.
  + apply Qlt_bool_true in E. split; [ | split ].
    * right. destruct Hin as [-> | Hin]; [ now left | now right ].
    * now apply Qle_trans with y.
    * intros z [<- | Hz]; [ exact Hle | now apply Hall ].
  + apply Qlt_bool_false in E. split; [ | split ].
    * destruct Hin as [-> | Hin]; [ now left | right; now right ].
    * exact Hle.
    * intros z [<- | Hz]; [ now apply Qle_trans with x | now apply Hall ].
Qed.

Lemma py_min_is_minimum (l : list Q) :
l <> [] -> exists m, py_min l = Some m /\ is_minimum m l.
Proof.
destruct l as [ | x l ]; [ contradiction | intros _ ].
eexists. split; [ reflexivity | ].
destruct (fold_min l x) as (Hin & Hle & Hall). split.
- destruct Hin as [-> | Hin]; [ now left | now right ].
- intros y [<- | Hy]; [ exact Hle | now apply Hall ].
Qed.

Lemma py_max_is_maximum (l : list Q) :
l <> [] -> exists m, py_max l = Some m /\ is_maximum m l.
Proof.
destruct l as [ | x l ]; [ contradiction | intros _ ].
eexists. split; [ reflexivity | ].
destruct (fold_max l x) as (Hin & Hle & Hall). split.
- destruct Hin as [-> | Hin]; [ now left | now right ].
- intros y [<- | Hy]; [ exact Hle | now apply Hall ].
Qed.

Lemma map_nonempty {A B : Type} (f : A -> B) (l : list A) :
l <> [] -> map f l <> [].
Proof. destruct l; [ contradiction | discriminate ]. Qed.

Lemma select_series_ok (c : string) (get : Row -> Q) (df : DataFrame) :
float_column c = Some get ->
has_column c df = true ->
select_series c df = Ok (map (column_value c) (rows df)).
Proof.
intros Hc Hhas. unfold select_series, column_value.
now rewrite Hc, Hhas.
Qed.

Lemma series_min_ok (c : string) (get : Row -> Q) (df : DataFrame) :
float_column c = Some get ->
has_column c df = true ->
rows df <> [] ->
exists m, series_min c df = Ok m
          /\ is_minimum m (map (column_value c) (rows df)).
Proof.
intros Hc Hhas Hne. unfold series_min.
rewrite (select_series_ok c get) by assumption. cbn [bind].
destruct (py_min_is_minimum (map (column_value c) (rows df)))
  as (m & -> & Hm); [ now apply map_nonempty | ].
now exists m.
Qed.

Lemma series_max_ok (c : string) (get : Row -> Q) (df : DataFrame) :
float_column c = Some get ->
has_column c df = true ->
rows df <> [] ->
exists m, series_max c df = Ok m
          /\ is_maximum m (map (column_value c) (rows df)).
Proof.
intros Hc Hhas Hne. unfold series_max.
rewrite (select_series_ok c get) by assumption. cbn [bind].
destruct (py_max_is_maximum (map (column_value c) (rows df)))
  as (m & -> & Hm); [ now apply map_nonempty | ].
now exists m.
Qed.

Lemma pl_DataFrame_nonempty (data : DataFrame) :
rows data <> [] -> pl_DataFrame data = data.
Proof.
unfold pl_DataFrame. destruct (rows data); [ contradiction | reflexivity ].
Qed.

Lemma length_positive {A : Type} (l : list A) :
l <> [] -> (0 <? length l)%nat = true.
Proof. destruct l; [ contradiction | reflexivity ]. Qed.

(** In the three other modes the summary is the plain minimum and maximum
  of the resolved price and area columns, with the number of rows. *)
Lemma update_text_other_modes (data : DataFrame) (town price_type area_type : string)
(max_lease min_lease : option number) :
rows data <> [] ->
In (price_type, area_type)
   [("Price", "Sq M"); ("Price", "Sq Feet"); ("Price / Area", "Sq Feet")] ->
has_column (price_column price_type area_type) data = true ->
has_column (area_column area_type) data = true ->
exists s,
  update_text data town area_type price_type max_lease min_lease
  = Ok (Searched s)
  /\ bounds_of (price_column price_type area_type) (area_column area_type)
       data s.
Proof.
intros Hne Hmode Hprice Harea.
unfold update_text.
rewrite (pl_DataFrame_nonempty data Hne), (length_positive _ Hne).
destruct Hmode as [E | [E | [E | []]]]; injection E as <- <-;
  change (price_column "Price" "Sq M") with "price" in *;
  change (price_column "Price" "Sq Feet") with "price" in *;
  change (price_column "Price / Area" "Sq Feet") with "price_sqft" in *;
  change (area_column "Sq M") with "area_sqm" in *;
  change (area_column "Sq Feet") with "area_sqft" in *;
  cbn [String.eqb Ascii.eqb Bool.eqb andb];
  match goal with
  | |- context [series_min ?pc data] =>
      destruct (series_min_ok pc _ data eq_refl Hprice Hne) as (pmin & -> & Hpmin);
      destruct (series_max_ok pc _ data eq_refl Hprice Hne) as (pmax & -> & Hpmax)
  end;
  cbn [bind];
  match goal with
  | |- context [series_min ?ac data] =>
      destruct (series_min_ok ac _ data eq_refl Harea Hne) as (amin & -> & Hamin);
      destruct (series_max_ok ac _ data eq_refl Harea Hne) as (amax & -> & Hamax)
  end;
  cbn [bind];
  eexists; (split; [ reflexivity | ]);
  unfold bounds_of; cbn [price_min price_max area_min area_max records];
  repeat split; assumption || apply Hpmin || apply Hpmax || apply Hamin
                || apply Hamax.
Qed.

End SummaryFacts.

(** C3: in the mode "Price / Area" with "Sq M", [update_text] does not
    return the bounds of [price_sqm] and [area_sqm] for a view with rows: the
    maximum of the price column is asked through [to_serise], which the frame
    does not have, and the call raises. *)
Theorem update_text_price_per_sq_m_raises (data : DataFrame) (town : string)
  (max_lease min_lease : option number) (Hne : rows data <> []) :
  update_text data town "Sq M" "Price / Area" max_lease min_lease
  = Raised (if has_column "price_sqm" data
            then AttributeError "to_serise"
            else ColumnNotFoundError "price_sqm").
Proof.
  unfold update_text.
  rewrite (SummaryFacts.pl_DataFrame_nonempty data Hne),
    (SummaryFacts.length_positive _ Hne).
  cbn [String.eqb Ascii.eqb Bool.eqb andb].
  destruct (has_column "price_sqm" data) eqn:Hhas.
  - destruct (SummaryFacts.series_min_ok "price_sqm" _ data eq_refl Hhas Hne)
      as (m & -> & _).
    cbn [bind]. unfold series_max_to_serise.
    rewrite (SummaryFacts.select_series_ok "price_sqm" _ data eq_refl Hhas).
    reflexivity.
  - unfold series_min, select_series.
    change (float_column "price_sqm")
      with (Some (fun r : Row => Rec.price_sqm (rec r))).
    cbv iota. rewrite Hhas. reflexivity.
Qed.

Lemma update_text_price_per_sq_m_raises_witness :
  exists view,
    df_filter 6 "All" ["4RM"] "Sq M" None None "Price / Area" None None None
      None None 2024 6 Sample.months_to_june
      (write_json (canonical_table Sample.table)) = Ok view /\
    rows view <> [] /\
    update_text (write_json view) "All" "Sq M" "Price / Area" None None
    = Raised (AttributeError "to_serise").
Proof.
  eexists. split; [ reflexivity | ]. split; [ discriminate | ].
  refine (update_text_price_per_sq_m_raises
            {| columns := view_columns "Sq M"; rows := _ :: _ |}
            "All" None None _).
  discriminate.
Defined.

(** ** The derived metrics: Float32 rounding *)

Module RoundingFacts.

Lemma located_bounds (mrs : shr_record) (a b : Z) :
  0 < b -> located mrs a b -> shr_m mrs * b <= a < (shr_m mrs + 1) * b.
Proof.
  unfold located. destruct mrs as [m [] []]; cbn [shr_m shr_r shr_s]; nia.
Qed.

Lemma located_nonneg (mrs : shr_record) (a b : Z) :
  0 <= a -> 0 < b -> located mrs a b -> 0 <= shr_m mrs.
Proof. intros Ha Hb H. apply located_bounds in H; [ nia | assumption ]. Qed.

Lemma shr_1_located (mrs : shr_record) (a b : Z) :
  0 <= a -> 0 < b -> located mrs a b -> located (shr_1 mrs) a (2 * b).
Proof.
  intros Ha Hb H. pose proof (located_nonneg mrs a b Ha Hb H) as Hm.
  unfold located in *. destruct mrs as [m r s]. cbn [shr_m shr_r shr_s] in *.
  destruct m as [ | [ p | p | ] | p ]; [ | | | | lia ];
    destruct r, s; cbn [shr_1 shr_m shr_r shr_s orb] in *; nia.
Qed.

Lemma iter_pos_located (p : positive) :
  forall mrs a b,
    0 <= a -> 0 < b -> located mrs a b ->
    located (iter_pos shr_1 p mrs) a (b * 2 ^ Zpos p).
Proof.
  induction p as [ p IH | p IH | ]; intros mrs a b Ha Hb H; cbn [iter_pos].
  - replace (b * 2 ^ Zpos p~1) with (2 * b * 2 ^ Zpos p * 2 ^ Zpos p).
    + apply IH; [ assumption | | ].
      * pose proof (Z.pow_pos_nonneg 2 (Zpos p)). nia.
      * apply IH; [ assumption | lia | ]. now apply shr_1_located.
    + replace (Zpos p~1) with (Zpos p + Zpos p + 1) by lia.
      rewrite !Z.pow_add_r by lia. rewrite Z.pow_1_r. ring.
  - replace (b * 2 ^ Zpos p~0) with (b * 2 ^ Zpos p * 2 ^ Zpos p).
    + apply IH; [ assumption | | ].
      * pose proof (Z.pow_pos_nonneg 2 (Zpos p)). nia.
      * now apply IH.
    + replace (Zpos p~0) with (Zpos p + Zpos p) by lia.
      rewrite Z.pow_add_r by lia. ring.
  - rewrite Z.pow_1_r, Z.mul_comm. now apply shr_1_located.
Qed.

Lemma shr_located (mrs : shr_record) (e n a b : Z) :
  0 <= a -> 0 < b -> located mrs a b ->
  located (fst (shr mrs e n)) a (b * 2 ^ Z.max n 0)
  /\ snd (shr mrs e n) = e + Z.max n 0.
Proof.
  intros Ha Hb H. destruct n as [ | p | p ]; cbn [shr fst snd Z.max Z.compare].
  - rewrite Z.pow_0_r, Z.mul_1_r, Z.add_0_r. now split.
  - split; [ now apply iter_pos_located | reflexivity ].
  - change (Z.max (Zneg p) 0) with 0.
    rewrite Z.pow_0_r, Z.mul_1_r, Z.add_0_r. now split.
Qed.

Lemma shr_record_of_loc_located (m : Z) (l : location) (a b : Z) :
  match l with
  | loc_Exact => a = m * b
  | loc_Inexact Lt => 2 * m * b < 2 * a < (2 * m + 1) * b
  | loc_Inexact Eq => 2 * a = (2 * m + 1) * b
  | loc_Inexact Gt => (2 * m + 1) * b < 2 * a < (2 * m + 2) * b
  end ->
  located (shr_record_of_loc m l) a b.
Proof. destruct l as [ | [] ]; cbn; trivial. Qed.

Lemma round_nearest_even_located (mrs : shr_record) (a b : Z) :
  0 < b -> located mrs a b ->
  let m1 := round_nearest_even (shr_m mrs) (loc_of_shr_record mrs) in
  Z.abs (2 * m1 * b - 2 * a) <= b /\ shr_m mrs <= m1 <= shr_m mrs + 1.
Proof.
  unfold located. destruct mrs as [m [] []];
    cbn [shr_m shr_r shr_s loc_of_shr_record round_nearest_even];
    intros Hb H; try destruct (Z.even m); split; try lia; apply Z.abs_le; nia.
Qed.

Lemma digits2_pos_size (p : positive) : digits2_pos p = Pos.size p.
Proof. induction p as [ p IH | p IH | ]; cbn; now rewrite ?IH. Qed.

Lemma Zdigits2_bounds (p : positive) :
  2 ^ Zdigits2 (Zpos p) <= 2 * Zpos p /\ Zpos p < 2 ^ Zdigits2 (Zpos p).
Proof.
  cbn [Zdigits2]. rewrite digits2_pos_size.
  pose proof (Pos.size_gt p) as Hgt. pose proof (Pos.size_le p) as Hle.
  apply Pos2Z.pos_lt_pos in Hgt. apply Pos2Z.pos_le_pos in Hle.
  rewrite Pos2Z.inj_pow in Hgt, Hle. rewrite Pos2Z.inj_xO in Hle.
  now split.
Qed.

Lemma Zdigits2_nonneg (m : Z) : 0 <= Zdigits2 m.
Proof. destruct m; cbn; lia. Qed.

(** [0 <= m < 2 ^ k] has at most [k] digits. *)
Lemma Zdigits2_le (m k : Z) : 0 <= k -> 0 <= m < 2 ^ k -> Zdigits2 m <= k.
Proof.
  intros Hk [Hm Hlt]. destruct m as [ | p | p ]; [ exact Hk | | lia ].
  destruct (Zdigits2_bounds p) as [Hle _].
  destruct (Z.le_gt_cases (Zdigits2 (Zpos p)) k) as [ | Hgt ]; [ assumption | ].
  exfalso.
  assert (2 ^ (k + 1) <= 2 ^ Zdigits2 (Zpos p))
    by (apply Z.pow_le_mono_r; lia).
  rewrite Z.pow_add_r, Z.pow_1_r in H by lia.
  generalize dependent (2 ^ k). generalize dependent (2 ^ Zdigits2 (Zpos p)).
  intros; lia.
Qed.

Lemma Zdigits2_pow2 (k : Z) : 0 <= k -> Zdigits2 (2 ^ k) = k + 1.
Proof.
  intros Hk. pose proof (Z.pow_pos_nonneg 2 k ltac:(lia) Hk) as Hpos.
  destruct (2 ^ k) as [ | p | p ] eqn:E; try lia.
  destruct (Zdigits2_bounds p) as [Hle Hlt].
  pose proof (Zdigits2_nonneg (Zpos p)) as Hd.
  rewrite <- E in Hle, Hlt, Hd |- *.
  apply Z.pow_lt_mono_r_iff in Hlt; [ | lia | lia ].
  replace (2 * 2 ^ k) with (2 ^ (k + 1)) in Hle
    by (rewrite Z.pow_add_r, Z.pow_1_r by lia; ring).
  apply Z.pow_le_mono_r_iff in Hle; lia.
Qed.

Section Rounding.

Variables prec emax : Z.
Hypothesis Hprec : 0 < prec.

(** What [binary_round_aux] returns, when it is a finite number, is within
    half a unit of its last place of the fraction it was given: with
    [a / b] the exact value in units of [2 ^ e], the mantissa [mz] at the
    exponent [e + n] has [|mz * 2 ^ n - a / b| <= 2 ^ n / 2]. *)
Lemma binary_round_aux_error (s : bool) (m e : Z) (l : location) (a b : Z)
  (sz : bool) (mz : positive) (ez : Z) :
  0 <= a -> 0 < b ->
  located (shr_record_of_loc m l) a b ->
  binary_round_aux prec emax s m e l = S754_finite sz mz ez ->
  exists n,
    0 <= n /\ ez = e + n /\ sz = s /\
    Z.abs (2 * Zpos mz * 2 ^ n * b - 2 * a) <= 2 ^ n * b.
Proof.
  intros Ha Hb Hloc H. unfold binary_round_aux in H.
  destruct (shr_fexp prec emax m e l) as [mrs' e'] eqn:E1.
  unfold shr_fexp in E1.
  set (d := Zdigits2 m) in *.
  set (n1 := fexp prec emax (d + e) - e) in *.
  destruct (shr_located (shr_record_of_loc m l) e n1 a b Ha Hb Hloc)
    as [Hloc1 He1].
  rewrite E1 in Hloc1, He1. cbn [fst snd] in Hloc1, He1.
  set (k1 := Z.max n1 0) in *.
  assert (Hk1 : 0 <= k1) by (unfold k1; lia).
  pose proof (Z.pow_pos_nonneg 2 k1 ltac:(lia) Hk1) as Hpow1.
  assert (HB : 0 < b * 2 ^ k1) by nia.
  destruct (round_nearest_even_located mrs' a (b * 2 ^ k1) HB Hloc1)
    as [Habs Hm1].
  set (m1 := round_nearest_even (shr_m mrs') (loc_of_shr_record mrs')) in *.
  pose proof (located_nonneg _ _ _ Ha HB Hloc1) as Hm'.
  pose proof (located_nonneg _ _ _ Ha Hb Hloc) as Hm.
  assert (Hm_rec : shr_m (shr_record_of_loc m l) = m)
    by (destruct l as [ | [] ]; reflexivity).
  rewrite Hm_rec in Hm.
  (* the shifted mantissa has at most [prec] digits *)
  assert (Hshift : shr_m mrs' * 2 ^ k1 <= m).
  { pose proof (located_bounds _ _ _ HB Hloc1) as [Hlo _].
    pose proof (located_bounds _ _ _ Hb Hloc) as [_ Hhi].
    rewrite Hm_rec in Hhi. nia. }
  assert (Hd : m < 2 ^ d).
  { unfold d. destruct m as [ | p | p ]; [ reflexivity | | lia ].
    apply Zdigits2_bounds. }
  pose proof (Zdigits2_nonneg m) as Hd0. fold d in Hd0.
  assert (He' : emin prec emax <= e' /\ d + e - prec <= e').
  { subst e'. unfold k1, n1, fexp. lia. }
  assert (Hlt : shr_m mrs' < 2 ^ prec).
  { set (j := Z.max (d - k1) 0).
    assert (Hj : 0 <= j <= prec) by (unfold j; subst e'; lia).
    assert (2 ^ d <= 2 ^ (j + k1)) by (apply Z.pow_le_mono_r; unfold j; lia).
    rewrite Z.pow_add_r in H0 by lia.
    assert (2 ^ j <= 2 ^ prec) by (apply Z.pow_le_mono_r; lia).
    pose proof (Z.pow_pos_nonneg 2 j ltac:(lia) ltac:(lia)).
    nia. }
  destruct (shr_fexp prec emax m1 e' loc_Exact) as [mrs'' e''] eqn:E2.
  unfold shr_fexp in E2.
  destruct (Z.eq_dec m1 (2 ^ prec)) as [Hcarry | Hnocarry].
  - (* the rounding carried into a new digit *)
    assert (Hn2 : fexp prec emax (Zdigits2 m1 + e') - e' = 1).
    { rewrite Hcarry, Zdigits2_pow2 by lia. unfold fexp. lia. }
    rewrite Hn2 in E2. cbn [shr iter_pos] in E2.
    assert (Hhalf : located (shr_1 (shr_record_of_loc m1 loc_Exact)) m1 (2 * 1)).
    { apply shr_1_located; [ lia | lia | ]. cbn. lia. }
    apply located_bounds in Hhalf; [ | lia ].
    remember (shr_1 (shr_record_of_loc m1 loc_Exact)) as half eqn:Ehalf.
    injection E2 as <- <-.
    destruct (shr_m half) as [ | p | p ] eqn:Ep;
      [ discriminate | | discriminate ].
    destruct (e' + 1 <=? emax - prec); [ | discriminate ].
    injection H as <- <- <-.
    exists (k1 + 1). split; [ lia | ]. split; [ subst e'; lia | ].
    split; [ reflexivity | ].
    rewrite Z.pow_add_r, Z.pow_1_r by lia.
    assert (Hp : 2 * Zpos p = m1).
    { assert (2 ^ prec = 2 * 2 ^ (prec - 1)).
      { replace prec with (prec - 1 + 1) at 1 by lia.
        rewrite Z.pow_add_r, Z.pow_1_r by lia. ring. }
      lia. }
    apply Z.abs_le. apply Z.abs_le in Habs. nia.
  - assert (Hn2 : fexp prec emax (Zdigits2 m1 + e') - e' <= 0).
    { assert (Zdigits2 m1 <= prec) by (apply Zdigits2_le; lia).
      unfold fexp. lia. }
    assert (Hsame : (mrs'', e'') = (shr_record_of_loc m1 loc_Exact, e')).
    { rewrite <- E2.
      destruct (fexp prec emax (Zdigits2 m1 + e') - e'); [ reflexivity | lia | reflexivity ]. }
    injection Hsame as -> ->. cbn [shr_record_of_loc shr_m] in H.
    destruct m1 as [ | p | p ] eqn:Em1; [ discriminate | | discriminate ].
    destruct (e' <=? emax - prec); [ | discriminate ].
    injection H as <- <- <-.
    exists k1. split; [ exact Hk1 | ]. split; [ now subst e' | ].
    split; [ reflexivity | ].
    apply Z.abs_le. apply Z.abs_le in Habs. nia.
Qed.

End Rounding.

End RoundingFacts.

Module Float32Facts.
Import RoundingFacts.

Section Operations.
Variables prec emax : Z.
Hypothesis Hprec : 0 < prec.

Lemma new_location_located (q r my m' : Z) :
  0 < my -> m' = my * q + r -> 0 <= r < my ->
  located (shr_record_of_loc q (new_location my r)) m' my.
Proof.
  intros Hmy -> Hr. apply shr_record_of_loc_located.
  unfold new_location, new_location_even, new_location_odd.
  destruct (Z.even my) eqn:Heven.
  - destruct (Z.eqb_spec r 0) as [-> | Hr0]; [ ring | ].
    destruct (Z.compare_spec (2 * r) my); nia.
  - destruct (Z.eqb_spec r 0) as [-> | Hr0]; [ ring | ].
    assert (Hodd : 2 * r <> my).
    { intros E. rewrite <- E, Z.even_mul in Heven. discriminate. }
    destruct (Z.compare_spec (2 * r + 1) my); nia.
Qed.

Lemma SFdiv_error (sx sy sz : bool) (mx my mz : positive) (ex ey ez : Z) :
  SFdiv prec emax (S754_finite sx mx ex) (S754_finite sy my ey)
  = S754_finite sz mz ez ->
  exists e0 s n,
    0 <= s /\ 0 <= n /\ ex = e0 + ey + s /\ ez = e0 + n /\ sz = xorb sx sy /\
    Z.abs (2 * Zpos mz * 2 ^ n * Zpos my - 2 * (Zpos mx * 2 ^ s))
    <= 2 ^ n * Zpos my.
Proof.
  cbn [SFdiv]. unfold SFdiv_core_binary.
  set (e0 := Z.min _ (ex - ey)).
  set (s := ex - ey - e0).
  assert (Hs : 0 <= s) by (unfold s, e0; lia).
  set (m' := match s with Zpos _ => Z.shiftl (Zpos mx) s | Z0 => Zpos mx | Zneg _ => 0 end).
  assert (Hm' : m' = Zpos mx * 2 ^ s).
  { unfold m'. destruct s as [ | p | p ] eqn:Es; [ | | lia ].
    - rewrite Z.pow_0_r. ring.
    - now rewrite Z.shiftl_mul_pow2 by lia. }
  pose proof (Z_div_mod m' (Zpos my) ltac:(lia)) as Hdiv.
  destruct (Z.div_eucl m' (Zpos my)) as [q r]. destruct Hdiv as [Hq Hr].
  intros H.
  assert (Hm'0 : 0 <= m').
  { rewrite Hm'. pose proof (Z.pow_nonneg 2 s ltac:(lia)). nia. }
  destruct (binary_round_aux_error prec emax Hprec _ q e0 _ m' (Zpos my)
              sz mz ez Hm'0 ltac:(lia)
              (new_location_located q r (Zpos my) m' ltac:(lia) Hq Hr) H)
    as (n & Hn & Hez & Hsz & Habs).
  exists e0, s, n. rewrite <- Hm'. repeat split; try assumption.
  unfold s. lia.
Qed.

Lemma SFmul_error (sx sy sz : bool) (mx my mz : positive) (ex ey ez : Z) :
  SFmul prec emax (S754_finite sx mx ex) (S754_finite sy my ey)
  = S754_finite sz mz ez ->
  exists n,
    0 <= n /\ ez = ex + ey + n /\ sz = xorb sx sy /\
    Z.abs (2 * Zpos mz * 2 ^ n - 2 * (Zpos mx * Zpos my)) <= 2 ^ n.
Proof.
  cbn [SFmul]. intros H.
  assert (Hloc : located (shr_record_of_loc (Zpos (mx * my)) loc_Exact)
                   (Zpos mx * Zpos my) 1).
  { apply shr_record_of_loc_located. rewrite Pos2Z.inj_mul. ring. }
  destruct (binary_round_aux_error prec emax Hprec _ _ _ _
              (Zpos mx * Zpos my) 1 sz mz ez ltac:(lia) ltac:(lia) Hloc H)
    as (n & Hn & Hez & Hsz & Habs).
  exists n. repeat split; try assumption.
  now rewrite !Z.mul_1_r in Habs.
Qed.

End Operations.

End Float32Facts.

Module Float32Q.
Import RoundingFacts Float32Facts.

Lemma pow2_pos (e : Z) : (0 < (2 # 1) ^ e)%Q.
Proof. apply Qpower_0_lt. reflexivity. Qed.

Lemma pow2_add (a b : Z) : ((2 # 1) ^ (a + b) == (2 # 1) ^ a * (2 # 1) ^ b)%Q.
Proof. apply Qpower_plus. discriminate. Qed.

Lemma pow2_Z (n : Z) : 0 <= n -> ((2 # 1) ^ n == inject_Z (2 ^ n))%Q.
Proof. intros Hn. now rewrite (Zpower_Qpower 2 n Hn). Qed.

Lemma normal_mantissa (s : bool) (m : positive) (e : Z) :
  SFclassify F32.prec (S754_finite s m e) = PNormal ->
  s = false /\ 2 ^ 23 <= Zpos m.
Proof.
  cbn [SFclassify]. destruct s.
  - destruct (Zpos (digits2_pos m) =? F32.prec); discriminate.
  - destruct (Z.eqb_spec (Zpos (digits2_pos m)) F32.prec) as [E | ];
      [ | discriminate ].
    intros _. split; [ reflexivity | ].
    destruct (Zdigits2_bounds m) as [Hle _]. cbn [Zdigits2] in Hle.
    rewrite E in Hle. change (2 ^ F32.prec) with (2 * 2 ^ 23) in Hle. lia.
Qed.

(** From a bound relative to the rounded value to a bound relative to the
    exact one. *)
Lemma relative_to_exact (q p : Q) :
  (0 <= p)%Q ->
  (Qabs (q - p) <= q * (1 # 16777216))%Q ->
  (Qabs (q - p) <= p * (1 # 8388608))%Q.
Proof.
  intros Hp H. apply Qabs_Qle_condition in H. apply Qabs_Qle_condition.
  lra.
Qed.

Lemma div_rounding (mx my : positive) (ex ey : Z) (z : spec_float) :
  F32.div (S754_finite false mx ex) (S754_finite false my ey) = z ->
  SFclassify F32.prec z = PNormal ->
  (Qabs (F32.value z * F32.value (S754_finite false my ey)
         - F32.value (S754_finite false mx ex))
   <= F32.value z * F32.value (S754_finite false my ey) * (1 # 16777216))%Q.
Proof.
  intros Hz Hnormal.
  destruct z as [ [] | [] | | sz mz ez ]; try discriminate Hnormal.
  destruct (normal_mantissa sz mz ez Hnormal) as [-> Hmz].
  destruct (SFdiv_error F32.prec F32.emax eq_refl _ _ _ _ _ _ _ _ _ Hz)
    as (e0 & s & n & Hs & Hn & Hex & Hez & _ & Habs).
  unfold F32.value, cond_Zopp.
  assert (Epx : ((2 # 1) ^ ex
                 == (2 # 1) ^ e0 * (2 # 1) ^ ey * inject_Z (2 ^ s))%Q).
  { rewrite Hex, !pow2_add, (pow2_Z s Hs). reflexivity. }
  assert (Epz : ((2 # 1) ^ ez == (2 # 1) ^ e0 * inject_Z (2 ^ n))%Q).
  { rewrite Hez, pow2_add, (pow2_Z n Hn). reflexivity. }
  rewrite Epx, Epz.
  pose proof (pow2_pos e0) as Hu. pose proof (pow2_pos ey) as Hw.
  set (u := ((2 # 1) ^ e0)%Q) in *. set (w := ((2 # 1) ^ ey)%Q) in *.
  apply Z.abs_le in Habs. destruct Habs as [Hlo Hhi].
  rewrite Zle_Qle in Hlo, Hhi, Hmz.
  assert (HN : (0 < inject_Z (2 ^ n))%Q).
  { rewrite <- (Zlt_Qlt 0). apply Z.pow_pos_nonneg; lia. }
  assert (HY : (0 < inject_Z (Zpos my))%Q) by (rewrite <- (Zlt_Qlt 0); lia).
  set (MZ := inject_Z (Zpos mz)) in *. set (MY := inject_Z (Zpos my)) in *.
  set (MX := inject_Z (Zpos mx)) in *.
  set (N := inject_Z (2 ^ n)) in *. set (S := inject_Z (2 ^ s)) in *.
  change (inject_Z (2 ^ 23)) with (8388608 # 1)%Q in Hmz.
  set (C := (N * MY)%Q).
  assert (HC : (0 < C)%Q) by (unfold C; apply Qmult_lt_0_compat; assumption).
  assert (HA : ((8388608 # 1) * C <= MZ * C)%Q)
    by (apply Qmult_le_compat_r; [ exact Hmz | now apply Qlt_le_weak ]).
  set (X := (MZ * C - MX * S)%Q).
  assert (HX : (- (MZ * C * (1 # 16777216)) <= X
                /\ X <= MZ * C * (1 # 16777216))%Q).
  { assert (EX : (inject_Z (2 * Zpos mz * 2 ^ n * Zpos my
                            - 2 * (Zpos mx * 2 ^ s)) == (2 # 1) * X)%Q).
    { unfold Z.sub. rewrite inject_Z_plus, inject_Z_opp, !inject_Z_mult. unfold X, C, MZ, MY, MX, N, S.
      change (inject_Z 2) with (2 # 1)%Q. ring. }
    assert (EC : (inject_Z (2 ^ n * Zpos my) == C)%Q)
      by (rewrite inject_Z_mult; reflexivity).
    rewrite inject_Z_opp in Hlo. rewrite EX, EC in Hlo, Hhi.
    split; lra. }
  pose (t := (u * w)%Q).
  assert (Ht : (0 < t)%Q) by (unfold t; apply Qmult_lt_0_compat; assumption).
  assert (E1 : (MZ * (u * N) * (MY * w) - MX * (u * w * S) == t * X)%Q)
    by (unfold t, X, C; ring).
  assert (E2 : (MZ * (u * N) * (MY * w) * (1 # 16777216)
                == t * (MZ * C * (1 # 16777216)))%Q)
    by (unfold t, C; ring).
  rewrite E1, E2. apply Qabs_Qle_condition. destruct HX as [HXlo HXhi]. split.
  - setoid_replace (- (t * (MZ * C * (1 # 16777216))))%Q
      with (t * - (MZ * C * (1 # 16777216)))%Q by ring.
    apply Qmult_le_l; assumption.
  - apply Qmult_le_l; assumption.
Qed.

Lemma mul_rounding (mx my : positive) (ex ey : Z) (z : spec_float) :
  F32.mul (S754_finite false mx ex) (S754_finite false my ey) = z ->
  SFclassify F32.prec z = PNormal ->
  (Qabs (F32.value z
         - F32.value (S754_finite false mx ex)
           * F32.value (S754_finite false my ey))
   <= F32.value z * (1 # 16777216))%Q.
Proof.
  intros Hz Hnormal.
  destruct z as [ [] | [] | | sz mz ez ]; try discriminate Hnormal.
  destruct (normal_mantissa sz mz ez Hnormal) as [-> Hmz].
  destruct (SFmul_error F32.prec F32.emax eq_refl _ _ _ _ _ _ _ _ _ Hz)
    as (n & Hn & Hez & _ & Habs).
  unfold F32.value, cond_Zopp.
  assert (Epz : ((2 # 1) ^ ez
                 == (2 # 1) ^ ex * (2 # 1) ^ ey * inject_Z (2 ^ n))%Q).
  { rewrite Hez, !pow2_add, (pow2_Z n Hn). reflexivity. }
  rewrite Epz.
  pose proof (pow2_pos ex) as Hu. pose proof (pow2_pos ey) as Hw.
  set (u := ((2 # 1) ^ ex)%Q) in *. set (w := ((2 # 1) ^ ey)%Q) in *.
  apply Z.abs_le in Habs. destruct Habs as [Hlo Hhi].
  rewrite Zle_Qle in Hlo, Hhi, Hmz.
  assert (HN : (0 < inject_Z (2 ^ n))%Q).
  { rewrite <- (Zlt_Qlt 0). apply Z.pow_pos_nonneg; lia. }
  set (MZ := inject_Z (Zpos mz)) in *. set (MY := inject_Z (Zpos my)) in *.
  set (MX := inject_Z (Zpos mx)) in *.
  set (N := inject_Z (2 ^ n)) in *.
  change (inject_Z (2 ^ 23)) with (8388608 # 1)%Q in Hmz.
  assert (HA : ((8388608 # 1) * N <= MZ * N)%Q)
    by (apply Qmult_le_compat_r; [ exact Hmz | now apply Qlt_le_weak ]).
  set (X := (MZ * N - MX * MY)%Q).
  assert (HX : (- (MZ * N * (1 # 16777216)) <= X
                /\ X <= MZ * N * (1 # 16777216))%Q).
  { assert (EX : (inject_Z (2 * Zpos mz * 2 ^ n - 2 * (Zpos mx * Zpos my))
                  == (2 # 1) * X)%Q).
    { unfold Z.sub. rewrite inject_Z_plus, inject_Z_opp, !inject_Z_mult. unfold X, MZ, MY, MX, N.
      change (inject_Z 2) with (2 # 1)%Q. ring. }
    rewrite inject_Z_opp in Hlo. rewrite EX in Hlo, Hhi. fold N in Hlo, Hhi.
    split; lra. }
  pose (t := (u * w)%Q).
  assert (Ht : (0 < t)%Q) by (unfold t; apply Qmult_lt_0_compat; assumption).
  assert (E1 : (MZ * (u * w * N) - MX * u * (MY * w) == t * X)%Q)
    by (unfold t, X; ring).
  assert (E2 : (MZ * (u * w * N) * (1 # 16777216)
                == t * (MZ * N * (1 # 16777216)))%Q)
    by (unfold t; ring).
  rewrite E1, E2. apply Qabs_Qle_condition. destruct HX as [HXlo HXhi]. split.
  - setoid_replace (- (t * (MZ * N * (1 # 16777216))))%Q
      with (t * - (MZ * N * (1 # 16777216)))%Q by ring.
    apply Qmult_le_l; assumption.
  - apply Qmult_le_l; assumption.
Qed.

Lemma value_nonneg (m : positive) (e : Z) :
  (0 <= F32.value (S754_finite false m e))%Q.
Proof.
  unfold F32.value, cond_Zopp. apply Qmult_le_0_compat.
  - rewrite <- (Zle_Qle 0). lia.
  - apply Qlt_le_weak, pow2_pos.
Qed.

End Float32Q.

Module MetricFacts.

Lemma literal_value : F32.literal_10_7639 = S754_finite false 11286767 (-20).
Proof. vm_compute. reflexivity. Qed.

Lemma normal_positive (x : spec_float) :
  F32.normal x -> F32.positive_finite x.
Proof.
  unfold F32.normal. destruct x as [ [] | [] | | s m e ]; try discriminate.
  intros H. destruct (Float32Q.normal_mantissa s m e H) as [-> _].
  now exists m, e.
Qed.

End MetricFacts.

(** C7 (as stated): for a price of 352000 and 85 square metres, both exact
    as Float32, [price_sqm] is 8481129/2048, and its product with [area_sqm]
    is off the price by 35/2048, more than 1e-2; the Float32 product is off
    by more than 1e-2 as well.  For 1529 square metres [area_sqft] is off
    [area_sqm * 10.7639] by more than 1e-3. *)
Lemma price_per_area_exceeds_a_cent :
  (F32.value Sample.price_352000 == 352000 # 1)%Q /\
  (F32.value Sample.area_85 == 85 # 1)%Q /\
  (F32.value (price_sqm_of Sample.price_352000 Sample.area_85)
   == 8481129 # 2048)%Q /\
  (Qabs (F32.value (price_sqm_of Sample.price_352000 Sample.area_85)
         * F32.value Sample.area_85
         - F32.value Sample.price_352000) == 35 # 2048)%Q /\
  ~ (Qabs (F32.value (price_sqm_of Sample.price_352000 Sample.area_85)
           * F32.value Sample.area_85
           - F32.value Sample.price_352000) <= 1 # 100)%Q /\
  ~ (Qabs (F32.value
             (F32.mul (price_sqm_of Sample.price_352000 Sample.area_85)
                Sample.area_85)
           - F32.value Sample.price_352000) <= 1 # 100)%Q /\
  (F32.value Sample.area_1529 == 1529 # 1)%Q /\
  ~ (Qabs (F32.value (area_sqft_of Sample.area_1529)
           - F32.value Sample.area_1529 * (107639 # 10000)) <= 1 # 1000)%Q.
Proof.
  repeat split; try (vm_compute; reflexivity);
    intros H; vm_compute in H; now apply H.
Qed.

(** C7 (amended): for a positive price and a positive [area_sqm], the
    tolerances are relative.  When [area_sqft] is a normal Float32 it is
    within a millionth of [area_sqm] of [area_sqm * 10.7639], hence within
    1e-3 for an area of at most 1000; when [price_sqm] is a normal Float32 its
    product with [area_sqm] is within [price / 2^23] of [price], hence within
    1e-2 for a price of at most 83886; and when [area_sqft] and [price_sqft]
    are normal Float32 the same holds of their product.  The products are
    those of the stored values. *)
Theorem derived_metrics_within_rounding (price area_sqm : spec_float)
  (Hprice : F32.positive_finite price)
  (Harea : F32.positive_finite area_sqm) :
  (F32.normal (area_sqft_of area_sqm) ->
   (Qabs (F32.value (area_sqft_of area_sqm)
          - F32.value area_sqm * (107639 # 10000))
    <= F32.value area_sqm * (1 # 1000000))%Q) /\
  (F32.normal (price_sqm_of price area_sqm) ->
   (Qabs (F32.value (price_sqm_of price area_sqm) * F32.value area_sqm
          - F32.value price)
    <= F32.value price * (1 # 8388608))%Q) /\
  (F32.normal (area_sqft_of area_sqm) ->
   F32.normal (price_sqft_of price area_sqm) ->
   (Qabs (F32.value (price_sqft_of price area_sqm)
          * F32.value (area_sqft_of area_sqm)
          - F32.value price)
    <= F32.value price * (1 # 8388608))%Q) /\
  (F32.normal (area_sqft_of area_sqm) ->
   (F32.value area_sqm <= 1000 # 1)%Q ->
   (Qabs (F32.value (area_sqft_of area_sqm)
          - F32.value area_sqm * (107639 # 10000)) <= 1 # 1000)%Q) /\
  (F32.normal (price_sqm_of price area_sqm) ->
   (F32.value price <= 83886 # 1)%Q ->
   (Qabs (F32.value (price_sqm_of price area_sqm) * F32.value area_sqm
          - F32.value price) <= 1 # 100)%Q) /\
  (F32.normal (area_sqft_of area_sqm) ->
   F32.normal (price_sqft_of price area_sqm) ->
   (F32.value price <= 83886 # 1)%Q ->
   (Qabs (F32.value (price_sqft_of price area_sqm)
          * F32.value (area_sqft_of area_sqm)
          - F32.value price) <= 1 # 100)%Q).
Proof.
  assert (Hrel :
    (F32.normal (area_sqft_of area_sqm) ->
     (Qabs (F32.value (area_sqft_of area_sqm)
            - F32.value area_sqm * (107639 # 10000))
      <= F32.value area_sqm * (1 # 1000000))%Q) /\
    (F32.normal (price_sqm_of price area_sqm) ->
     (Qabs (F32.value (price_sqm_of price area_sqm) * F32.value area_sqm
            - F32.value price)
      <= F32.value price * (1 # 8388608))%Q) /\
    (F32.normal (area_sqft_of area_sqm) ->
     F32.normal (price_sqft_of price area_sqm) ->
     (Qabs (F32.value (price_sqft_of price area_sqm)
            * F32.value (area_sqft_of area_sqm)
            - F32.value price)
      <= F32.value price * (1 # 8388608))%Q));
    [ | destruct Hrel as (H1 & H2 & H3);
        split; [ exact H1 | ]; split; [ exact H2 | ]; split; [ exact H3 | ];
        split; [ | split ];
        [ intros Hn Hle; specialize (H1 Hn)
        | intros Hn Hle; specialize (H2 Hn)
        | intros Hf Hn Hle; specialize (H3 Hf Hn) ];
        (eapply Qle_trans; [ eassumption | lra ]) ].
  destruct Hprice as (mp & ep & ->). destruct Harea as (ma & ea & ->).
  split; [ | split ].
  - intros Hn. unfold area_sqft_of in *.
    rewrite MetricFacts.literal_value in *.
    pose proof (Float32Q.mul_rounding ma 11286767 ea (-20) _ eq_refl Hn) as H.
    pose proof (Float32Q.value_nonneg ma ea) as Hx.
    set (z := F32.value (F32.mul _ _)) in *.
    set (x := F32.value (S754_finite false ma ea)) in *.
    assert (Ec : (F32.value (S754_finite false 11286767 (-20))
                  == 11286767 # 1048576)%Q) by (vm_compute; reflexivity).
    rewrite Ec in H.
    apply Qabs_Qle_condition in H. apply Qabs_Qle_condition. lra.
  - intros Hn. apply Float32Q.relative_to_exact.
    + apply Float32Q.value_nonneg.
    + now apply Float32Q.div_rounding.
  - intros Hsqft Hn.
    destruct (MetricFacts.normal_positive _ Hsqft) as (mf & ef & Ef).
    unfold price_sqft_of in *. rewrite Ef in *.
    apply Float32Q.relative_to_exact.
    + apply Float32Q.value_nonneg.
    + now apply Float32Q.div_rounding.
Qed.

Lemma derived_metrics_within_rounding_witness :
  F32.positive_finite Sample.price_352000 /\
  F32.positive_finite Sample.area_85 /\
  F32.normal (area_sqft_of Sample.area_85) /\
  F32.normal (price_sqm_of Sample.price_352000 Sample.area_85) /\
  F32.normal (price_sqft_of Sample.price_352000 Sample.area_85) /\
  (Qabs (F32.value (price_sqm_of Sample.price_352000 Sample.area_85)
         * F32.value Sample.area_85
         - F32.value Sample.price_352000)
   <= F32.value Sample.price_352000 * (1 # 8388608))%Q.
Proof.
  assert (Hp : F32.positive_finite Sample.price_352000)
    by (eexists; eexists; reflexivity).
  assert (Ha : F32.positive_finite Sample.area_85)
    by (eexists; eexists; reflexivity).
  repeat (split; [ first [ assumption | reflexivity ] | ]).
  exact (proj1 (proj2 (derived_metrics_within_rounding Sample.price_352000
                         Sample.area_85 Hp Ha)) eq_refl).
Defined.

(** * Beyond the claims *)

(** ** [convert_price_area] *)

(** X1: [convert_price_area] always resolves to a price column and an area
    column of the same unit: the square-metre pair exactly for the label
    "Sq M", the square-foot pair for every other label, and the plain price
    exactly for the label "Price". *)
Theorem convert_price_area_same_unit (price_type area_type : string) :
  In (convert_price_area price_type area_type)
     [("price", "area_sqm"); ("price_sqm", "area_sqm");
      ("price", "area_sqft"); ("price_sqft", "area_sqft")] /\
  (snd (convert_price_area price_type area_type) = "area_sqm"
   <-> area_type = "Sq M") /\
  (fst (convert_price_area price_type area_type) = "price"
   <-> price_type = "Price").
Proof.
  rewrite FilterFacts.convert_price_area_eq.
  destruct (String.eqb_spec area_type "Sq M") as [Ea | Ea],
           (String.eqb_spec price_type "Price") as [Ep | Ep]; cbn [fst snd].
  - split; [ now left | ]. now split.
  - split; [ right; now left | ]. split; [ now split | ].
    split; [ discriminate | contradiction ].
  - split; [ do 2 right; now left | ]. split; [ | now split ].
    split; [ discriminate | contradiction ].
  - split; [ do 3 right; now left | ].
    split; (split; [ discriminate | contradiction ]).
Qed.

(** ** What a run of [df_filter] returns *)

Section Runs.

Variables (month : Z) (town : string) (flat : list string) (area_type : string).
Variables (max_area min_area : option number) (price_type : string).
Variables (max_price min_price min_lease max_lease : option number).
Variables (street_name : option string) (yr mth : Z).
Variable selected_mths : list date.

(** X2: for a street text that is absent or plain, the view [df_filter]
    returns holds exactly the records of the table that meet every condition
    in force, in the order of the table and each once per occurrence; every
    row carries the year count parsed from its own lease text. *)
Theorem df_filter_keeps_selected_records (records : list Rec.t) (view : DataFrame)
  (Hplain : plain_street street_name)
  (Hview : df_filter month town flat area_type max_area min_area price_type
             max_price min_price min_lease max_lease street_name yr mth
             selected_mths (write_json (canonical_table records)) = Ok view) :
  (exists keep : Rec.t -> bool,
      map rec (rows view) = filter keep records /\
      forall r, In r records ->
                (keep r = true
                 <-> meets month town flat area_type min_area price_type
                       max_price min_price min_lease max_lease street_name
                       selected_mths r)) /\
  (forall x, In x (rows view) ->
             exists y, year_count x = Some y /\ lease_years (rec x) = Some y).
Proof.
  destruct (RunFacts.df_filter_rows _ _ _ _ _ _ _ _ _ _ _ _ _ _ _ _ _ Hview)
    as (_ & Hrows & Hall).
  split.
  - eexists. split; [ exact Hrows | ].
    intros r Hr. apply MeetsFacts.row_selected_iff.
    now apply (RunFacts.df_filter_ok_parses _ _ _ _ _ _ _ _ _ _ _ _ _ _ _ _ _ Hview).
  - intros x Hx. rewrite Forall_forall in Hall.
    destruct (MeetsFacts.unnest_row_years (rec x) x (Hall x Hx))
      as (_ & Hyears & Hsome).
    destruct (year_count x) as [ y | ]; [ | contradiction ].
    now exists y.
Qed.

End Runs.

Section RunOutcome.

Variables (month : Z) (town : string) (flat : list string) (area_type : string).
Variables (max_area min_area : option number) (price_type : string).
Variables (max_price min_price min_lease max_lease : option number).
Variables (street_name : option string) (yr mth : Z).
Variable selected_mths : list date.

(** X3: on a table with at least one record, for a street text that is
    absent or plain, [df_filter] raises exactly when a record in the window,
    of a chosen flat type and on the street has a lease text without an
    integer year count, whether or not the later bounds would keep that
    record; the exception is the failed cast, and otherwise a view is
    returned. *)
Theorem df_filter_raises_on_unparsed_lease (records : list Rec.t)
  (Hne : records <> []) (Hplain : plain_street street_name) :
  ((forall r, In r records ->
              picked month flat street_name selected_mths r ->
              exists y, lease_years r = Some y) ->
   exists view,
     df_filter month town flat area_type max_area min_area price_type
       max_price min_price min_lease max_lease street_name yr mth
       selected_mths (write_json (canonical_table records)) = Ok view)
  /\
  ((exists r, In r records
              /\ picked month flat street_name selected_mths r
              /\ lease_years r = None) ->
   df_filter month town flat area_type max_area min_area price_type
     max_price min_price min_lease max_lease street_name yr mth
     selected_mths (write_json (canonical_table records))
   = Raised InvalidOperationError).
Proof.
  destruct (RunFacts.df_filter_outcome month town flat area_type max_area
              min_area price_type max_price min_price min_lease max_lease
              street_name yr mth selected_mths records Hne) as (Hok & Hraise).
  split.
  - intros Hparse. apply Hok. intros r Hr Hsel.
    apply MeetsFacts.lease_parses_iff, (Hparse r Hr).
    now apply MeetsFacts.selected_iff.
  - intros (r & Hr & Hpicked & Hnone). apply Hraise. exists r.
    split; [ exact Hr | ]. split.
    + now apply MeetsFacts.selected_iff.
    + now apply MeetsFacts.lease_parses_false_iff.
Qed.

Lemma is_in_In (x : string) (l : list string) : is_in x l = true -> In x l.
Proof.
  unfold is_in. intros H. apply existsb_exists in H as (y & Hy & E).
  apply String.eqb_eq in E. now subst.
Qed.

(** X4: every row of a returned view meets each constraint that is in
    force: its month is in the window and its flat among the chosen ones; its
    town is the chosen town unless that is "All"; the resolved price column is
    within the truthy price bounds and the resolved area column is at least a
    truthy [min_area]. *)
Theorem df_filter_rows_meet_constraints (records : list Rec.t) (view : DataFrame)
  (Hview : df_filter month town flat area_type max_area min_area price_type
             max_price min_price min_lease max_lease street_name yr mth
             selected_mths (write_json (canonical_table records)) = Ok view) :
  forall r, In r (rows view) ->
    In (Rec.month (rec r)) (selected_periods month selected_mths) /\
    In (Rec.flat (rec r)) flat /\
    (town <> "All" -> Rec.town (rec r) = town) /\
    (forall v, max_price = Some v -> truthy (Some v) = true ->
               (column_value (price_column price_type area_type) r <= to_Q v)%Q) /\
    (forall v, min_price = Some v -> truthy (Some v) = true ->
               (to_Q v <= column_value (price_column price_type area_type) r)%Q) /\
    (forall v, min_area = Some v -> truthy (Some v) = true ->
               (to_Q v <= column_value (area_column area_type) r)%Q).
Proof.
  destruct records as [ | r0 records ];
    [ rewrite FilterFacts.df_filter_empty_table in Hview; discriminate | ].
  rewrite FilterFacts.df_filter_canonical in Hview by discriminate.
  rewrite FrameFacts.filter_and in Hview.
  fold (selected (selected_periods month selected_mths) flat street_name) in Hview.
  destruct (traverse unnest_row _) as [ rows1 | e ] eqn:Htrav; [ | discriminate ].
  cbn [bind] in Hview. injection Hview as <-. cbn [rows].
  intros r Hr. apply filter_In in Hr as [Hr Hkeep].
  assert (Hsel : selected (selected_periods month selected_mths) flat street_name
                   (canonical_row (rec r)) = true).
  { pose proof (FilterFacts.traverse_unnest_all
                  (selected (selected_periods month selected_mths) flat street_name)
                  _ rows1
                  (FilterFacts.selected_by_rec _ _ _)
                  (FilterFacts.Forall_filter_true _ _) Htrav) as Hall.
    rewrite Forall_forall in Hall. now apply Hall. }
  unfold selected, keep_month_flat in Hsel. cbn [rec canonical_row] in Hsel.
  apply andb_true_iff in Hsel as [Hsel _].
  apply andb_true_iff in Hsel as [Hmonth Hflat].
  unfold keep_bounds in Hkeep.
  apply andb_true_iff in Hkeep as [Hkeep Hmin_area].
  apply andb_true_iff in Hkeep as [Hkeep Hmin_price].
  apply andb_true_iff in Hkeep as [Hkeep Hmax_price].
  apply andb_true_iff in Hkeep as [_ Htown].
  split; [ now apply is_in_In | ]. split; [ now apply is_in_In | ].
  split; [ | split; [ | split ] ].
  - intros Hnot. unfold keep_town in Htown.
    destruct (String.eqb_spec town "All") as [E | _]; [ contradiction | ].
    cbn [negb] in Htown. now apply String.eqb_eq.
  - intros v -> Hv. unfold keep_when in Hmax_price. rewrite Hv in Hmax_price.
    now apply Qle_bool_iff.
  - intros v -> Hv. unfold keep_when in Hmin_price. rewrite Hv in Hmin_price.
    now apply Qle_bool_iff.
  - intros v -> Hv. unfold keep_when in Hmin_area. rewrite Hv in Hmin_area.
    now apply Qle_bool_iff.
Qed.

(** X5: a returned view has the columns of the canonical table without the
    two columns of the unit that was not asked for, followed by [year_count]
    and [mth_count]; the price and area columns [convert_price_area] resolves
    are always among them. *)
Theorem df_filter_view_columns (records : list Rec.t) (view : DataFrame)
  (Hview : df_filter month town flat area_type max_area min_area price_type
             max_price min_price min_lease max_lease street_name yr mth
             selected_mths (write_json (canonical_table records)) = Ok view) :
  columns view = view_columns area_type /\
  has_column (price_column price_type area_type) view = true /\
  has_column (area_column area_type) view = true /\
  (area_type = "Sq M" ->
   has_column "area_sqft" view = false /\ has_column "price_sqft" view = false) /\
  (area_type <> "Sq M" ->
   has_column "area_sqm" view = false /\ has_column "price_sqm" view = false).
Proof.
  destruct records as [ | r0 records ];
    [ rewrite FilterFacts.df_filter_empty_table in Hview; discriminate | ].
  rewrite FilterFacts.df_filter_canonical in Hview by discriminate.
  destruct (traverse unnest_row _) as [ rows1 | e ]; [ | discriminate ].
  cbn [bind] in Hview. injection Hview as <-.
  unfold has_column, price_column, area_column, view_columns. cbn [columns].
  rewrite !FilterFacts.convert_price_area_eq. cbn [fst snd].
  destruct (String.eqb_spec area_type "Sq M") as [Ea | Ea],
           (String.eqb price_type "Price");
    (split; [ reflexivity | ]); (split; [ reflexivity | ]);
    (split; [ reflexivity | ]);
    (split; [ intros H; try contradiction; split; reflexivity
            | intros H; try contradiction; split; reflexivity ]).
Qed.

End RunOutcome.

Lemma df_filter_keeps_selected_records_witness :
  plain_street (Some "mei") /\
  exists view,
    df_filter 6 "All" ["4RM"] "Sq M" None None "Price" None
      (Some (PyInt 550000)) None None (Some "mei") 2024 6 Sample.months_to_june
      (write_json (canonical_table Sample.table)) = Ok view /\
    map rec (rows view) = [Sample.queenstown_4rm] /\
    forall x, In x (rows view) ->
              exists y, year_count x = Some y /\ lease_years (rec x) = Some y.
Proof.
  assert (Hplain : plain_street (Some "mei"))
    by (intros s H; injection H as <-; reflexivity).
  split; [ exact Hplain | ].
  eexists. split; [ reflexivity | ]. split; [ reflexivity | ].
  exact (proj2 (df_filter_keeps_selected_records 6 "All" ["4RM"] "Sq M" None
                  None "Price" None (Some (PyInt 550000)) None None
                  (Some "mei") 2024 6 Sample.months_to_june Sample.table _
                  Hplain eq_refl)).
Defined.

Lemma df_filter_raises_on_unparsed_lease_witness :
  Sample.table <> [] /\
  plain_street (Some "ave") /\
  exists view,
    df_filter 6 "All" ["4RM"] "Sq M" None None "Price" None None None None
      (Some "ave") 2024 6 Sample.months_to_june
      (write_json (canonical_table Sample.table)) = Ok view.
Proof.
  assert (Hplain : plain_street (Some "ave"))
    by (intros s H; injection H as <-; reflexivity).
  split; [ discriminate | ]. split; [ exact Hplain | ].
  apply (proj1 (df_filter_raises_on_unparsed_lease 6 "All" ["4RM"] "Sq M" None
                  None "Price" None None None None (Some "ave") 2024 6
                  Sample.months_to_june Sample.table ltac:(discriminate) Hplain)).
  intros r [<- | [<- | [<- | []]]] _; eexists; reflexivity.
Defined.

Lemma df_filter_rows_meet_constraints_witness :
  exists view,
    df_filter 6 "BEDOK" ["4RM"; "3RM"] "Sq M" None None "Price"
      (Some (PyInt 400000)) None None None None 2024 6 Sample.months_to_june
      (write_json (canonical_table Sample.table)) = Ok view /\
    map rec (rows view) = [Sample.bedok_3rm] /\
    forall r, In r (rows view) ->
      Rec.town (rec r) = "BEDOK" /\ (Rec.price (rec r) <= 400000)%Q.
Proof.
  eexists. split; [ reflexivity | ]. split; [ reflexivity | ].
  intros r Hr.
  destruct (df_filter_rows_meet_constraints 6 "BEDOK" ["4RM"; "3RM"] "Sq M"
              None None "Price" (Some (PyInt 400000)) None None None None
              2024 6 Sample.months_to_june Sample.table _ eq_refl r Hr)
    as (_ & _ & Htown & Hmax & _).
  split.
  - apply Htown. discriminate.
  - exact (Hmax (PyInt 400000) eq_refl eq_refl).
Defined.

Lemma df_filter_view_columns_witness :
  exists view,
    df_filter 6 "All" ["4RM"] "Sq Feet" None None "Price / Area" None None
      None None None 2024 6 Sample.months_to_june
      (write_json (canonical_table Sample.table)) = Ok view /\
    has_column "price_sqft" view = true /\
    has_column "area_sqft" view = true /\
    has_column "area_sqm" view = false /\ has_column "price_sqm" view = false.
Proof.
  eexists. split; [ reflexivity | ].
  destruct (df_filter_view_columns 6 "All" ["4RM"] "Sq Feet" None None
              "Price / Area" None None None None None 2024 6
              Sample.months_to_june Sample.table _ eq_refl)
    as (_ & Hprice & Harea & _ & Hother).
  split; [ exact Hprice | ]. split; [ exact Harea | ].
  apply Hother. discriminate.
Defined.

(** ** The window of months *)

Module WindowFacts.

Lemma slice_from_as_skipn {A : Type} (n : Z) (l : list A) :
  0 < n ->
  slice_from (- n) l = skipn (Z.to_nat (Z.max 0 (Z.of_nat (length l) - n))) l.
Proof.
  intros Hn. unfold slice_from.
  replace (- n <? 0) with true by (symmetry; apply Z.ltb_lt; lia).
  do 2 f_equal. lia.
Qed.

Lemma slice_from_whole {A : Type} (n : Z) (l : list A) :
  n = 0 \/ Z.of_nat (length l) <= n -> slice_from (- n) l = l.
Proof.
  intros [-> | Hn].
  - unfold slice_from. cbn [Z.opp Z.ltb Z.compare].
    replace (Z.min 0 (Z.of_nat (length l))) with 0 by lia. reflexivity.
  - destruct (Z.eq_dec n 0) as [-> | Hz].
    + unfold slice_from. cbn [Z.opp Z.ltb Z.compare].
      replace (Z.min 0 (Z.of_nat (length l))) with 0 by lia. reflexivity.
    + rewrite slice_from_as_skipn by lia.
      replace (Z.max 0 (Z.of_nat (length l) - n)) with 0 by lia. reflexivity.
Qed.

Lemma In_skipn {A : Type} (k : nat) (x : A) (l : list A) :
  In x (skipn k l) -> In x l.
Proof.
  revert l. induction k as [ | k IH ]; intros l H; [ exact H | ].
  destruct l as [ | a l ]; [ exact H | ]. right. now apply IH.
Qed.

Lemma window_nested {A : Type} (n m : Z) (l : list A) (x : A) :
  0 < n <= m -> In x (slice_from (- n) l) -> In x (slice_from (- m) l).
Proof.
  intros Hnm. rewrite !slice_from_as_skipn by lia.
  set (a := Z.to_nat (Z.max 0 (Z.of_nat (length l) - n))).
  set (b := Z.to_nat (Z.max 0 (Z.of_nat (length l) - m))).
  replace a with ((a - b) + b)%nat by lia.
  rewrite <- skipn_skipn. apply In_skipn.
Qed.

Lemma is_in_true_iff (x : string) (l : list string) : is_in x l = true <-> In x l.
Proof.
  unfold is_in. rewrite existsb_exists. split.
  - intros (y & Hy & E). apply String.eqb_eq in E. now subst.
  - intros H. exists x. split; [ exact H | apply String.eqb_refl ].
Qed.

Lemma periods_nested (n m : Z) (selected_mths : list date) (x : string) :
  0 < n <= m ->
  is_in x (selected_periods n selected_mths) = true ->
  is_in x (selected_periods m selected_mths) = true.
Proof.
  intros Hnm. rewrite !is_in_true_iff. unfold selected_periods.
  rewrite !in_map_iff. intros (d & Hd & Hin).
  exists d. split; [ exact Hd | now apply (window_nested n m) ].
Qed.

End WindowFacts.

Section Window.

Variables (town : string) (flat : list string) (area_type : string).
Variables (max_area min_area : option number) (price_type : string).
Variables (max_price min_price min_lease max_lease : option number).
Variables (street_name : option string) (yr mth : Z).
Variable selected_mths : list date.

(** X6: the window of [df_filter] is the last [month] entries of
    [selected_mths] when [month] is positive and at most their number; a
    [month] of 0, like one that exceeds their number, does not give an empty
    window but all the months, and the run is the run over all of them. *)
Theorem month_zero_selects_every_month (month : Z) :
  (0 < month <= Z.of_nat (length selected_mths) ->
   selected_periods month selected_mths
   = map strftime_Y_m
       (skipn (length selected_mths - Z.to_nat month) selected_mths)
   /\ length (selected_periods month selected_mths) = Z.to_nat month) /\
  (month = 0 \/ Z.of_nat (length selected_mths) <= month ->
   selected_periods month selected_mths = map strftime_Y_m selected_mths
   /\ forall data_json,
        df_filter month town flat area_type max_area min_area price_type
          max_price min_price min_lease max_lease street_name yr mth
          selected_mths data_json
        = df_filter (Z.of_nat (length selected_mths)) town flat area_type
            max_area min_area price_type max_price min_price min_lease
            max_lease street_name yr mth selected_mths data_json).
Proof.
  split.
  - intros Hm. unfold selected_periods.
    rewrite WindowFacts.slice_from_as_skipn by lia.
    replace (Z.to_nat (Z.max 0 (Z.of_nat (length selected_mths) - month)))
      with (length selected_mths - Z.to_nat month)%nat by lia.
    split; [ reflexivity | ].
    rewrite length_map, length_skipn. lia.
  - intros Hm.
    assert (Hall : slice_from (- month) selected_mths = selected_mths)
      by now apply WindowFacts.slice_from_whole.
    assert (Hlen : slice_from (- Z.of_nat (length selected_mths)) selected_mths
                   = selected_mths)
      by (apply WindowFacts.slice_from_whole; right; lia).
    split.
    + unfold selected_periods. now rewrite Hall.
    + intros data_json. unfold df_filter. now rewrite Hall, Hlen.
Qed.

(** X7: windows nest.  For [0 < n <= m], when the runs over the last [n]
    and the last [m] months both return, the rows of the shorter window are
    the rows of the longer one whose month is in the shorter window. *)
Theorem shorter_window_restricts_longer (n m : Z) (records : list Rec.t)
  (view_n view_m : DataFrame)
  (Hnm : 0 < n <= m)
  (Hn : df_filter n town flat area_type max_area min_area price_type
          max_price min_price min_lease max_lease street_name yr mth
          selected_mths (write_json (canonical_table records)) = Ok view_n)
  (Hm : df_filter m town flat area_type max_area min_area price_type
          max_price min_price min_lease max_lease street_name yr mth
          selected_mths (write_json (canonical_table records)) = Ok view_m) :
  rows view_n
  = filter (fun r => is_in (Rec.month (rec r)) (selected_periods n selected_mths))
      (rows view_m).
Proof.
  destruct records as [ | r0 records ];
    [ rewrite FilterFacts.df_filter_empty_table in Hn; discriminate | ].
  rewrite FilterFacts.df_filter_canonical in Hn, Hm by discriminate.
  set (inwin := fun r : Row =>
                  is_in (Rec.month (rec r)) (selected_periods n selected_mths)).
  set (L := map canonical_row (r0 :: records)) in *.
  assert (Hsplit :
    filter (keep_street street_name)
      (filter (keep_month_flat (selected_periods n selected_mths) flat) L)
    = filter inwin
        (filter (keep_street street_name)
           (filter (keep_month_flat (selected_periods m selected_mths) flat) L))).
  { rewrite !FrameFacts.filter_and. apply filter_ext. intros r.
    unfold keep_month_flat, inwin.
    destruct (is_in (Rec.month (rec r)) (selected_periods n selected_mths)) eqn:E.
    - rewrite (WindowFacts.periods_nested n m _ _ Hnm E).
      now destruct (is_in (Rec.flat (rec r)) flat), (keep_street street_name r).
    - now destruct (is_in (Rec.month (rec r)) (selected_periods m selected_mths)),
            (is_in (Rec.flat (rec r)) flat), (keep_street street_name r). }
  rewrite Hsplit in Hn.
  destruct (traverse unnest_row
              (filter (keep_street street_name)
                 (filter (keep_month_flat (selected_periods m selected_mths) flat) L)))
    as [ rows_m | e ] eqn:Htrav; [ | discriminate ].
  rewrite (FilterFacts.traverse_unnest_filter inwin _ rows_m) in Hn;
    [ | intros r r' H; unfold inwin; now rewrite H | exact Htrav ].
  cbn [bind] in Hn, Hm. injection Hn as <-. injection Hm as <-. cbn [rows].
  rewrite !FrameFacts.filter_and. apply filter_ext. intros r. apply andb_comm.
Qed.

End Window.

Lemma month_zero_selects_every_month_witness :
  selected_periods 3 Sample.months_to_june = ["2024-04"; "2024-05"; "2024-06"] /\
  selected_periods 0 Sample.months_to_june
  = ["2024-01"; "2024-02"; "2024-03"; "2024-04"; "2024-05"; "2024-06"].
Proof.
  split.
  - exact (proj1 (proj1 (month_zero_selects_every_month "All" ["4RM"] "Sq M"
                           None None "Price" None None None None None 2024 6
                           Sample.months_to_june 3) ltac:(cbn; lia))).
  - exact (proj1 (proj2 (month_zero_selects_every_month "All" ["4RM"] "Sq M"
                           None None "Price" None None None None None 2024 6
                           Sample.months_to_june 0) (or_introl eq_refl))).
Defined.

Lemma shorter_window_restricts_longer_witness :
  exists view_1 view_6,
    df_filter 1 "All" ["4RM"] "Sq M" None None "Price" None None None None
      None 2024 6 Sample.months_to_june
      (write_json (canonical_table Sample.table)) = Ok view_1 /\
    df_filter 6 "All" ["4RM"] "Sq M" None None "Price" None None None None
      None 2024 6 Sample.months_to_june
      (write_json (canonical_table Sample.table)) = Ok view_6 /\
    map rec (rows view_6) = [Sample.bedok_4rm; Sample.queenstown_4rm] /\
    rows view_1
    = filter (fun r => is_in (Rec.month (rec r)) ["2024-06"]) (rows view_6).
Proof.
  eexists. eexists. split; [ reflexivity | ]. split; [ reflexivity | ].
  split; [ reflexivity | ].
  exact (shorter_window_restricts_longer "All" ["4RM"] "Sq M" None None "Price"
           None None None None None 2024 6 Sample.months_to_june 1 6
           Sample.table _ _ ltac:(lia) eq_refl eq_refl).
Defined.

(** ** More on the fetch and merge loop *)

Section MergeFacts.

Variable requests_get : string -> result Response.

(** X8: the order in which the fetches complete changes the order of the
    rows of the merged table and nothing else: when the merge returns for two
    completion orders of the same periods, the two tables are permutations of
    each other. *)
Theorem completion_order_permutes_rows (completed completed' : list string)
  (table table' : list Raw.t)
  (Horder : Permutation completed completed')
  (Htable : recent_df requests_get completed = Ok table)
  (Htable' : recent_df requests_get completed' = Ok table') :
  Permutation table table'.
Proof.
  unfold recent_df in Htable, Htable'.
  apply merge_completed_ok in Htable, Htable'. subst table table'.
  cbn [app]. now apply Permutation_flat_map.
Qed.

(** X9: the merge returns a table exactly when every fetch returned a batch
    and the empty batches completed before the batches with rows; the table is
    then made of the batches in completion order.  Otherwise the loop stops
    at the first period, in completion order, whose fetch raised, with the
    exception of that fetch, or whose batch was empty below a table that
    already had rows, with the width error of the concatenation; the rows
    merged until then are lost. *)
Theorem merge_raises_first_failure (completed : list string) :
  (forall table,
      recent_df requests_get completed = Ok table
      <-> (table = flat_map (batch_of requests_get) completed /\
           exists early late,
             completed = (early ++ late)%list /\
             (forall p, In p early ->
                        fetch_data_for_period requests_get p = Ok []) /\
             (forall p, In p late ->
                        exists batch,
                          fetch_data_for_period requests_get p = Ok batch
                          /\ batch <> []))) /\
  (forall before p after merged e,
      completed = (before ++ p :: after)%list ->
      recent_df requests_get before = Ok merged ->
      fetch_data_for_period requests_get p = Raised e ->
      recent_df requests_get completed = Raised e) /\
  (forall before p after merged,
      completed = (before ++ p :: after)%list ->
      recent_df requests_get before = Ok merged ->
      merged <> [] ->
      fetch_data_for_period requests_get p = Ok [] ->
      recent_df requests_get completed = Raised ShapeError).
Proof.
  split; [ | split ].
  - intros table. split.
    + intros H. split.
      * exact (merge_completed_ok requests_get completed [] table H).
      * exact (merge_completed_ok_split requests_get completed table H).
    + intros (-> & early & late & -> & Hearly & Hlate).
      unfold recent_df.
      rewrite (merge_completed_empty requests_get early late Hearly).
      rewrite (merge_completed_rows requests_get late [] Hlate).
      rewrite flat_map_app.
      now rewrite (flat_map_empty requests_get early Hearly).
  - intros before p after merged e -> Hbefore Hp.
    unfold recent_df in *. rewrite merge_completed_app, Hbefore.
    cbn [bind merge_completed]. now rewrite Hp.
  - intros before p after merged -> Hbefore Hrows Hp.
    unfold recent_df in *. rewrite merge_completed_app, Hbefore.
    cbn [bind merge_completed]. rewrite Hp. cbn [bind].
    now rewrite (concat_vertical_empty_below merged Hrows).
Qed.

End MergeFacts.

Lemma completion_order_permutes_rows_witness :
  recent_df Sample.get_two ["2024-04"; "2024-05"; "2024-06"]
  = Ok [Sample.raw_queenstown; Sample.raw_bedok] /\
  recent_df Sample.get_two ["2024-04"; "2024-06"; "2024-05"]
  = Ok [Sample.raw_bedok; Sample.raw_queenstown] /\
  Permutation [Sample.raw_queenstown; Sample.raw_bedok]
    [Sample.raw_bedok; Sample.raw_queenstown].
Proof.
  split; [ reflexivity | ]. split; [ reflexivity | ].
  apply (completion_order_permutes_rows Sample.get_two
           ["2024-04"; "2024-05"; "2024-06"] ["2024-04"; "2024-06"; "2024-05"]).
  - apply perm_skip, perm_swap.
  - reflexivity.
  - reflexivity.
Defined.

Lemma merge_raises_first_failure_witness :
  recent_df Sample.get_one_down ["2024-06"; "2024-05"; "2024-04"]
  = Raised ConnectionError /\
  recent_df Sample.get_one_500 ["2024-06"; "2024-05"] = Raised ShapeError.
Proof.
  split.
  - exact (proj1 (proj2 (merge_raises_first_failure Sample.get_one_down
                           ["2024-06"; "2024-05"; "2024-04"]))
             ["2024-06"] "2024-05" ["2024-04"] _ ConnectionError
             eq_refl eq_refl eq_refl).
  - exact (proj2 (proj2 (merge_raises_first_failure Sample.get_one_500
                           ["2024-06"; "2024-05"]))
             ["2024-06"] "2024-05" [] _ eq_refl eq_refl
             ltac:(discriminate) eq_refl).
Defined.

(** ** More on the normaliser *)

Module NormaliserFacts.

Lemma replace_absent (pattern value s : string) :
  Str.contains_literal s pattern = false -> Str.replace pattern value s = s.
Proof.
  induction s as [ | c s IH ]; cbn [Str.contains_literal Str.replace].
  - destruct (Str.strip_prefix pattern ""); [ discriminate | reflexivity ].
  - destruct (Str.strip_prefix pattern (String c s)); [ discriminate | ].
    intros H. now rewrite IH.
Qed.

Lemma split_on_digits (sep : ascii) (digits rest : string) :
  Str.is_digit sep = false ->
  Str.all_chars Str.is_digit digits = true ->
  Str.split_on sep (digits ++ rest)
  = match Str.split_on sep rest with
    | [] => [digits]
    | piece :: pieces => (digits ++ piece) :: pieces
    end.
Proof.
  intros Hsep. induction digits as [ | d digits IH ]; intros Hd.
  - cbn [append]. destruct (Str.split_on sep rest) eqn:E; [ | reflexivity ].
    destruct rest as [ | c rest ]; cbn in E; [ discriminate | ].
    destruct (Ascii.eqb c sep); [ discriminate | ].
    destruct (Str.split_on sep rest); discriminate.
  - cbn in Hd. apply andb_true_iff in Hd as [Hd Hds].
    change (String d digits ++ rest) with (String d (digits ++ rest)).
    cbn [Str.split_on].
    rewrite Ascii.eqb_sym, (LeaseFacts.digit_differs sep d Hsep Hd).
    rewrite (IH Hds). now destruct (Str.split_on sep rest).
Qed.

Lemma append_empty (s : string) : s ++ "" = s.
Proof. induction s as [ | c s IH ]; cbn; [ reflexivity | now rewrite IH ]. Qed.

End NormaliserFacts.

(** X10: a text that contains none of the patterns of a replace chain
    leaves the normaliser as it came: a flat label without " ROOM",
    "EXECUTIVE" and "MULTI-GENERATION", a storey range without " TO ", a lease
    text without "s", " year" and " month". *)
Theorem normaliser_keeps_other_texts (s : string) :
  (Str.contains_literal s " ROOM" = false ->
   Str.contains_literal s "EXECUTIVE" = false ->
   Str.contains_literal s "MULTI-GENERATION" = false ->
   flat_of s = s) /\
  (Str.contains_literal s " TO " = false -> storey_range_of s = s) /\
  (Str.contains_literal s "s" = false ->
   Str.contains_literal s " year" = false ->
   Str.contains_literal s " month" = false ->
   lease_left_of s = s).
Proof.
  split; [ | split ].
  - intros H1 H2 H3. unfold flat_of.
    now rewrite (NormaliserFacts.replace_absent _ _ _ H1),
      (NormaliserFacts.replace_absent _ _ _ H2),
      (NormaliserFacts.replace_absent _ _ _ H3).
  - intros H. now apply NormaliserFacts.replace_absent.
  - intros H1 H2 H3. unfold lease_left_of.
    now rewrite (NormaliserFacts.replace_absent _ _ _ H1),
      (NormaliserFacts.replace_absent _ _ _ H2),
      (NormaliserFacts.replace_absent _ _ _ H3).
Qed.

Lemma normaliser_keeps_other_texts_witness :
  flat_of "TERRACE" = "TERRACE" /\ storey_range_of "01-03" = "01-03".
Proof.
  split.
  - exact (proj1 (normaliser_keeps_other_texts "TERRACE") eq_refl eq_refl eq_refl).
  - exact (proj1 (proj2 (normaliser_keeps_other_texts "01-03")) eq_refl).
Defined.

(** X11: a flat label "<N> ROOM" becomes "<N>RM" and a storey range
    "<a> TO <b>" becomes "<a>-<b>", for all digit strings. *)
Theorem room_and_storey_labels (N a b : string)
  (HN : Str.all_chars Str.is_digit N = true)
  (Ha : Str.all_chars Str.is_digit a = true)
  (Hb : Str.all_chars Str.is_digit b = true) :
  flat_of (N ++ " ROOM") = N ++ "RM" /\
  storey_range_of (a ++ " TO " ++ b) = a ++ "-" ++ b.
Proof.
  split.
  - unfold flat_of.
    rewrite (LeaseFacts.replace_skips_digits " " "ROOM" "RM" N)
      by (reflexivity || exact HN).
    change (Str.replace " ROOM" "RM" " ROOM") with "RM".
    rewrite (LeaseFacts.replace_skips_digits "E" "XECUTIVE" "EC" N)
      by (reflexivity || exact HN).
    change (Str.replace "EXECUTIVE" "EC" "RM") with "RM".
    rewrite (LeaseFacts.replace_skips_digits "M" "ULTI-GENERATION" "MG" N)
      by (reflexivity || exact HN).
    reflexivity.
  - unfold storey_range_of.
    rewrite (LeaseFacts.replace_skips_digits " " "TO " "-" a)
      by (reflexivity || exact Ha).
    reflexivity.
Qed.

Lemma room_and_storey_labels_witness :
  flat_of "4 ROOM" = "4RM" /\ storey_range_of "10 TO 12" = "10-12".
Proof.
  exact (room_and_storey_labels "4" "10" "12" eq_refl eq_refl eq_refl).
Defined.

(** X12: the year count [df_filter] reads from a normalised lease is the
    number before " years" of the raw text: for a record whose [lease_left]
    is the normalised "<N> years <M> months" (or "<N> years"), the unnested
    row has the integer value of <N> as [year_count] whenever <N> casts to
    Int32, and the rest of the text, blank and "ms" included, as
    [mth_count]. *)
Theorem normalised_lease_gives_year_count (N M : string) (y : Z) (r : Rec.t)
  (HN : Str.all_chars Str.is_digit N = true)
  (HM : Str.all_chars Str.is_digit M = true)
  (Hy : cast_int32 N = Some y) :
  (Rec.lease_left r = lease_left_of (N ++ " years " ++ M ++ " months") ->
   unnest_row (canonical_row r)
   = Ok {| rec := r; year_count := Some y;
           mth_count := Some (" " ++ M ++ "ms") |}) /\
  (Rec.lease_left r = lease_left_of (N ++ " years") ->
   unnest_row (canonical_row r)
   = Ok {| rec := r; year_count := Some y; mth_count := Some "" |}).
Proof.
  split; intros Hlease; unfold unnest_row, split_exact_y;
    cbn [rec canonical_row]; rewrite Hlease.
  - rewrite LeaseFacts.years_and_months by assumption.
    rewrite NormaliserFacts.split_on_digits by (reflexivity || exact HN).
    change ("y " ++ M ++ "ms") with (String "y" (String " " (M ++ "ms"))).
    cbn [Str.split_on]. change (Ascii.eqb "y" "y") with true.
    change (Ascii.eqb " " "y") with false. cbv iota.
    rewrite NormaliserFacts.split_on_digits by (reflexivity || exact HM).
    change (Str.split_on "y" "ms") with ["ms"].
    cbv iota. rewrite NormaliserFacts.append_empty, Hy. reflexivity.
  - rewrite LeaseFacts.years_only by assumption.
    rewrite NormaliserFacts.split_on_digits by (reflexivity || exact HN).
    change (Str.split_on "y" "y") with [""; ""].
    cbv iota. rewrite NormaliserFacts.append_empty, Hy. reflexivity.
Qed.
Lemma normalised_lease_gives_year_count_witness :
  unnest_row (canonical_row Sample.bedok_4rm)
  = Ok {| rec := Sample.bedok_4rm; year_count := Some 61;
          mth_count := Some " 04ms" |}.
Proof.
  exact (proj1 (normalised_lease_gives_year_count "61" "04" 61 Sample.bedok_4rm
                  eq_refl eq_refl eq_refl) eq_refl).
Defined.

(** ** The callbacks on a returned view *)

Module ViewFacts.

Lemma view_shape (month : Z) (town : string) (flat : list string)
  (area_type : string) (max_area min_area : option number)
  (price_type : string) (max_price min_price min_lease max_lease : option number)
  (street_name : option string) (yr mth : Z) (selected_mths : list date)
  (records : list Rec.t) (view : DataFrame) :
  df_filter month town flat area_type max_area min_area price_type
    max_price min_price min_lease max_lease street_name yr mth
    selected_mths (write_json (canonical_table records)) = Ok view ->
  view = {| columns := view_columns area_type; rows := rows view |}.
Proof.
  intros Hview.
  destruct records as [ | r0 records ];
    [ rewrite FilterFacts.df_filter_empty_table in Hview; discriminate | ].
  rewrite FilterFacts.df_filter_canonical in Hview by discriminate.
  destruct (traverse unnest_row _) as [ rows1 | e ]; [ | discriminate ].
  cbn [bind] in Hview. now injection Hview as <-.
Qed.

Lemma nth_error_map_some {A B : Type} (f : A -> B) (l : list A) (i : nat) (a : A) :
  nth_error l i = Some a -> nth_error (map f l) i = Some (f a).
Proof.
  revert i. induction l as [ | x l IH ]; intros [ | i ] H; try discriminate.
  - now inversion H.
  - now apply IH.
Qed.

End ViewFacts.

Section Callbacks.

Variables (month : Z) (town : string) (flat : list string) (area_type : string).
Variables (max_area min_area : option number) (price_type : string).
Variables (max_price min_price min_lease max_lease : option number).
Variables (street_name : option string) (yr mth : Z).
Variables (selected_mths : list date) (records : list Rec.t) (view : DataFrame).

Hypothesis Hview :
  df_filter month town flat area_type max_area min_area price_type
    max_price min_price min_lease max_lease street_name yr mth
    selected_mths (write_json (canonical_table records)) = Ok view.
Hypothesis Hrows : rows view <> [].

(** X13: for a view with rows that [df_filter] returned, [update_table]
    returns the rows of the view without [year_count] and [mth_count], and a
    grid of nine columns: the seven fixed ones, then the area and the price
    per area of the unit of the view, never those of the other unit. *)
Theorem update_table_on_view :
  exists table defs,
    update_table (write_json view) area_type price_type = Ok (table, defs) /\
    rows table = rows view /\
    has_column "year_count" table = false /\
    has_column "mth_count" table = false /\
    map field defs
    = ["month"; "flat"; "town"; "street_name"; "storey_range"; "lease_left";
       "price"; area_column area_type; price_column "Price / Area" area_type].
Proof.
  rewrite (ViewFacts.view_shape _ _ _ _ _ _ _ _ _ _ _ _ _ _ _ _ _ Hview).
  destruct (rows view) as [ | r l ]; [ contradiction | ].
  unfold area_column, price_column, view_columns.
  rewrite !FilterFacts.convert_price_area_eq. cbn [fst snd].
  change (String.eqb "Price / Area" "Price") with false.
  change (String.eqb "Price" "Price") with true. cbv iota.
  destruct (String.eqb area_type "Sq M");
    do 2 eexists; (split; [ reflexivity | ]); repeat split.
Qed.

(** X14: for a view with rows that [df_filter] returned, [update_g0] plots
    the price against the price per area of the unit of the view, whatever
    the price mode; in its hover box the label "Town" shows the price of the
    point, "Street Name" its town and "Lease Left" its street name (the
    template reads the custom data one place off), while "Area" shows the
    area. *)
Theorem update_g0_on_view :
  exists fig,
    update_g0 (write_json view) town area_type price_type max_lease min_lease
    = Ok fig /\
    trace_y fig = map (fun r => Num (Rec.price (rec r))) (rows view) /\
    trace_x fig
    = map (fun r => Num (column_value (price_column "Price / Area" area_type) r))
        (rows view) /\
    forall i r, nth_error (rows view) i = Some r ->
      hover_value fig "Town" i = Some (Num (Rec.price (rec r))) /\
      hover_value fig "Street Name" i = Some (Text (Rec.town (rec r))) /\
      hover_value fig "Lease Left" i = Some (Text (Rec.street_name (rec r))) /\
      hover_value fig "Area" i
      = Some (Num (column_value (area_column area_type) r)).
Proof.
  rewrite (ViewFacts.view_shape _ _ _ _ _ _ _ _ _ _ _ _ _ _ _ _ _ Hview).
  destruct (rows view) as [ | r0 l ]; [ contradiction | ].
  unfold area_column, price_column, view_columns.
  rewrite !FilterFacts.convert_price_area_eq. cbn [fst snd].
  change (String.eqb "Price / Area" "Price") with false.
  change (String.eqb "Price" "Price") with true. cbv iota.
  unfold update_g0.
  destruct (String.eqb area_type "Sq M");
    (eexists; split; [ reflexivity | ]);
    (split; [ reflexivity | ]); (split; [ reflexivity | ]);
    intros i r Hi; unfold hover_value;
    cbn [hovertemplate find fst String.eqb Ascii.eqb Bool.eqb customdata rows];
    rewrite (ViewFacts.nth_error_map_some _ _ _ _ Hi);
    repeat split.
Qed.

(** X15: for a view with rows that [df_filter] returned with the same
    labels, [update_g2] and [update_g1] plot the resolved price column, the
    one the price bounds of the filter were compared with; [update_g2] plots
    it against the year counts, and every label of its hover box shows its own
    field. *)
Theorem update_g2_on_view :
  exists fig box,
    update_g2 (write_json view) town area_type price_type max_lease min_lease
    = Ok fig /\
    update_g1 (write_json view) town area_type price_type max_lease min_lease
    = Ok box /\
    trace_y fig
    = map (fun r => Num (column_value (price_column price_type area_type) r))
        (rows view) /\
    trace_y box = trace_y fig /\
    trace_x fig = map (fun r => Count (year_count r)) (rows view) /\
    forall i r, nth_error (rows view) i = Some r ->
      hover_value fig "Price" i = Some (Num (Rec.price (rec r))) /\
      hover_value fig "Town" i = Some (Text (Rec.town (rec r))) /\
      hover_value fig "Street Name" i = Some (Text (Rec.street_name (rec r))) /\
      hover_value fig "Area" i
      = Some (Num (column_value (area_column area_type) r)) /\
      hover_value fig "Lease Left" i = Some (Count (year_count r)).
Proof.
  rewrite (ViewFacts.view_shape _ _ _ _ _ _ _ _ _ _ _ _ _ _ _ _ _ Hview).
  destruct (rows view) as [ | r0 l ]; [ contradiction | ].
  unfold area_column, price_column, view_columns, update_g2, update_g1.
  rewrite !FilterFacts.convert_price_area_eq. cbn [fst snd].
  change (String.eqb "Price" "Price") with true. cbv iota.
  destruct (String.eqb area_type "Sq M"), (String.eqb price_type "Price");
    (do 2 eexists; split; [ reflexivity | ]);
    (split; [ reflexivity | ]); (split; [ reflexivity | ]);
    (split; [ reflexivity | ]); (split; [ reflexivity | ]);
    intros i r Hi; unfold hover_value;
    cbn [hovertemplate find fst String.eqb Ascii.eqb Bool.eqb customdata rows
         trace_x append];
    rewrite ?(ViewFacts.nth_error_map_some _ _ _ _ Hi);
    repeat split.
Qed.

End Callbacks.

Lemma update_table_on_view_witness :
  exists view,
    df_filter 6 "All" ["4RM"] "Sq Feet" None None "Price" None None None None
      None 2024 6 Sample.months_to_june
      (write_json (canonical_table Sample.table)) = Ok view /\
    rows view <> [] /\
    exists table defs,
      update_table (write_json view) "Sq Feet" "Price" = Ok (table, defs) /\
      map field defs
      = ["month"; "flat"; "town"; "street_name"; "storey_range"; "lease_left";
         "price"; "area_sqft"; "price_sqft"].
Proof.
  eexists. split; [ reflexivity | ]. split; [ discriminate | ].
  destruct (update_table_on_view 6 "All" ["4RM"] "Sq Feet" None None "Price"
              None None None None None 2024 6 Sample.months_to_june
              Sample.table _ eq_refl ltac:(discriminate))
    as (table & defs & Htable & _ & _ & _ & Hfields).
  exists table, defs. split; [ exact Htable | exact Hfields ].
Defined.

Lemma update_g0_on_view_witness :
  exists view,
    df_filter 6 "All" ["4RM"] "Sq M" None None "Price" None None None None
      None 2024 6 Sample.months_to_june
      (write_json (canonical_table Sample.table)) = Ok view /\
    rows view <> [] /\
    exists fig,
      update_g0 (write_json view) "All" "Sq M" "Price" None None = Ok fig /\
      hover_value fig "Town" 0 = Some (Num 500000) /\
      hover_value fig "Street Name" 0 = Some (Text "BEDOK").
Proof.
  eexists. split; [ reflexivity | ]. split; [ discriminate | ].
  destruct (update_g0_on_view 6 "All" ["4RM"] "Sq M" None None "Price"
              None None None None None 2024 6 Sample.months_to_june
              Sample.table _ eq_refl ltac:(discriminate))
    as (fig & Hfig & _ & _ & Hhover).
  exists fig. split; [ exact Hfig | ].
  destruct (Hhover 0%nat _ eq_refl) as (Htown & Hstreet & _).
  split; [ exact Htown | exact Hstreet ].
Defined.

Lemma update_g2_on_view_witness :
  exists view,
    df_filter 6 "All" ["4RM"] "Sq M" None None "Price / Area" None None None
      None None 2024 6 Sample.months_to_june
      (write_json (canonical_table Sample.table)) = Ok view /\
    rows view <> [] /\
    exists fig,
      update_g2 (write_json view) "All" "Sq M" "Price / Area" None None = Ok fig /\
      trace_y fig = [Num (5555 # 1); Num (6315 # 1)] /\
      trace_x fig = [Count (Some 61); Count (Some 80)].
Proof.
  eexists. split; [ reflexivity | ]. split; [ discriminate | ].
  destruct (update_g2_on_view 6 "All" ["4RM"] "Sq M" None None "Price / Area"
              None None None None None 2024 6 Sample.months_to_june
              Sample.table _ eq_refl ltac:(discriminate))
    as (fig & box & Hfig & _ & Hy & _ & Hx & _).
  exists fig. split; [ exact Hfig | ]. split; [ exact Hy | exact Hx ].
Defined.

(** ** More on [update_text] *)

Section SummaryText.

Variables (town : string) (max_lease min_lease : option number).

(** X16: [update_text] answers a search without rows with the no-results
    text in every mode, and raises [UnboundLocalError] on rows when the two
    labels are not one of the four pairs it tests: the area label has to be
    "Sq M" or "Sq Feet" and the price label "Price" or "Price / Area". *)
Theorem update_text_without_rows_or_mode (data : DataFrame)
  (price_type area_type : string) :
  (rows data = [] ->
   update_text data town area_type price_type max_lease min_lease = Ok NoResults)
  /\
  (rows data <> [] ->
   ~ In (price_type, area_type)
       [("Price", "Sq M"); ("Price", "Sq Feet");
        ("Price / Area", "Sq M"); ("Price / Area", "Sq Feet")] ->
   update_text data town area_type price_type max_lease min_lease
   = Raised (UnboundLocalError "price_min")).
Proof.
  split.
  - intros Hrows. unfold update_text, pl_DataFrame. now rewrite Hrows.
  - intros Hrows Hmode. unfold update_text.
    rewrite (SummaryFacts.pl_DataFrame_nonempty data Hrows),
      (SummaryFacts.length_positive _ Hrows).
    destruct (String.eqb_spec price_type "Price") as [Ep | Ep],
             (String.eqb_spec area_type "Sq M") as [Ea | Ea],
             (String.eqb_spec area_type "Sq Feet") as [Ef | Ef],
             (String.eqb_spec price_type "Price / Area") as [Eq | Eq];
      subst; try discriminate; cbn [andb bind];
      try reflexivity; exfalso; apply Hmode; cbn; tauto.
Qed.

End SummaryText.

Lemma update_text_without_rows_or_mode_witness :
  update_text {| columns := []; rows := [] |} "All" "Sq M" "Price / Area" None None
  = Ok NoResults /\
  update_text (canonical_table Sample.table) "All" "Sq Ft" "Price" None None
  = Raised (UnboundLocalError "price_min").
Proof.
  split.
  - exact (proj1 (update_text_without_rows_or_mode "All" None None
                    {| columns := []; rows := [] |} "Price / Area" "Sq M")
             eq_refl).
  - apply (proj2 (update_text_without_rows_or_mode "All" None None
                    (canonical_table Sample.table) "Price" "Sq Ft")).
    + discriminate.
    + intros [H | [H | [H | [H | []]]]]; discriminate H.
Defined.
(** ** The periods *)

Module PeriodFacts.

Lemma next_month_index (d : date) :
  1 <= mon d <= 12 ->
  1 <= mon (next_month d) <= 12 /\ month_index (next_month d) = month_index d + 1.
Proof.
  intros Hd. unfold next_month, month_index.
  destruct (Z.eqb_spec (mon d) 12) as [E | E]; cbn [year mon]; lia.
Qed.

Lemma months_from_length (d : date) (n : nat) : length (months_from d n) = n.
Proof.
  revert d. induction n as [ | n IH ]; intros d; cbn; [ reflexivity | ].
  now rewrite IH.
Qed.

Lemma months_from_nth (n : nat) :
  forall d i d',
    1 <= mon d <= 12 ->
    nth_error (months_from d n) i = Some d' ->
    1 <= mon d' <= 12 /\ month_index d' = month_index d + Z.of_nat i.
Proof.
  induction n as [ | n IH ]; intros d i d' Hd H.
  - destruct i; discriminate H.
  - destruct i as [ | i ]; cbn in H.
    + inversion H. subst d'. split; [ exact Hd | lia ].
    + destruct (next_month_index d Hd) as (Hnext & Hindex).
      destruct (IH _ _ _ Hnext H) as (Hmon & Hi).
      split; [ exact Hmon | lia ].
Qed.

Lemma date_by_index (d : date) (yr mth : Z) :
  1 <= mon d <= 12 -> 1 <= mth <= 12 ->
  month_index d = 12 * yr + mth ->
  d = {| year := yr; mon := mth |}.
Proof.
  destruct d as [y m]. unfold month_index. cbn [year mon]. intros Hm Hmth H.
  assert (y = yr) by lia. assert (m = mth) by lia. now subst.
Qed.

Lemma slice_from_map {A B : Type} (f : A -> B) (start : Z) (l : list A) :
  slice_from start (map f l) = map f (slice_from start l).
Proof. unfold slice_from. now rewrite length_map, skipn_map. Qed.

Lemma four_digits (y : Z) :
  1000 <= y <= 9999 -> String.length (digits_of y) = 4%nat.
Proof.
  intros Hy.
  assert (Hall : forallb
                   (fun n => Nat.eqb
                               (String.length (digits_of (1000 + Z.of_nat n))) 4)
                   (seq 0 (Z.to_nat 9000)) = true) by (vm_compute; reflexivity).
  rewrite forallb_forall in Hall.
  specialize (Hall (Z.to_nat (y - 1000))).
  replace (1000 + Z.of_nat (Z.to_nat (y - 1000))) with y in Hall by lia.
  apply Nat.eqb_eq, Hall, in_seq. lia.
Qed.

Lemma two_digits_at_most (m : Z) :
  1 <= m <= 12 -> String.length (zero_pad 2 (digits_of m)) = 2%nat.
Proof.
  intros Hm.
  assert (Hcase : m = 1 \/ m = 2 \/ m = 3 \/ m = 4 \/ m = 5 \/ m = 6 \/ m = 7
                  \/ m = 8 \/ m = 9 \/ m = 10 \/ m = 11 \/ m = 12) by lia.
  repeat (destruct Hcase as [-> | Hcase]; [ reflexivity | ]). now subst.
Qed.

Lemma substring_prefix (a b : string) :
  substring 0 (String.length a) (a ++ b) = a.
Proof.
  induction a as [ | c a IH ]; cbn.
  - destruct b; reflexivity.
  - now rewrite IH.
Qed.

Lemma length_append (a b : string) :
  String.length (a ++ b) = (String.length a + String.length b)%nat.
Proof. induction a as [ | c a IH ]; cbn; [ reflexivity | now rewrite IH ]. Qed.

Lemma append_assoc (a b c : string) : (a ++ b) ++ c = a ++ b ++ c.
Proof. induction a as [ | x a IH ]; cbn; [ reflexivity | now rewrite IH ]. Qed.

(** The first seven characters of [str(i)] are [i.strftime("%Y-%m")]. *)
Lemma str_datetime_prefix (d : date) :
  1000 <= year d <= 9999 -> 1 <= mon d <= 12 ->
  substring 0 7 (str_datetime d) = strftime_Y_m d.
Proof.
  intros Hy Hm. unfold str_datetime, strftime_Y_m.
  set (Y := zero_pad 4 (digits_of (year d))).
  set (M := zero_pad 2 (digits_of (mon d))).
  assert (HY : String.length Y = 4%nat).
  { unfold Y, zero_pad. rewrite (four_digits _ Hy). cbn. now apply four_digits. }
  assert (HM : String.length M = 2%nat) by now apply two_digits_at_most.
  replace (Y ++ "-" ++ M ++ "-01 00:00:00")
    with ((Y ++ "-" ++ M) ++ "-01 00:00:00")
    by now rewrite !append_assoc.
  replace 7%nat with (String.length (Y ++ "-" ++ M)).
  - apply substring_prefix.
  - rewrite !length_append, HY, HM. reflexivity.
Qed.

Lemma date_range_to_dates (yr mth : Z) (d : date) :
  In d (date_range_to yr mth) ->
  1 <= mon d <= 12 /\ 2024 <= year d /\ month_index d <= 12 * yr + mth.
Proof.
  intros Hin. apply In_nth_error in Hin as (i & Hi).
  assert (Hlt : (i < length (date_range_to yr mth))%nat)
    by (apply nth_error_Some; congruence).
  unfold date_range_to in Hi, Hlt. rewrite months_from_length in Hlt.
  destruct (months_from_nth _ first_month i d ltac:(cbn; lia) Hi) as (Hmon & Hindex).
  unfold month_index in *. cbn [year mon first_month] in Hindex. lia.
Qed.

End PeriodFacts.

(** X17: for a current month [mth] of a year [yr] from 2024 on, the
    enumeration has one month for each month from January 2024 to the current
    one, which is its last entry; the fetch window [recent_periods] has six
    periods, or all of them while fewer than six months have passed. *)
Theorem periods_run_to_the_current_month (yr mth : Z)
  (Hyr : 2024 <= yr) (Hmth : 1 <= mth <= 12) :
  length (total_periods yr mth) = Z.to_nat (12 * (yr - 2024) + mth) /\
  nth_error (date_range_to yr mth) (Z.to_nat (12 * (yr - 2024) + mth) - 1)
  = Some {| year := yr; mon := mth |} /\
  length (recent_periods yr mth)
  = Nat.min 6 (Z.to_nat (12 * (yr - 2024) + mth)).
Proof.
  set (n := Z.to_nat (12 * (yr - 2024) + mth)).
  assert (Hlen : length (total_periods yr mth) = n).
  { unfold total_periods, date_range_to. now rewrite length_map, PeriodFacts.months_from_length. }
  split; [ exact Hlen | ]. split.
  - destruct (nth_error (date_range_to yr mth) (n - 1)) as [ d | ] eqn:E.
    + unfold date_range_to in E. fold n in E.
      destruct (PeriodFacts.months_from_nth _ first_month _ d ltac:(cbn; lia) E)
        as (Hmon & Hindex).
      f_equal. apply PeriodFacts.date_by_index; [ exact Hmon | exact Hmth | ].
      rewrite Hindex. unfold month_index. cbn [year mon first_month].
      unfold n. lia.
    + apply nth_error_None in E. unfold date_range_to in E.
      rewrite PeriodFacts.months_from_length in E. fold n in E.
      unfold n in E. lia.
  - unfold recent_periods.
    change (slice_from (- 6) (total_periods yr mth))
      with (slice_from (Z.opp 6) (total_periods yr mth)).
    rewrite WindowFacts.slice_from_as_skipn by lia.
    rewrite length_skipn, Hlen. lia.
Qed.

Lemma periods_run_to_the_current_month_witness :
  length (total_periods 2026 11) = 35%nat /\
  nth_error (date_range_to 2026 11) 34 = Some {| year := 2026; mon := 11 |} /\
  length (recent_periods 2026 11) = 6%nat.
Proof.
  exact (periods_run_to_the_current_month 2026 11 ltac:(lia) ltac:(lia)).
Defined.

(** X18: the periods that are fetched are the months [df_filter] selects
    with [month = 6]: up to the year 9999, [recent_periods] is the window of
    six months of [selected_mths] in the form "YYYY-MM", so a row of a fetched
    period is never left out by the default window. *)
Theorem fetched_periods_are_the_default_window (yr mth : Z)
  (Hyr : 2024 <= yr <= 9999) (Hmth : 1 <= mth <= 12) :
  recent_periods yr mth = selected_periods 6 (date_range_to yr mth).
Proof.
  unfold recent_periods, total_periods, selected_periods.
  rewrite PeriodFacts.slice_from_map. apply map_ext_in.
  intros d Hd.
  assert (Hin : In d (date_range_to yr mth)).
  { change (slice_from (- 6) (date_range_to yr mth))
      with (slice_from (Z.opp 6) (date_range_to yr mth)) in Hd.
    rewrite WindowFacts.slice_from_as_skipn in Hd by lia.
    now apply WindowFacts.In_skipn in Hd. }
  destruct (PeriodFacts.date_range_to_dates yr mth d Hin) as (Hmon & Hlow & Hindex).
  apply PeriodFacts.str_datetime_prefix; [ | exact Hmon ].
  unfold month_index in Hindex. lia.
Qed.

Lemma fetched_periods_are_the_default_window_witness :
  recent_periods 2026 11
  = ["2026-06"; "2026-07"; "2026-08"; "2026-09"; "2026-10"; "2026-11"] /\
  selected_periods 6 (date_range_to 2026 11) = recent_periods 2026 11.
Proof.
  split; [ reflexivity | ].
  symmetry.
  exact (fetched_periods_are_the_default_window 2026 11 ltac:(lia) ltac:(lia)).
Defined.

(** ** The lease bounds and the summary of a view *)

Section LeaseBounds.

Variables (month : Z) (town : string) (flat : list string) (area_type : string).
Variables (max_area min_area : option number) (price_type : string).
Variables (max_price min_price : option number).
Variables (street_name : option string) (yr mth : Z).
Variables (selected_mths : list date) (records : list Rec.t).

Lemma df_filter_by_bounds (min_lease max_lease min_lease' max_lease' : option number) :
  (forall r, keep_bounds town area_type price_type min_area max_price min_price
               min_lease max_lease r
             = keep_bounds town area_type price_type min_area max_price min_price
                 min_lease' max_lease' r) ->
  df_filter month town flat area_type max_area min_area price_type
    max_price min_price min_lease max_lease street_name yr mth
    selected_mths (write_json (canonical_table records))
  = df_filter month town flat area_type max_area min_area price_type
      max_price min_price min_lease' max_lease' street_name yr mth
      selected_mths (write_json (canonical_table records)).
Proof.
  intros Hsame. destruct records as [ | r0 l ].
  - now rewrite !FilterFacts.df_filter_empty_table.
  - rewrite !FilterFacts.df_filter_canonical by discriminate.
    destruct (traverse unnest_row _) as [ rows1 | e ]; [ | reflexivity ].
    cbn [bind]. do 2 f_equal. now apply filter_ext.
Qed.

(** X19: the two lease values can be exchanged without changing what
    [df_filter] returns, so [filtered_data], which hands them over in the
    other order, returns what the call in the named order returns. *)
Theorem lease_values_can_be_exchanged (min_lease max_lease : option number) :
  df_filter month town flat area_type max_area min_area price_type
    max_price min_price min_lease max_lease street_name yr mth
    selected_mths (write_json (canonical_table records))
  = df_filter month town flat area_type max_area min_area price_type
      max_price min_price max_lease min_lease street_name yr mth
      selected_mths (write_json (canonical_table records))
  /\
  filtered_data town area_type price_type max_lease min_lease month flat
    max_area min_area max_price min_price street_name yr mth selected_mths
    (write_json (canonical_table records))
  = (df <- df_filter month town flat area_type max_area min_area price_type
             max_price min_price min_lease max_lease street_name yr mth
             selected_mths (write_json (canonical_table records)) ;;
     Ok (write_json df)).
Proof.
  assert (Hswap :
    df_filter month town flat area_type max_area min_area price_type
      max_price min_price min_lease max_lease street_name yr mth
      selected_mths (write_json (canonical_table records))
    = df_filter month town flat area_type max_area min_area price_type
        max_price min_price max_lease min_lease street_name yr mth
        selected_mths (write_json (canonical_table records))).
  { apply df_filter_by_bounds. intros r. unfold keep_bounds.
    do 4 f_equal. apply andb_comm. }
  split; [ exact Hswap | ].
  unfold filtered_data. now rewrite Hswap.
Qed.

(** X20: of two truthy lease values only the larger counts: when
    [int(a) <= int(b)], the run with both returns what the run with [b] alone
    returns, whichever of the two parameters holds which. *)
Theorem smaller_lease_value_has_no_effect (a b : number)
  (Ha : truthy (Some a) = true) (Hb : truthy (Some b) = true)
  (Hab : int a <= int b) :
  df_filter month town flat area_type max_area min_area price_type
    max_price min_price (Some a) (Some b) street_name yr mth
    selected_mths (write_json (canonical_table records))
  = df_filter month town flat area_type max_area min_area price_type
      max_price min_price None (Some b) street_name yr mth
      selected_mths (write_json (canonical_table records))
  /\
  df_filter month town flat area_type max_area min_area price_type
    max_price min_price (Some b) (Some a) street_name yr mth
    selected_mths (write_json (canonical_table records))
  = df_filter month town flat area_type max_area min_area price_type
      max_price min_price (Some b) None street_name yr mth
      selected_mths (write_json (canonical_table records)).
Proof.
  assert (Hge : forall r,
             year_count_ge (int a) r && year_count_ge (int b) r
             = year_count_ge (int b) r).
  { intros r. unfold year_count_ge. destruct (year_count r) as [ y | ];
      [ | reflexivity ].
    destruct (Z.leb_spec (int b) y) as [H | H].
    - rewrite andb_true_r. apply Z.leb_le. lia.
    - apply andb_false_r. }
  split; apply df_filter_by_bounds; intros r; unfold keep_bounds, keep_when;
    rewrite Ha, Hb; do 4 f_equal.
  - rewrite andb_true_r, andb_comm. apply Hge.
  - cbn [andb]. apply Hge.
Qed.

End LeaseBounds.

Lemma smaller_lease_value_has_no_effect_witness :
  df_filter 6 "All" ["4RM"; "3RM"] "Sq M" None None "Price" None None
    (Some (PyInt 65)) (Some (PyInt 75)) None 2024 6 Sample.months_to_june
    (write_json (canonical_table Sample.table))
  = df_filter 6 "All" ["4RM"; "3RM"] "Sq M" None None "Price" None None
      None (Some (PyInt 75)) None 2024 6 Sample.months_to_june
      (write_json (canonical_table Sample.table)).
Proof.
  exact (proj1 (smaller_lease_value_has_no_effect 6 "All" ["4RM"; "3RM"] "Sq M"
                  None None "Price" None None None 2024 6
                  Sample.months_to_june Sample.table (PyInt 65) (PyInt 75)
                  eq_refl eq_refl ltac:(cbn; lia))).
Defined.

Section ViewSummary.

Variables (month : Z) (town : string) (flat : list string) (area_type : string).
Variables (max_area min_area : option number) (price_type : string).
Variables (max_price min_price min_lease max_lease : option number).
Variables (street_name : option string) (yr mth : Z).
Variables (selected_mths : list date) (records : list Rec.t) (view : DataFrame).

(** X21: for a view with rows that [df_filter] returned, in the three modes
    other than "Price / Area" with "Sq M", [update_text] with the same labels
    reports the number of rows of the view and the least and greatest values
    of the column the price bounds were compared with and of the area column
    of the unit. *)
Theorem update_text_on_view
  (Hview : df_filter month town flat area_type max_area min_area price_type
             max_price min_price min_lease max_lease street_name yr mth
             selected_mths (write_json (canonical_table records)) = Ok view)
  (Hrows : rows view <> [])
  (Hmode : In (price_type, area_type)
              [("Price", "Sq M"); ("Price", "Sq Feet");
               ("Price / Area", "Sq Feet")]) :
  exists s,
    update_text (write_json view) town area_type price_type max_lease min_lease
    = Ok (Searched s)
    /\ bounds_of (price_column price_type area_type) (area_column area_type)
         view s.
Proof.
  apply SummaryFacts.update_text_other_modes; try assumption;
    rewrite (ViewFacts.view_shape _ _ _ _ _ _ _ _ _ _ _ _ _ _ _ _ _ Hview);
    destruct Hmode as [E | [E | [E | []]]]; injection E as <- <-; reflexivity.
Qed.

End ViewSummary.

Lemma update_text_on_view_witness :
  exists view s,
    df_filter 6 "All" ["4RM"] "Sq Feet" None None "Price / Area" None None
      None None None 2024 6 Sample.months_to_june
      (write_json (canonical_table Sample.table)) = Ok view /\
    update_text (write_json view) "All" "Sq Feet" "Price / Area" None None
    = Ok (Searched s) /\
    records s = 2%nat /\
    is_minimum (price_min s) [516 # 1; 587 # 1].
Proof.
  eexists.
  destruct (update_text_on_view 6 "All" ["4RM"] "Sq Feet" None None
              "Price / Area" None None None None None 2024 6
              Sample.months_to_june Sample.table _ eq_refl
              ltac:(discriminate) ltac:(do 2 right; now left))
    as (s & Hs & Hmin & _ & _ & _ & Hcount).
  exists s. split; [ reflexivity | ]. split; [ exact Hs | ].
  split; [ exact Hcount | exact Hmin ].
Defined.
